(** * Session protocol controller of flamawings: readiness gate, container
      inference, slot transactions, reconnect supervisor and state machine.

    Four parts of the repository are embedded:
    - [Fsm]: the class [StateMachine] (src/src/proxy-manager.js, second
      document, imported elsewhere as ./StateMachine.js);
    - [Bot]: the single-file session script (src/unnamed/part_001);
    - [Proxy]: the class [ProxyManager] (src/src/proxy-manager.js, first
      document);
    - [App]: the classes [BedrockClient] (src/src/BedrockClient.js),
      [CommandHandler] (src/src/CommandHandler.js) and [GUIHandler]
      (src/unnamed/part_003) around one [StateMachine].

    JavaScript values are modelled by the types the code tests for:
    integers as [Z], strings as [string], arrays with holes as lists of
    optional items.  Console output is not modelled. *)

From Stdlib Require Import ZArith List String Ascii Bool Lia Permutation.
From Stdlib Require Import DecimalString.
Import ListNotations.
Open Scope string_scope.
Open Scope Z_scope.

(* ===================================================================== *)
(** ** JavaScript values and strings *)
(* ===================================================================== *)

Module Js.

(** The values a packet field can hold, as far as [typeof] and
    [Number.isFinite] tell them apart.  Identifiers and sizes are
    integers, so a finite number is an element of [Z]; [JsNonFinite]
    stands for NaN and the two infinities. *)
Inductive JsValue : Type :=
| JsUndefined
| JsNull
| JsBool (b : bool)
| JsNumber (z : Z)
| JsNonFinite
| JsString (s : string).

(** [typeof v === "string"] *)
Definition typeof_string (v : JsValue) : bool :=
  match v with JsString _ => true | _ => false end.

(** [typeof v === "number" && Number.isFinite(v)] *)
Definition finite_number (v : JsValue) : bool :=
  match v with JsNumber _ => true | _ => false end.

(** [hay.startsWith(needle)] *)
Fixpoint startsWith (hay needle : string) : bool :=
  match needle, hay with
  | EmptyString, _ => true
  | String c n', String d h' => Ascii.eqb c d && startsWith h' n'
  | String _ _, EmptyString => false
  end.

(** [hay.includes(needle)] *)
Fixpoint includes (hay needle : string) : bool :=
  startsWith hay needle ||
  match hay with
  | EmptyString => false
  | String _ h' => includes h' needle
  end.

(** [String.prototype.toLowerCase] on the ASCII letters; other bytes are
    kept. *)
Definition lower_ascii (c : ascii) : ascii :=
  let n := nat_of_ascii c in
  if (Nat.leb 65 n && Nat.leb n 90)%bool then ascii_of_nat (n + 32) else c.

Fixpoint toLowerCase (s : string) : string :=
  match s with
  | EmptyString => EmptyString
  | String c s' => String (lower_ascii c) (toLowerCase s')
  end.

(** [xs.join(sep)] on strings *)
Fixpoint join (sep : string) (xs : list string) : string :=
  match xs with
  | [] => ""
  | [x] => x
  | x :: rest => x ++ sep ++ join sep rest
  end.

End Js.

(* ===================================================================== *)
(** ** StateMachine (src/src/proxy-manager.js, lines 108-252) *)
(* ===================================================================== *)

Module Fsm.
Import Js.

Inductive ClientState : Type :=
| DISCONNECTED | CONNECTING | AUTHENTICATING | RESOURCE_PACKS | SPAWNING
| WAITING_COMMANDS | WAIT_INVENTORY_READY | READY | COMMAND_SENT
| WAITING_GUI | GUI_RECEIVED | CLICKING_SLOT | COMPLETED | ERROR.

(** The string each member of [ClientState] is bound to. *)
Definition name (s : ClientState) : string :=
  match s with
  | DISCONNECTED => "DISCONNECTED" | CONNECTING => "CONNECTING"
  | AUTHENTICATING => "AUTHENTICATING" | RESOURCE_PACKS => "RESOURCE_PACKS"
  | SPAWNING => "SPAWNING" | WAITING_COMMANDS => "WAITING_COMMANDS"
  | WAIT_INVENTORY_READY => "WAIT_INVENTORY_READY" | READY => "READY"
  | COMMAND_SENT => "COMMAND_SENT" | WAITING_GUI => "WAITING_GUI"
  | GUI_RECEIVED => "GUI_RECEIVED" | CLICKING_SLOT => "CLICKING_SLOT"
  | COMPLETED => "COMPLETED" | ERROR => "ERROR"
  end.

Definition ClientState_eq_dec (a b : ClientState) : {a = b} + {a <> b}.
Proof. decide equality. Defined.

Definition state_eqb (a b : ClientState) : bool :=
  if ClientState_eq_dec a b then true else false.

(** [_buildTransitions()]: the allowed successors of each state. *)
Definition transitions (s : ClientState) : list ClientState :=
  match s with
  | DISCONNECTED => [CONNECTING]
  | CONNECTING => [AUTHENTICATING; ERROR]
  | AUTHENTICATING => [RESOURCE_PACKS; SPAWNING; ERROR]
  | RESOURCE_PACKS => [SPAWNING; ERROR]
  | SPAWNING => [WAITING_COMMANDS; WAIT_INVENTORY_READY; READY; ERROR]
  | WAITING_COMMANDS => [READY; ERROR]
  | WAIT_INVENTORY_READY => [READY; ERROR]
  | READY => [COMMAND_SENT; ERROR]
  | COMMAND_SENT => [READY; WAITING_GUI; ERROR]
  | WAITING_GUI => [GUI_RECEIVED; READY; ERROR]
  | GUI_RECEIVED => [CLICKING_SLOT; ERROR]
  | CLICKING_SLOT => [COMPLETED; ERROR]
  | COMPLETED => []
  | ERROR => []
  end.

Record StateData : Type := {
  commandsAvailable : bool;
  inventoryReady : bool;
  windowId : JsValue;
  containerType : JsValue;
  containerSlots : JsValue
}.

(** The object literal of the constructor and of [reset]. *)
Definition freshData : StateData :=
  {| commandsAvailable := false; inventoryReady := false;
     windowId := JsNull; containerType := JsNull; containerSlots := JsNull |}.

Inductive Level : Type := LvError | LvInfo.

(** The machine: its state, its data and what it has written to the
    logger so far (oldest line first). *)
Record StateMachine : Type := {
  state : ClientState;
  stateData : StateData;
  logger : list (Level * string)
}.

Definition new : StateMachine :=
  {| state := DISCONNECTED; stateData := freshData; logger := [] |}.

Definition canTransition (newState : ClientState) (sm : StateMachine) : bool :=
  existsb (state_eqb newState) (transitions (state sm)).

Definition invalidMessage (cur newState : ClientState) : string :=
  "Invalid transition: " ++ name cur ++ " → " ++ name newState ++ ". " ++
  "Allowed: " ++ join ", " (map name (transitions cur)).

Definition stateMessage (oldState newState : ClientState) (reason : string) : string :=
  "State: " ++ name oldState ++ " → " ++ name newState ++
  (if String.eqb reason "" then "" else " (" ++ reason ++ ")").

(** [transition(newState, reason)]: the returned boolean and the machine
    afterwards. *)
Definition transition (newState : ClientState) (reason : string)
    (sm : StateMachine) : bool * StateMachine :=
  if negb (canTransition newState sm) then
    (false,
     {| state := state sm; stateData := stateData sm;
        logger := logger sm ++ [(LvError, invalidMessage (state sm) newState)] |})
  else
    (true,
     {| state := newState; stateData := stateData sm;
        logger := logger sm ++ [(LvInfo, stateMessage (state sm) newState reason)] |}).

Definition isReady (sm : StateMachine) : bool := state_eqb (state sm) READY.

Definition canSendCommand (sm : StateMachine) : bool :=
  state_eqb (state sm) READY &&
  commandsAvailable (stateData sm) && inventoryReady (stateData sm).

Definition checkReadyState (sm : StateMachine) : StateMachine :=
  if (state_eqb (state sm) WAITING_COMMANDS ||
      state_eqb (state sm) SPAWNING ||
      state_eqb (state sm) WAIT_INVENTORY_READY) &&
     commandsAvailable (stateData sm) && inventoryReady (stateData sm)
  then snd (transition READY "Commands & Inventory ready" sm)
  else sm.

Definition withData (d : StateData) (sm : StateMachine) : StateMachine :=
  {| state := state sm; stateData := d; logger := logger sm |}.

Definition setCommandsAvailable (available : bool) (sm : StateMachine) : StateMachine :=
  let d := stateData sm in
  checkReadyState
    (withData {| commandsAvailable := available; inventoryReady := inventoryReady d;
                 windowId := windowId d; containerType := containerType d;
                 containerSlots := containerSlots d |} sm).

Definition setInventoryReady (ready : bool) (sm : StateMachine) : StateMachine :=
  let d := stateData sm in
  checkReadyState
    (withData {| commandsAvailable := commandsAvailable d; inventoryReady := ready;
                 windowId := windowId d; containerType := containerType d;
                 containerSlots := containerSlots d |} sm).

Definition setContainerData (wid ctype : JsValue) (sm : StateMachine) : StateMachine :=
  let d := stateData sm in
  withData {| commandsAvailable := commandsAvailable d;
              inventoryReady := inventoryReady d;
              windowId := wid; containerType := ctype;
              containerSlots := containerSlots d |} sm.

Definition reset (sm : StateMachine) : StateMachine :=
  {| state := DISCONNECTED; stateData := freshData; logger := logger sm |}.

(** Every method of the class that writes to the machine. *)
Inductive Method : Type :=
| MTransition (newState : ClientState) (reason : string)
| MSetCommandsAvailable (available : bool)
| MSetInventoryReady (ready : bool)
| MCheckReadyState
| MSetContainerData (wid ctype : JsValue)
| MReset.

Definition call (m : Method) (sm : StateMachine) : StateMachine :=
  match m with
  | MTransition t r => snd (transition t r sm)
  | MSetCommandsAvailable b => setCommandsAvailable b sm
  | MSetInventoryReady b => setInventoryReady b sm
  | MCheckReadyState => checkReadyState sm
  | MSetContainerData w c => setContainerData w c sm
  | MReset => reset sm
  end.

Definition calls (ms : list Method) (sm : StateMachine) : StateMachine :=
  fold_left (fun s m => call m s) ms sm.

End Fsm.

(* ===================================================================== *)
(** ** The session script (src/unnamed/part_001) *)
(* ===================================================================== *)

Module Bot.
Import Js.

Inductive State : Type :=
| CONNECTING | WAIT_SPAWN | WAIT_AVAILABLE_COMMANDS | WAIT_INVENTORY_READY
| READY | COMMAND_SENT | WAIT_UI | CONTAINER_OPENED | WAIT_CONTAINER_CONTENT
| CLICK_SENT | DONE.

Definition State_eq_dec (a b : State) : {a = b} + {a <> b}.
Proof. decide equality. Defined.

Definition state_is (a b : State) : bool :=
  if State_eq_dec a b then true else false.

Definition TARGET_COMMAND : string := "/tpa".
Definition TARGET_SLOT_INDEX : Z := 16.
Definition RECONNECT_BASE_MS : Z := 2000.
Definition RECONNECT_MAX_MS : Z := 60000.

(** A window id as [normalizeWindowId] returns it: a number, or a string
    that is neither numeric nor a key of WINDOW_ID_NAME_TO_NUM.  The
    events below carry window ids in this form. *)
Inductive WindowId : Type :=
| WNum (n : Z)
| WName (s : string).

Definition WindowId_eq_dec (a b : WindowId) : {a = b} + {a <> b}.
Proof. decide equality; [apply Z.eq_dec | apply string_dec]. Defined.

Definition same_window (a b : WindowId) : bool :=
  if WindowId_eq_dec a b then true else false.

Definition isPlayerInventoryWindowId (windowId : WindowId) : bool :=
  match windowId with
  | WNum id => (id =? 0) || (id =? 1) || (id =? 2) || (id =? 119) || (id =? 120)
  | WName _ => false
  end.

Definition PLAYER_INVENTORY_WINDOW_ID : WindowId := WNum 0.

(** An item object; a field other than [network_id] may be missing. *)
Record Item : Type := mkItem {
  network_id : Z;
  count : option Z;
  metadata : option Z;
  stack_id : option Z
}.

(** An array element: [None] is [undefined], [null] or a hole. *)
Definition Slot : Type := option Item.

Definition EMPTY_ITEM : Item :=
  {| network_id := 0; count := None; metadata := None; stack_id := None |}.

Definition isEmptyItem (item : Slot) : bool :=
  match item with
  | None => true
  | Some it => network_id it =? 0
  end.

(** [items[i]] for an integer [i >= 0]. *)
Definition js_get (items : list Slot) (i : Z) : Slot :=
  match nth_error items (Z.to_nat i) with
  | Some x => x
  | None => None
  end.

(** [items[n] = v]: past the end the array grows, leaving holes. *)
Fixpoint js_set_nat (items : list Slot) (n : nat) (v : Slot) : list Slot :=
  match n, items with
  | O, [] => [v]
  | O, _ :: rest => v :: rest
  | S n', [] => None :: js_set_nat [] n' v
  | S n', x :: rest => x :: js_set_nat rest n' v
  end.

(** [items[i] = v] for an integer [i]; a negative [i] names a property
    that is not an element, and no code reads it back.  The array index
    ends at 2^32 - 2: from 2^32 - 1 on JavaScript keeps a property as
    well and [length] stays, where this list grows; what is read back at
    [i] is [v] in both. *)
Definition js_set (items : list Slot) (i : Z) (v : Slot) : list Slot :=
  if i <? 0 then items else js_set_nat items (Z.to_nat i) v.

Record Action : Type := mkAction {
  source_type : string;
  inventory_id : WindowId;
  slot : Z;
  old_item : Item;
  new_item : Item
}.

Record Transaction : Type := mkTransaction {
  legacy_request_id : Z;
  transaction_type : string;
  actions : list Action
}.

(** The payload of command_request, without the random uuid. *)
Record CommandRequest : Type := mkCommandRequest {
  command : string;
  origin_type : string;
  request_id : string;
  player_entity_id : Z;
  internal : bool;
  version : string
}.

Inductive Packet : Type :=
| command_request (params : CommandRequest)
| inventory_transaction (transaction : Transaction).

(** One call of [client.queue]: the packet and whether the call
    returned ([true]) or raised ([false]). *)
Record Out : Type := mkOut { pkt : Packet; queued : bool }.

(** The top-level variables of the script.  [client] is whether the
    variable holds a client; a timer variable is whether a timer is
    pending ([reconnectTimer] with its delay); [readyTimers] counts the
    pending 600 ms callbacks of [onMaybeReady]; [outbox] lists the calls
    of [client.queue], oldest first.  The two variables that only
    suppress repeated console lines are left out with the console. *)
Record St : Type := mkSt {
  client : bool;
  state : State;
  availableCommandsSeen : bool;
  inventoryReady : bool;
  inventoryReadyReason : option string;
  inventoryReadyFallbackTimer : bool;
  currentWindowId : option WindowId;
  currentWindowType : JsValue;
  currentWindowItems : option (list Slot);
  playerInventoryItems : option (list Slot);
  clickSent : bool;
  commandSent : bool;
  autoCommandSent : bool;
  commandSentCount : nat;
  wantConnected : bool;
  reconnectTimer : option Z;
  reconnectAttempt : nat;
  pendingReconnectReason : option string;
  pendingReconnectDelayMs : option Z;
  desiredTakeSlotIndex : Z;
  readyTimers : nat;
  outbox : list Out
}.

(** The values the variables are declared with. *)
Definition init : St :=
  {| client := false; state := CONNECTING;
     availableCommandsSeen := false; inventoryReady := false;
     inventoryReadyReason := None; inventoryReadyFallbackTimer := false;
     currentWindowId := None; currentWindowType := JsNull;
     currentWindowItems := None; playerInventoryItems := None;
     clickSent := false; commandSent := false; autoCommandSent := false;
     commandSentCount := 0%nat;
     wantConnected := false; reconnectTimer := None; reconnectAttempt := 0%nat;
     pendingReconnectReason := None; pendingReconnectDelayMs := None;
     desiredTakeSlotIndex := TARGET_SLOT_INDEX; readyTimers := 0%nat;
     outbox := [] |}.

Definition set_client v (s : St) : St :=
  mkSt v (state s) (availableCommandsSeen s) (inventoryReady s)
    (inventoryReadyReason s) (inventoryReadyFallbackTimer s)
    (currentWindowId s) (currentWindowType s) (currentWindowItems s)
    (playerInventoryItems s) (clickSent s) (commandSent s)
    (autoCommandSent s) (commandSentCount s) (wantConnected s)
    (reconnectTimer s) (reconnectAttempt s) (pendingReconnectReason s)
    (pendingReconnectDelayMs s) (desiredTakeSlotIndex s) (readyTimers s)
    (outbox s).

Definition set_state v (s : St) : St :=
  mkSt (client s) v (availableCommandsSeen s) (inventoryReady s)
    (inventoryReadyReason s) (inventoryReadyFallbackTimer s)
    (currentWindowId s) (currentWindowType s) (currentWindowItems s)
    (playerInventoryItems s) (clickSent s) (commandSent s)
    (autoCommandSent s) (commandSentCount s) (wantConnected s)
    (reconnectTimer s) (reconnectAttempt s) (pendingReconnectReason s)
    (pendingReconnectDelayMs s) (desiredTakeSlotIndex s) (readyTimers s)
    (outbox s).

Definition set_availableCommandsSeen v (s : St) : St :=
  mkSt (client s) (state s) v (inventoryReady s) (inventoryReadyReason s)
    (inventoryReadyFallbackTimer s) (currentWindowId s)
    (currentWindowType s) (currentWindowItems s) (playerInventoryItems s)
    (clickSent s) (commandSent s) (autoCommandSent s) (commandSentCount s)
    (wantConnected s) (reconnectTimer s) (reconnectAttempt s)
    (pendingReconnectReason s) (pendingReconnectDelayMs s)
    (desiredTakeSlotIndex s) (readyTimers s) (outbox s).

Definition set_inventoryReady v (s : St) : St :=
  mkSt (client s) (state s) (availableCommandsSeen s) v
    (inventoryReadyReason s) (inventoryReadyFallbackTimer s)
    (currentWindowId s) (currentWindowType s) (currentWindowItems s)
    (playerInventoryItems s) (clickSent s) (commandSent s)
    (autoCommandSent s) (commandSentCount s) (wantConnected s)
    (reconnectTimer s) (reconnectAttempt s) (pendingReconnectReason s)
    (pendingReconnectDelayMs s) (desiredTakeSlotIndex s) (readyTimers s)
    (outbox s).

Definition set_inventoryReadyReason v (s : St) : St :=
  mkSt (client s) (state s) (availableCommandsSeen s) (inventoryReady s) v
    (inventoryReadyFallbackTimer s) (currentWindowId s)
    (currentWindowType s) (currentWindowItems s) (playerInventoryItems s)
    (clickSent s) (commandSent s) (autoCommandSent s) (commandSentCount s)
    (wantConnected s) (reconnectTimer s) (reconnectAttempt s)
    (pendingReconnectReason s) (pendingReconnectDelayMs s)
    (desiredTakeSlotIndex s) (readyTimers s) (outbox s).

Definition set_inventoryReadyFallbackTimer v (s : St) : St :=
  mkSt (client s) (state s) (availableCommandsSeen s) (inventoryReady s)
    (inventoryReadyReason s) v (currentWindowId s) (currentWindowType s)
    (currentWindowItems s) (playerInventoryItems s) (clickSent s)
    (commandSent s) (autoCommandSent s) (commandSentCount s)
    (wantConnected s) (reconnectTimer s) (reconnectAttempt s)
    (pendingReconnectReason s) (pendingReconnectDelayMs s)
    (desiredTakeSlotIndex s) (readyTimers s) (outbox s).

Definition set_currentWindowId v (s : St) : St :=
  mkSt (client s) (state s) (availableCommandsSeen s) (inventoryReady s)
    (inventoryReadyReason s) (inventoryReadyFallbackTimer s) v
    (currentWindowType s) (currentWindowItems s) (playerInventoryItems s)
    (clickSent s) (commandSent s) (autoCommandSent s) (commandSentCount s)
    (wantConnected s) (reconnectTimer s) (reconnectAttempt s)
    (pendingReconnectReason s) (pendingReconnectDelayMs s)
    (desiredTakeSlotIndex s) (readyTimers s) (outbox s).

Definition set_currentWindowType v (s : St) : St :=
  mkSt (client s) (state s) (availableCommandsSeen s) (inventoryReady s)
    (inventoryReadyReason s) (inventoryReadyFallbackTimer s)
    (currentWindowId s) v (currentWindowItems s) (playerInventoryItems s)
    (clickSent s) (commandSent s) (autoCommandSent s) (commandSentCount s)
    (wantConnected s) (reconnectTimer s) (reconnectAttempt s)
    (pendingReconnectReason s) (pendingReconnectDelayMs s)
    (desiredTakeSlotIndex s) (readyTimers s) (outbox s).

Definition set_currentWindowItems v (s : St) : St :=
  mkSt (client s) (state s) (availableCommandsSeen s) (inventoryReady s)
    (inventoryReadyReason s) (inventoryReadyFallbackTimer s)
    (currentWindowId s) (currentWindowType s) v (playerInventoryItems s)
    (clickSent s) (commandSent s) (autoCommandSent s) (commandSentCount s)
    (wantConnected s) (reconnectTimer s) (reconnectAttempt s)
    (pendingReconnectReason s) (pendingReconnectDelayMs s)
    (desiredTakeSlotIndex s) (readyTimers s) (outbox s).

Definition set_playerInventoryItems v (s : St) : St :=
  mkSt (client s) (state s) (availableCommandsSeen s) (inventoryReady s)
    (inventoryReadyReason s) (inventoryReadyFallbackTimer s)
    (currentWindowId s) (currentWindowType s) (currentWindowItems s) v
    (clickSent s) (commandSent s) (autoCommandSent s) (commandSentCount s)
    (wantConnected s) (reconnectTimer s) (reconnectAttempt s)
    (pendingReconnectReason s) (pendingReconnectDelayMs s)
    (desiredTakeSlotIndex s) (readyTimers s) (outbox s).

Definition set_clickSent v (s : St) : St :=
  mkSt (client s) (state s) (availableCommandsSeen s) (inventoryReady s)
    (inventoryReadyReason s) (inventoryReadyFallbackTimer s)
    (currentWindowId s) (currentWindowType s) (currentWindowItems s)
    (playerInventoryItems s) v (commandSent s) (autoCommandSent s)
    (commandSentCount s) (wantConnected s) (reconnectTimer s)
    (reconnectAttempt s) (pendingReconnectReason s)
    (pendingReconnectDelayMs s) (desiredTakeSlotIndex s) (readyTimers s)
    (outbox s).

Definition set_commandSent v (s : St) : St :=
  mkSt (client s) (state s) (availableCommandsSeen s) (inventoryReady s)
    (inventoryReadyReason s) (inventoryReadyFallbackTimer s)
    (currentWindowId s) (currentWindowType s) (currentWindowItems s)
    (playerInventoryItems s) (clickSent s) v (autoCommandSent s)
    (commandSentCount s) (wantConnected s) (reconnectTimer s)
    (reconnectAttempt s) (pendingReconnectReason s)
    (pendingReconnectDelayMs s) (desiredTakeSlotIndex s) (readyTimers s)
    (outbox s).

Definition set_autoCommandSent v (s : St) : St :=
  mkSt (client s) (state s) (availableCommandsSeen s) (inventoryReady s)
    (inventoryReadyReason s) (inventoryReadyFallbackTimer s)
    (currentWindowId s) (currentWindowType s) (currentWindowItems s)
    (playerInventoryItems s) (clickSent s) (commandSent s) v
    (commandSentCount s) (wantConnected s) (reconnectTimer s)
    (reconnectAttempt s) (pendingReconnectReason s)
    (pendingReconnectDelayMs s) (desiredTakeSlotIndex s) (readyTimers s)
    (outbox s).

Definition set_commandSentCount v (s : St) : St :=
  mkSt (client s) (state s) (availableCommandsSeen s) (inventoryReady s)
    (inventoryReadyReason s) (inventoryReadyFallbackTimer s)
    (currentWindowId s) (currentWindowType s) (currentWindowItems s)
    (playerInventoryItems s) (clickSent s) (commandSent s)
    (autoCommandSent s) v (wantConnected s) (reconnectTimer s)
    (reconnectAttempt s) (pendingReconnectReason s)
    (pendingReconnectDelayMs s) (desiredTakeSlotIndex s) (readyTimers s)
    (outbox s).

Definition set_wantConnected v (s : St) : St :=
  mkSt (client s) (state s) (availableCommandsSeen s) (inventoryReady s)
    (inventoryReadyReason s) (inventoryReadyFallbackTimer s)
    (currentWindowId s) (currentWindowType s) (currentWindowItems s)
    (playerInventoryItems s) (clickSent s) (commandSent s)
    (autoCommandSent s) (commandSentCount s) v (reconnectTimer s)
    (reconnectAttempt s) (pendingReconnectReason s)
    (pendingReconnectDelayMs s) (desiredTakeSlotIndex s) (readyTimers s)
    (outbox s).

Definition set_reconnectTimer v (s : St) : St :=
  mkSt (client s) (state s) (availableCommandsSeen s) (inventoryReady s)
    (inventoryReadyReason s) (inventoryReadyFallbackTimer s)
    (currentWindowId s) (currentWindowType s) (currentWindowItems s)
    (playerInventoryItems s) (clickSent s) (commandSent s)
    (autoCommandSent s) (commandSentCount s) (wantConnected s) v
    (reconnectAttempt s) (pendingReconnectReason s)
    (pendingReconnectDelayMs s) (desiredTakeSlotIndex s) (readyTimers s)
    (outbox s).

Definition set_reconnectAttempt v (s : St) : St :=
  mkSt (client s) (state s) (availableCommandsSeen s) (inventoryReady s)
    (inventoryReadyReason s) (inventoryReadyFallbackTimer s)
    (currentWindowId s) (currentWindowType s) (currentWindowItems s)
    (playerInventoryItems s) (clickSent s) (commandSent s)
    (autoCommandSent s) (commandSentCount s) (wantConnected s)
    (reconnectTimer s) v (pendingReconnectReason s)
    (pendingReconnectDelayMs s) (desiredTakeSlotIndex s) (readyTimers s)
    (outbox s).

Definition set_pendingReconnectReason v (s : St) : St :=
  mkSt (client s) (state s) (availableCommandsSeen s) (inventoryReady s)
    (inventoryReadyReason s) (inventoryReadyFallbackTimer s)
    (currentWindowId s) (currentWindowType s) (currentWindowItems s)
    (playerInventoryItems s) (clickSent s) (commandSent s)
    (autoCommandSent s) (commandSentCount s) (wantConnected s)
    (reconnectTimer s) (reconnectAttempt s) v (pendingReconnectDelayMs s)
    (desiredTakeSlotIndex s) (readyTimers s) (outbox s).

Definition set_pendingReconnectDelayMs v (s : St) : St :=
  mkSt (client s) (state s) (availableCommandsSeen s) (inventoryReady s)
    (inventoryReadyReason s) (inventoryReadyFallbackTimer s)
    (currentWindowId s) (currentWindowType s) (currentWindowItems s)
    (playerInventoryItems s) (clickSent s) (commandSent s)
    (autoCommandSent s) (commandSentCount s) (wantConnected s)
    (reconnectTimer s) (reconnectAttempt s) (pendingReconnectReason s) v
    (desiredTakeSlotIndex s) (readyTimers s) (outbox s).

Definition set_desiredTakeSlotIndex v (s : St) : St :=
  mkSt (client s) (state s) (availableCommandsSeen s) (inventoryReady s)
    (inventoryReadyReason s) (inventoryReadyFallbackTimer s)
    (currentWindowId s) (currentWindowType s) (currentWindowItems s)
    (playerInventoryItems s) (clickSent s) (commandSent s)
    (autoCommandSent s) (commandSentCount s) (wantConnected s)
    (reconnectTimer s) (reconnectAttempt s) (pendingReconnectReason s)
    (pendingReconnectDelayMs s) v (readyTimers s) (outbox s).

Definition set_readyTimers v (s : St) : St :=
  mkSt (client s) (state s) (availableCommandsSeen s) (inventoryReady s)
    (inventoryReadyReason s) (inventoryReadyFallbackTimer s)
    (currentWindowId s) (currentWindowType s) (currentWindowItems s)
    (playerInventoryItems s) (clickSent s) (commandSent s)
    (autoCommandSent s) (commandSentCount s) (wantConnected s)
    (reconnectTimer s) (reconnectAttempt s) (pendingReconnectReason s)
    (pendingReconnectDelayMs s) (desiredTakeSlotIndex s) v (outbox s).

Definition set_outbox v (s : St) : St :=
  mkSt (client s) (state s) (availableCommandsSeen s) (inventoryReady s)
    (inventoryReadyReason s) (inventoryReadyFallbackTimer s)
    (currentWindowId s) (currentWindowType s) (currentWindowItems s)
    (playerInventoryItems s) (clickSent s) (commandSent s)
    (autoCommandSent s) (commandSentCount s) (wantConnected s)
    (reconnectTimer s) (reconnectAttempt s) (pendingReconnectReason s)
    (pendingReconnectDelayMs s) (desiredTakeSlotIndex s) (readyTimers s) v.

(** What the environment decides during one handler: whether
    [client.queue] returns, and [Math.floor(Math.random() * 500)]. *)
Record Env : Type := mkEnv { queue_ok : bool; jitter : Z }.

(** A handler either runs to its end or is cut short by the exception of
    [send]; the variables keep what was assigned before. *)
Inductive Res : Type :=
| Ok (s : St)
| Throw (s : St).

Definition after (r : Res) : St :=
  match r with Ok s => s | Throw s => s end.

(** Run [k] after [r] unless [r] raised. *)
Definition andThen (r : Res) (k : St -> Res) : Res :=
  match r with Ok s => k s | Throw s => Throw s end.

Definition clearReconnectTimer (s : St) : St := set_reconnectTimer None s.

(** The delay before the jitter is added. *)
Definition reconnectBase (attempt : nat) : Z :=
  Z.min RECONNECT_MAX_MS
        (RECONNECT_BASE_MS * 2 ^ Z.of_nat (Nat.min attempt 6)).

(** [delayMs] is [None] for [undefined] and [null]. *)
Definition reconnectWait (attempt : nat) (delayMs : option Z) (jit : Z) : Z :=
  let base := reconnectBase attempt in
  Z.max 250 ((match delayMs with Some d => d | None => base end) + jit).

Definition scheduleReconnect (env : Env) (reason : string)
    (delayMs : option Z) (s : St) : St :=
  if negb (wantConnected s) then s
  else if client s then s
  else match reconnectTimer s with
       | Some _ => s
       | None =>
           let attempt := reconnectAttempt s in
           set_reconnectTimer (Some (reconnectWait attempt delayMs (jitter env))) s
       end.

Definition setState (next : State) (s : St) : St := set_state next s.

Fixpoint firstEmptyFrom (i : nat) (items : list Slot) : option nat :=
  match items with
  | [] => None
  | x :: rest => if isEmptyItem x then Some i else firstEmptyFrom (S i) rest
  end.

Definition findFirstEmptyPlayerSlot (s : St) : option nat :=
  match playerInventoryItems s with
  | None => None
  | Some items => firstEmptyFrom 0 items
  end.

(** [isUiLikeContainerSnapshot({ windowId, containerId, dynamicId, size })] *)
Definition isUiLikeContainerSnapshot (windowId : WindowId)
    (containerId dynamicId : JsValue) (size : Z) : bool :=
  if size =? 36 then false
  else if match containerId with
          | JsString c =>
              negb (existsb (String.eqb c)
                      ["inventory"; "hotbar"; "hotbar_and_inventory";
                       "offhand"; "armor"])
          | _ => false
          end
  then true
  else if finite_number dynamicId then true
  else if (size >? 0) && negb (size =? 36) then true
  else false.

(** [send(name, params)]: [None] when it raises for want of a client,
    otherwise its boolean and the variables afterwards. *)
Definition send (env : Env) (p : Packet) (s : St) : option (bool * St) :=
  if negb (client s) then None
  else Some (queue_ok env,
             set_outbox (outbox s ++ [mkOut p (queue_ok env)]) s).

Definition sendCommand (env : Env) (commandLine : string) (s : St) : Res :=
  let commandLine :=
    if startsWith commandLine "/" then commandLine else "/" ++ commandLine in
  let s := set_currentWindowId None s in
  let s := set_currentWindowType JsNull s in
  let s := set_currentWindowItems None s in
  let s := set_clickSent false s in
  match send env
          (command_request
             {| command := commandLine; origin_type := "player";
                request_id := ""; player_entity_id := 0;
                internal := false; version := "52" |}) s with
  | None => Throw s
  | Some (ok, s) =>
      if negb ok then Ok s
      else
        let s := set_commandSent true s in
        let s := set_commandSentCount (S (commandSentCount s)) s in
        let s := setState COMMAND_SENT s in
        Ok (setState WAIT_UI s)
  end.

Definition canSendCommands (s : St) : bool :=
  client s && availableCommandsSeen s.

Definition onMaybeReady (s : St) : St :=
  let s :=
    if availableCommandsSeen s && inventoryReady s &&
       negb (state_is (state s) READY) &&
       negb (state_is (state s) WAIT_UI) &&
       negb (state_is (state s) COMMAND_SENT)
    then setState READY s else s in
  if state_is (state s) READY && negb (commandSent s)
  then set_readyTimers (S (readyTimers s)) s
  else s.

(** The callback [onMaybeReady] hands to [setTimeout]. *)
Definition readyTimerCallback (env : Env) (s : St) : Res :=
  if negb (state_is (state s) READY) || autoCommandSent s then Ok s
  else andThen (sendCommand env TARGET_COMMAND s)
               (fun s => Ok (set_autoCommandSent true s)).

Definition markInventoryReady (reason : string) (s : St) : St :=
  if inventoryReady s then s
  else
    let s := set_inventoryReady true s in
    let s := set_inventoryReadyReason (Some reason) s in
    let s := if inventoryReadyFallbackTimer s
             then set_inventoryReadyFallbackTimer false s else s in
    let s := if state_is (state s) WAIT_INVENTORY_READY
             then setState READY s else s in
    onMaybeReady s.

Definition armInventoryReadyFallback (s : St) : St :=
  if inventoryReady s || inventoryReadyFallbackTimer s then s
  else set_inventoryReadyFallbackTimer true s.

(** The callback [armInventoryReadyFallback] hands to [setTimeout]. *)
Definition fallbackTimerCallback (s : St) : St :=
  if inventoryReady s then s else markInventoryReady "fallback timeout" s.

Definition buildNormalClickTransaction (windowId : WindowId) (slotIndex : Z)
    (item : Item) : Transaction :=
  {| legacy_request_id := 0;
     transaction_type := "normal";
     actions :=
       [ {| source_type := "container"; inventory_id := windowId;
            slot := slotIndex; old_item := item; new_item := item |} ] |}.

Definition buildMoveToInventoryTransaction (windowId : WindowId)
    (fromSlot toSlot : Z) (item : Item) : Transaction :=
  {| legacy_request_id := 0;
     transaction_type := "normal";
     actions :=
       [ {| source_type := "container"; inventory_id := windowId;
            slot := fromSlot; old_item := item; new_item := EMPTY_ITEM |};
         {| source_type := "container";
            inventory_id := PLAYER_INVENTORY_WINDOW_ID;
            slot := toSlot; old_item := EMPTY_ITEM; new_item := item |} ] |}.

Definition clickSlot (env : Env) (windowId : WindowId) (slotIndex : Z)
    (s : St) : Res :=
  if clickSent s then Ok s
  else if negb (state_is (state s) WAIT_CONTAINER_CONTENT) then Ok s
  else match currentWindowItems s with
  | None => Ok s
  | Some items =>
  match currentWindowId s with
  | None => Ok s
  | Some cur =>
  if negb (same_window windowId cur) then Ok s
  else if slotIndex <? 0 then Ok s
  else
    let item := js_get items slotIndex in
    match item with
    | None => Ok s
    | Some it =>
      if isEmptyItem item then Ok s
      else
        let destSlot := findFirstEmptyPlayerSlot s in
        let tx :=
          match destSlot with
          | Some d =>
              buildMoveToInventoryTransaction windowId slotIndex (Z.of_nat d) it
          | None => buildNormalClickTransaction windowId slotIndex it
          end in
        match send env (inventory_transaction tx) s with
        | None => Throw s
        | Some (ok, s) =>
            if negb ok then Ok s
            else Ok (setState CLICK_SENT (set_clickSent true s))
        end
    end
  end end.

Definition maybeTakeDesiredSlot (env : Env) (s : St) : Res :=
  match currentWindowId s with
  | None => Ok s
  | Some cur =>
  if desiredTakeSlotIndex s <? 0 then Ok s
  else match currentWindowItems s with
  | None => Ok s
  | Some items =>
    if desiredTakeSlotIndex s >=? Z.of_nat (List.length items) then Ok s
    else
      let s := if negb (state_is (state s) WAIT_CONTAINER_CONTENT)
               then setState WAIT_CONTAINER_CONTENT s else s in
      clickSlot env cur (desiredTakeSlotIndex s) s
  end end.

Definition tryTakeFromOpenContainer (env : Env) (slotIndex : Z) (s : St) : Res :=
  match currentWindowId s with
  | None => Ok s
  | Some cur =>
  if slotIndex <? 0 then Ok s
  else match currentWindowItems s with
  | Some _ =>
      let s := if negb (state_is (state s) WAIT_CONTAINER_CONTENT)
               then setState WAIT_CONTAINER_CONTENT s else s in
      let s := set_clickSent false s in
      clickSlot env cur slotIndex s
  | None => Ok (setState WAIT_CONTAINER_CONTENT s)
  end end.

Definition connectServer (s : St) : St :=
  if client s then s
  else
    let s := set_wantConnected true s in
    let s := clearReconnectTimer s in
    let s := set_client true s in
    setState WAIT_SPAWN s.

(** [client.close()] is answered by a later close event; where the
    transport emits it inside the call, the close handler is the next
    step of the run. *)
Definition disconnectServer (s : St) : St :=
  if negb (client s) then s
  else clearReconnectTimer (set_wantConnected false s).

(** The callback [scheduleReconnect] hands to [setTimeout]. *)
Definition reconnectTimerCallback (s : St) : St :=
  let s := set_reconnectTimer None s in
  let s := set_reconnectAttempt (S (reconnectAttempt s)) s in
  connectServer s.

(** *** Event handlers registered by [connectServer] *)

Record InventoryContent : Type := mkInventoryContent {
  ic_window_id : option WindowId;      (* normalizeWindowId(packet?.window_id) *)
  ic_container_id : JsValue;           (* packet?.container?.container_id *)
  ic_dynamic_container_id : JsValue;   (* packet?.container?.dynamic_container_id *)
  ic_input : option (list Slot)        (* packet.input when it is an array *)
}.

Record InventorySlot : Type := mkInventorySlot {
  is_window_id : option WindowId;      (* normalizeWindowId(packet?.window_id) *)
  is_slot : option Z;                  (* packet?.slot when it is an integer *)
  is_item : Slot                       (* packet.item *)
}.

Definition onError (env : Env) (msg : string) (s : St) : St :=
  if includes msg "Read error" || includes msg "Invalid tag" then s
  else if includes (toLowerCase msg) "connect timed out" then
    let s := set_client false s in
    let s := setState CONNECTING s in
    let s := scheduleReconnect env "connect timeout" (pendingReconnectDelayMs s) s in
    set_pendingReconnectDelayMs None s
  else s.

(** [message] is [reason?.message]; the handler's [client?.close()] is
    answered by a later close event. *)
Definition onKick (message : option string) (s : St) : St :=
  let msg := match message with Some m => m | None => "" end in
  let s := set_pendingReconnectReason
             (Some ("kicked: " ++ (if String.eqb msg "" then "unknown" else msg))) s in
  let s := if includes (toLowerCase msg) "already online"
           then set_pendingReconnectDelayMs (Some 30000) s else s in
  setState CONNECTING s.

Definition onClose (env : Env) (s : St) : St :=
  let s := set_client false s in
  let s := set_availableCommandsSeen false s in
  let s := set_inventoryReady false s in
  let s := set_inventoryReadyReason None s in
  let s := set_currentWindowId None s in
  let s := set_currentWindowType JsNull s in
  let s := set_currentWindowItems None s in
  let s := set_playerInventoryItems None s in
  let s := set_clickSent false s in
  let s := set_commandSent false s in
  let s := set_autoCommandSent false s in
  let s := set_commandSentCount 0%nat s in
  let reason := match pendingReconnectReason s with
                | Some r => if String.eqb r "" then "closed" else r
                | None => "closed"
                end in
  let delay := pendingReconnectDelayMs s in
  let s := set_pendingReconnectReason None s in
  let s := set_pendingReconnectDelayMs None s in
  let s := setState CONNECTING s in
  scheduleReconnect env reason delay s.

Definition onSpawn (s : St) : St :=
  onMaybeReady (setState WAIT_AVAILABLE_COMMANDS s).

Definition onStartGame (s : St) : St :=
  if negb (inventoryReady s) then markInventoryReady "start_game" s else s.

Definition onAvailableCommands (s : St) : St :=
  let s := set_availableCommandsSeen true s in
  let s := if state_is (state s) WAIT_AVAILABLE_COMMANDS
           then armInventoryReadyFallback (setState WAIT_INVENTORY_READY s)
           else s in
  onMaybeReady s.

(** The handler of inventory_content, block by block.  First block
    (lines 614-644): while waiting for the UI with no window tracked, a
    snapshot may stand in for container_open. *)
Definition inferContainer (windowId : WindowId) (containerId dynamicId : JsValue)
    (size : Z) (s : St) : St :=
  if state_is (state s) WAIT_UI &&
     match currentWindowId s with None => true | Some _ => false end
  then
    let looksUi := isUiLikeContainerSnapshot windowId containerId dynamicId size in
    if negb (isPlayerInventoryWindowId windowId) || looksUi then
      let s := set_currentWindowId (Some windowId) s in
      let s := set_currentWindowType JsNull s in
      let s := set_currentWindowItems None s in
      let s := set_clickSent false s in
      let s := setState CONTAINER_OPENED s in
      setState WAIT_CONTAINER_CONTENT s
    else s
  else s.

(** Second block (lines 648-650). *)
Definition playerContentReady (windowId : WindowId) (s : St) : St :=
  if negb (inventoryReady s) && isPlayerInventoryWindowId windowId
  then markInventoryReady "inventory_content (player)" s else s.

(** Third block (lines 653-658). *)
Definition keepPlayerSnapshot (windowId : WindowId)
    (input : option (list Slot)) (s : St) : St :=
  match input with
  | Some items =>
      if same_window windowId PLAYER_INVENTORY_WINDOW_ID
      then set_playerInventoryItems (Some items) s else s
  | None => s
  end.

(** Fourth block (lines 661-677). *)
Definition containerContent (env : Env) (windowId : WindowId)
    (input : option (list Slot)) (s : St) : Res :=
  match currentWindowId s with
  | None => Ok s
  | Some cur =>
      if same_window windowId cur then
        let s := set_currentWindowItems input s in
        let s := if state_is (state s) CONTAINER_OPENED ||
                    state_is (state s) WAIT_UI
                 then setState WAIT_CONTAINER_CONTENT s else s in
        maybeTakeDesiredSlot env s
      else Ok s
  end.

Definition onInventoryContent (env : Env) (packet : InventoryContent)
    (s : St) : Res :=
  match ic_window_id packet with
  | None => Ok s
  | Some windowId =>
    let containerId := ic_container_id packet in
    let dynamicId := ic_dynamic_container_id packet in
    let size := match ic_input packet with
                | Some input => Z.of_nat (List.length input)
                | None => 0
                end in
    let s := inferContainer windowId containerId dynamicId size s in
    let s := playerContentReady windowId s in
    let s := keepPlayerSnapshot windowId (ic_input packet) s in
    containerContent env windowId (ic_input packet) s
  end.

Definition arrayOrEmpty (a : option (list Slot)) : list Slot :=
  match a with Some items => items | None => [] end.

(** The handler of inventory_slot, block by block.  First block (lines
    687-689). *)
Definition playerSlotReady (windowId : WindowId) (s : St) : St :=
  if negb (inventoryReady s) && same_window windowId (WNum 0)
  then markInventoryReady "inventory_slot (player)" s else s.

(** Second block (lines 691-697). *)
Definition keepPlayerSlot (windowId : WindowId) (slotIndex : option Z)
    (item : Slot) (s : St) : St :=
  match slotIndex with
  | Some i =>
      if same_window windowId PLAYER_INVENTORY_WINDOW_ID
      then set_playerInventoryItems
             (Some (js_set (arrayOrEmpty (playerInventoryItems s)) i item)) s
      else s
  | None => s
  end.

(** Third block (lines 700-716). *)
Definition containerSlot (env : Env) (windowId : WindowId)
    (slotIndex : option Z) (item : Slot) (s : St) : Res :=
  match currentWindowId s, slotIndex with
  | Some cur, Some i =>
      if same_window windowId cur then
        let s := set_currentWindowItems
                   (Some (js_set (arrayOrEmpty (currentWindowItems s)) i item)) s in
        if state_is (state s) WAIT_CONTAINER_CONTENT &&
           negb (clickSent s) && (i =? desiredTakeSlotIndex s)
        then maybeTakeDesiredSlot env s
        else Ok s
      else Ok s
  | _, _ => Ok s
  end.

(** Fourth block (lines 719-721). *)
Definition rearmFallback (s : St) : St :=
  if state_is (state s) WAIT_INVENTORY_READY && negb (inventoryReady s)
  then armInventoryReadyFallback s else s.

Definition onInventorySlot (env : Env) (packet : InventorySlot) (s : St) : Res :=
  match is_window_id packet with
  | None => Ok s
  | Some windowId =>
    let s := playerSlotReady windowId s in
    let s := keepPlayerSlot windowId (is_slot packet) (is_item packet) s in
    andThen (containerSlot env windowId (is_slot packet) (is_item packet) s)
            (fun s => Ok (rearmFallback s))
  end.

(** [packet.window_id] and [packet.window_type] are read without a
    guard: the packet has them. *)
Definition onContainerOpen (windowId : WindowId) (windowType : JsValue)
    (s : St) : St :=
  let s := set_currentWindowId (Some windowId) s in
  let s := set_currentWindowType windowType s in
  let s := set_currentWindowItems None s in
  let s := set_clickSent false s in
  let s := setState CONTAINER_OPENED s in
  setState WAIT_CONTAINER_CONTENT s.

Definition onContainerClose (closedId : WindowId) (s : St) : St :=
  match currentWindowId s with
  | Some cur =>
      if same_window closedId cur then
        let s := set_currentWindowId None s in
        let s := set_currentWindowType JsNull s in
        let s := set_currentWindowItems None s in
        if state_is (state s) CLICK_SENT then setState DONE s else s
      else s
  | None => s
  end.

(** *** Console lines, after parsing *)

(** [slot <n>]: [n] is negative when the line does not hold an index. *)
Definition onLineSlot (n : Z) (s : St) : St :=
  if n <? 0 then s else set_desiredTakeSlotIndex n s.

(** [take [n]]: without an argument [n] is [desiredTakeSlotIndex]. *)
Definition onLineTake (env : Env) (arg : option Z) (s : St) : Res :=
  let n := match arg with Some n => n | None => desiredTakeSlotIndex s end in
  if n <? 0 then Ok s
  else tryTakeFromOpenContainer env n (set_desiredTakeSlotIndex n s).

(** [cmd <...>] and [tpa <player> [slot <n>]]: the optional slot and the
    command line that results. *)
Definition onLineCommand (env : Env) (slotArg : option Z) (cmdLine : string)
    (s : St) : Res :=
  let s := match slotArg with
           | Some n => if n <? 0 then s else set_desiredTakeSlotIndex n s
           | None => s
           end in
  if canSendCommands s then sendCommand env cmdLine s else Ok s.

(** *** Everything that can happen to the script *)

Inductive Event : Type :=
| EvError (msg : string)
| EvKick (message : option string)
| EvClose
| EvSpawn
| EvStartGame
| EvAvailableCommands
| EvInventoryContent (packet : InventoryContent)
| EvInventorySlot (packet : InventorySlot)
| EvContainerOpen (windowId : WindowId) (windowType : JsValue)
| EvContainerClose (windowId : WindowId)
| EvFallbackTimer          (* the 15000 ms timer runs out *)
| EvReadyTimer             (* a 600 ms timer runs out *)
| EvReconnectTimer         (* the reconnect timer runs out *)
| EvLineConnect
| EvLineDisconnect         (* also exit, quit and SIGINT *)
| EvLineSlot (n : Z)
| EvLineTake (arg : option Z)
| EvLineCommand (slotArg : option Z) (cmdLine : string).

(** One turn of the event loop.  A timer that is not pending cannot run
    out. *)
Definition handle (env : Env) (ev : Event) (s : St) : Res :=
  match ev with
  | EvError msg => Ok (onError env msg s)
  | EvKick message => Ok (onKick message s)
  | EvClose => Ok (onClose env s)
  | EvSpawn => Ok (onSpawn s)
  | EvStartGame => Ok (onStartGame s)
  | EvAvailableCommands => Ok (onAvailableCommands s)
  | EvInventoryContent packet => onInventoryContent env packet s
  | EvInventorySlot packet => onInventorySlot env packet s
  | EvContainerOpen windowId windowType => Ok (onContainerOpen windowId windowType s)
  | EvContainerClose windowId => Ok (onContainerClose windowId s)
  | EvFallbackTimer =>
      if inventoryReadyFallbackTimer s then Ok (fallbackTimerCallback s) else Ok s
  | EvReadyTimer =>
      match readyTimers s with
      | O => Ok s
      | S n => readyTimerCallback env (set_readyTimers n s)
      end
  | EvReconnectTimer =>
      match reconnectTimer s with
      | Some _ => Ok (reconnectTimerCallback s)
      | None => Ok s
      end
  | EvLineConnect => Ok (connectServer s)
  | EvLineDisconnect => Ok (disconnectServer s)
  | EvLineSlot n => Ok (onLineSlot n s)
  | EvLineTake arg => onLineTake env arg s
  | EvLineCommand slotArg cmdLine => onLineCommand env slotArg cmdLine s
  end.

Definition step (s : St) (ev : Env * Event) : St :=
  after (handle (fst ev) (snd ev) s).

Definition run (evs : list (Env * Event)) (s : St) : St :=
  fold_left step evs s.

(** *** Vocabulary of the properties *)

(** The conjunction [onMaybeReady] tests before it moves to READY. *)
Definition isReady (s : St) : bool :=
  availableCommandsSeen s && inventoryReady s.

(** The inbound signals and the timer the readiness gate listens to. *)
Definition readinessSignal (ev : Event) : bool :=
  match ev with
  | EvSpawn | EvStartGame | EvAvailableCommands
  | EvInventoryContent _ | EvInventorySlot _ | EvFallbackTimer => true
  | _ => false
  end.





(** A connection before any readiness signal, with no fallback timer
    left pending by the connection before. *)
Definition fresh (s : St) : bool :=
  (state_is (state s) CONNECTING || state_is (state s) WAIT_SPAWN) &&
  negb (availableCommandsSeen s) && negb (inventoryReady s) &&
  negb (inventoryReadyFallbackTimer s) &&
  match currentWindowId s with None => true | Some _ => false end.


(** What holds of a connection that has so far received readiness
    signals only. *)
Definition gateInvariant (s : St) : Prop :=
  currentWindowId s = None /\
  (state s = CONNECTING \/ state s = WAIT_SPAWN \/
   state s = WAIT_AVAILABLE_COMMANDS \/ state s = WAIT_INVENTORY_READY \/
   state s = READY) /\
  (state s = WAIT_INVENTORY_READY -> availableCommandsSeen s = true) /\
  (inventoryReadyFallbackTimer s = true -> availableCommandsSeen s = true) /\
  (state s = READY <-> isReady s = true).



(** The events that assign [false] to [clickSent]: a command dispatch,
    container_open, the connection close and a manual take. *)
Definition resetsClick (ev : Event) : bool :=
  match ev with
  | EvReadyTimer | EvLineCommand _ _ | EvContainerOpen _ _
  | EvClose | EvLineTake _ => true
  | _ => false
  end.

(** [d] is the smallest index of [dest] that holds an empty item. *)
Definition leastEmpty (dest : list Slot) (d : nat) : Prop :=
  (d < List.length dest)%nat /\
  isEmptyItem (nth d dest None) = true /\
  forall k, (k < d)%nat -> isEmptyItem (nth k dest None) = false.

(** The player snapshot is unknown or has no empty item. *)
Definition noEmpty (dest : option (list Slot)) : Prop :=
  match dest with
  | None => True
  | Some l =>
      forall k, (k < List.length l)%nat -> isEmptyItem (nth k l None) = false
  end.

Definition isTransaction (o : Out) : bool :=
  match pkt o with inventory_transaction _ => true | _ => false end.

(** The slot transactions handed to [client.queue], and how many of them
    it accepted. *)
Definition txAttempts (s : St) : list Out := filter isTransaction (outbox s).

Definition txQueued (s : St) : nat :=
  List.length (filter queued (txAttempts s)).

(** While the script waits for the UI no click is recorded. *)
Definition unclickedInWaitUi (s : St) : Prop :=
  state s = WAIT_UI -> clickSent s = false.

(** From [s] to [s'] nothing was sent, [clickSent] was not assigned a
    new value and WAIT_UI was not entered. *)
Definition calm (s s' : St) : Prop :=
  clickSent s' = clickSent s /\ outbox s' = outbox s /\
  (state s' = WAIT_UI -> state s = WAIT_UI).

(** From [s] to [s'] WAIT_UI was not entered, and either [clickSent]
    kept its value and no slot transaction was accepted (none even
    tried, if it was set), or it went from unset to set with exactly one
    accepted slot transaction. *)
Definition atMostOneClick (s s' : St) : Prop :=
  (state s' = WAIT_UI -> state s = WAIT_UI) /\
  ((clickSent s' = clickSent s /\ txQueued s' = txQueued s /\
    (clickSent s = true -> txAttempts s' = txAttempts s)) \/
   (clickSent s = false /\ clickSent s' = true /\
    txQueued s' = S (txQueued s) /\ state s' <> WAIT_UI)).

End Bot.

(** *** Vocabulary of the properties of [StateMachine] *)

Module FsmSpec.
Import Js Fsm.





Definition isResetCall (m : Method) : bool :=
  match m with MReset => true | _ => false end.

Definition terminal (s : ClientState) : Prop := s = COMPLETED \/ s = ERROR.




End FsmSpec.

(* ===================================================================== *)
(** ** Further vocabulary for the session script *)
(* ===================================================================== *)

Module BotMore.
Import Js Bot.

(** The variables of the session, by name: the top-level variables of
    the script that [St] keeps, which are all but
    [containerItemsDumpedForWindow] and [lastUiCandidateSignature] (the
    two only steer what is printed on the console),
    then the pending 600 ms timers and the packets handed to the
    transport. *)
Inductive Var : Type :=
| V_client | V_state | V_availableCommandsSeen
| V_inventoryReady | V_inventoryReadyReason | V_inventoryReadyFallbackTimer
| V_currentWindowId | V_currentWindowType | V_currentWindowItems
| V_playerInventoryItems | V_clickSent | V_commandSent
| V_autoCommandSent | V_commandSentCount | V_wantConnected
| V_reconnectTimer | V_reconnectAttempt | V_pendingReconnectReason
| V_pendingReconnectDelayMs | V_desiredTakeSlotIndex | V_readyTimers
| V_outbox.

(** The variable [v] holds in [s'] what it held in [s]. *)
Definition unchanged (v : Var) (s s' : St) : Prop :=
  match v with
  | V_client => client s' = client s
  | V_state => state s' = state s
  | V_availableCommandsSeen => availableCommandsSeen s' = availableCommandsSeen s
  | V_inventoryReady => inventoryReady s' = inventoryReady s
  | V_inventoryReadyReason => inventoryReadyReason s' = inventoryReadyReason s
  | V_inventoryReadyFallbackTimer => inventoryReadyFallbackTimer s' = inventoryReadyFallbackTimer s
  | V_currentWindowId => currentWindowId s' = currentWindowId s
  | V_currentWindowType => currentWindowType s' = currentWindowType s
  | V_currentWindowItems => currentWindowItems s' = currentWindowItems s
  | V_playerInventoryItems => playerInventoryItems s' = playerInventoryItems s
  | V_clickSent => clickSent s' = clickSent s
  | V_commandSent => commandSent s' = commandSent s
  | V_autoCommandSent => autoCommandSent s' = autoCommandSent s
  | V_commandSentCount => commandSentCount s' = commandSentCount s
  | V_wantConnected => wantConnected s' = wantConnected s
  | V_reconnectTimer => reconnectTimer s' = reconnectTimer s
  | V_reconnectAttempt => reconnectAttempt s' = reconnectAttempt s
  | V_pendingReconnectReason => pendingReconnectReason s' = pendingReconnectReason s
  | V_pendingReconnectDelayMs => pendingReconnectDelayMs s' = pendingReconnectDelayMs s
  | V_desiredTakeSlotIndex => desiredTakeSlotIndex s' = desiredTakeSlotIndex s
  | V_readyTimers => readyTimers s' = readyTimers s
  | V_outbox => outbox s' = outbox s
  end.

Definition Var_eq_dec (a b : Var) : {a = b} + {a <> b}.
Proof. decide equality. Defined.

Definition inVars (v : Var) (vs : list Var) : bool :=
  existsb (fun w => if Var_eq_dec v w then true else false) vs.

(** From [s] to [s'] only the variables of [vs] may have been assigned
    a new value. *)
Definition changesOnly (vs : list Var) (s s' : St) : Prop :=
  forall v, inVars v vs = false -> unchanged v s s'.

Definition inStates (t : State) (ts : list State) : bool :=
  existsb (state_is t) ts.

(** From [s] to [s'] the state was kept, or it is now one of [ts]. *)
Definition movesTo (ts : list State) (s s' : St) : Prop :=
  state s' = state s \/ inStates (state s') ts = true.

Definition effect (vs : list Var) (ts : list State) (s s' : St) : Prop :=
  changesOnly vs s s' /\ movesTo ts s s'.

Definition markWrites : list Var :=
  [V_inventoryReady; V_inventoryReadyReason; V_inventoryReadyFallbackTimer;
   V_state; V_readyTimers].

Definition sendCommandWrites : list Var :=
  [V_currentWindowId; V_currentWindowType; V_currentWindowItems; V_clickSent;
   V_outbox; V_commandSent; V_commandSentCount; V_state].

Definition clickWrites : list Var := [V_outbox; V_clickSent; V_state].

(** The variables the handler of each event may assign. *)
Definition footprint (ev : Event) : list Var :=
  match ev with
  | EvError _ =>
      [V_client; V_state; V_reconnectTimer; V_pendingReconnectDelayMs]
  | EvKick _ => [V_pendingReconnectReason; V_pendingReconnectDelayMs; V_state]
  | EvClose =>
      [V_client; V_availableCommandsSeen; V_inventoryReady;
       V_inventoryReadyReason; V_currentWindowId; V_currentWindowType;
       V_currentWindowItems; V_playerInventoryItems; V_clickSent;
       V_commandSent; V_autoCommandSent; V_commandSentCount;
       V_pendingReconnectReason; V_pendingReconnectDelayMs; V_state;
       V_reconnectTimer]
  | EvSpawn => [V_state; V_readyTimers]
  | EvStartGame => markWrites
  | EvAvailableCommands =>
      [V_availableCommandsSeen; V_state; V_inventoryReadyFallbackTimer;
       V_readyTimers]
  | EvInventoryContent _ =>
      [V_currentWindowId; V_currentWindowType; V_currentWindowItems;
       V_playerInventoryItems] ++ markWrites ++ clickWrites
  | EvInventorySlot _ =>
      [V_currentWindowItems; V_playerInventoryItems] ++ markWrites ++ clickWrites
  | EvContainerOpen _ _ =>
      [V_currentWindowId; V_currentWindowType; V_currentWindowItems;
       V_clickSent; V_state]
  | EvContainerClose _ =>
      [V_currentWindowId; V_currentWindowType; V_currentWindowItems; V_state]
  | EvFallbackTimer => markWrites
  | EvReadyTimer => [V_readyTimers; V_autoCommandSent] ++ sendCommandWrites
  | EvReconnectTimer =>
      [V_reconnectTimer; V_reconnectAttempt; V_wantConnected; V_client; V_state]
  | EvLineConnect => [V_wantConnected; V_reconnectTimer; V_client; V_state]
  | EvLineDisconnect => [V_wantConnected; V_reconnectTimer]
  | EvLineSlot _ => [V_desiredTakeSlotIndex]
  | EvLineTake _ => [V_desiredTakeSlotIndex] ++ clickWrites
  | EvLineCommand _ _ => [V_desiredTakeSlotIndex] ++ sendCommandWrites
  end.

(** The states the handler of each event may leave the script in, when
    it changes the state at all. *)
Definition targets (ev : Event) : list State :=
  match ev with
  | EvError _ | EvKick _ | EvClose => [CONNECTING]
  | EvSpawn => [WAIT_AVAILABLE_COMMANDS; READY]
  | EvStartGame | EvFallbackTimer => [READY]
  | EvAvailableCommands => [WAIT_INVENTORY_READY; READY]
  | EvInventoryContent _ | EvInventorySlot _ =>
      [READY; WAIT_CONTAINER_CONTENT; CLICK_SENT]
  | EvContainerOpen _ _ => [WAIT_CONTAINER_CONTENT]
  | EvContainerClose _ => [DONE]
  | EvReadyTimer | EvLineCommand _ _ => [WAIT_UI]
  | EvReconnectTimer | EvLineConnect => [WAIT_SPAWN]
  | EvLineDisconnect | EvLineSlot _ => []
  | EvLineTake _ => [WAIT_CONTAINER_CONTENT; CLICK_SENT]
  end.

(** *** [client.close()] inside a handler *)

(** Three handlers call [client.close()]: error for a connect that
    timed out, kick, and [disconnectServer].  The transport may emit the
    close event before [close] returns, and the close handler then runs
    inside the call: [inside] is [Some env] in that case, with what the
    environment decides for the close handler, and [None] when [close]
    returns without the event. *)
Definition closeCall (inside : option Env) (s : St) : St :=
  match inside with
  | Some env => onClose env s
  | None => s
  end.

(** [client?.close()] *)
Definition closeIfClient (inside : option Env) (s : St) : St :=
  if client s then closeCall inside s else s.

Definition onErrorClosing (inside : option Env) (env : Env) (msg : string)
    (s : St) : St :=
  if includes msg "Read error" || includes msg "Invalid tag" then s
  else if includes (toLowerCase msg) "connect timed out" then
    let s := closeIfClient inside s in
    let s := set_client false s in
    let s := setState CONNECTING s in
    let s := scheduleReconnect env "connect timeout" (pendingReconnectDelayMs s) s in
    set_pendingReconnectDelayMs None s
  else s.

Definition onKickClosing (inside : option Env) (message : option string)
    (s : St) : St :=
  let msg := match message with Some m => m | None => "" end in
  let s := set_pendingReconnectReason
             (Some ("kicked: " ++ (if String.eqb msg "" then "unknown" else msg))) s in
  let s := if includes (toLowerCase msg) "already online"
           then set_pendingReconnectDelayMs (Some 30000) s else s in
  let s := closeIfClient inside s in
  setState CONNECTING s.

Definition disconnectServerClosing (inside : option Env) (s : St) : St :=
  if negb (client s) then s
  else closeCall inside (clearReconnectTimer (set_wantConnected false s)).

(** One turn of the event loop, with what [close] does inside it. *)
Definition turn (inside : option Env) (env : Env) (ev : Event) (s : St) : St :=
  match ev with
  | EvError msg => onErrorClosing inside env msg s
  | EvKick message => onKickClosing inside message s
  | EvLineDisconnect => disconnectServerClosing inside s
  | _ => step s (env, ev)
  end.

Definition callsClose (ev : Event) : bool :=
  match ev with
  | EvError _ | EvKick _ | EvLineDisconnect => true
  | _ => false
  end.

(** The variables a turn may assign: those of the handler, and those of
    the close handler where it runs inside. *)
Definition turnFootprint (inside : option Env) (ev : Event) : list Var :=
  match inside with
  | Some _ => if callsClose ev then footprint ev ++ footprint EvClose
              else footprint ev
  | None => footprint ev
  end.

Definition turnTargets (inside : option Env) (ev : Event) : list State :=
  match inside with
  | Some _ => if callsClose ev then targets ev ++ targets EvClose
              else targets ev
  | None => targets ev
  end.

(** A reconnect is pending only while there is no client and the user
    wants the connection. *)
Definition linkInvariant (s : St) : Prop :=
  reconnectTimer s <> None -> client s = false /\ wantConnected s = true.

(** [Math.floor(Math.random() * 500)] lies in [0, 500). *)
Definition goodEnv (env : Env) : Prop := 0 <= jitter env < 500.

Definition delayInvariant (s : St) : Prop :=
  (forall d, reconnectTimer s = Some d -> 2000 <= d <= 60499) /\
  (pendingReconnectDelayMs s = None \/ pendingReconnectDelayMs s = Some 30000).

(** The fallback timer is pending only while inventoryReady is unset;
    READY is held only with both flags, WAIT_INVENTORY_READY only after
    available_commands. *)
Definition gateSafe (s : St) : Prop :=
  (inventoryReadyFallbackTimer s = true -> inventoryReady s = false) /\
  (state s = READY ->
   availableCommandsSeen s = true /\ inventoryReady s = true) /\
  (state s = WAIT_INVENTORY_READY -> availableCommandsSeen s = true).

(** Items and a window type are kept only for a tracked window. *)
Definition windowInvariant (s : St) : Prop :=
  currentWindowId s = None ->
  currentWindowItems s = None /\ currentWindowType s = JsNull.

Definition lineConnect (ev : Event) : bool :=
  match ev with EvLineConnect => true | _ => false end.

Definition closeEvent (ev : Event) : bool :=
  match ev with EvClose => true | _ => false end.

(** *** What is handed to the transport *)

Definition isCommand (o : Out) : bool :=
  match pkt o with command_request _ => true | _ => false end.

(** The command requests handed to [client.queue], and how many of them
    it accepted. *)
Definition cmdAttempts (s : St) : list Out := filter isCommand (outbox s).

Definition cmdQueued (s : St) : nat :=
  List.length (filter queued (cmdAttempts s)).

(** A command request as [sendCommand] builds it. *)
Definition wellFormedCommand (c : CommandRequest) : Prop :=
  startsWith (command c) "/" = true /\ origin_type c = "player" /\
  request_id c = "" /\ player_entity_id c = 0 /\
  internal c = false /\ version c = "52".

(** A slot transaction for an item that is not empty, in one of the two
    forms. *)
Definition wellFormedTx (tx : Transaction) : Prop :=
  exists (w : WindowId) (i : Z) (item : Item),
    0 <= i /\ network_id item <> 0 /\
    (tx = buildNormalClickTransaction w i item \/
     exists d : nat, tx = buildMoveToInventoryTransaction w i (Z.of_nat d) item).

Definition wellFormedOut (o : Out) : Prop :=
  match pkt o with
  | command_request c => wellFormedCommand c
  | inventory_transaction tx => wellFormedTx tx
  end.

(** What the functions that end in [clickSlot] do to the outbox and to
    the state: nothing sent and CLICK_SENT not entered; or one
    transaction refused by the transport, CLICK_SENT not entered; or one
    transaction accepted and the state CLICK_SENT. *)
Definition clickTraffic (s s' : St) : Prop :=
  (outbox s' = outbox s /\ (state s' = CLICK_SENT -> state s = CLICK_SENT)) \/
  (exists tx, outbox s' = app (outbox s) [mkOut (inventory_transaction tx) false] /\
              wellFormedTx tx /\ state s' <> CLICK_SENT) \/
  (exists tx, outbox s' = app (outbox s) [mkOut (inventory_transaction tx) true] /\
              wellFormedTx tx /\ state s' = CLICK_SENT).

(** What the functions that end in [sendCommand] do to the outbox and to
    the two command counters. *)
Definition cmdTraffic (s s' : St) : Prop :=
  (outbox s' = outbox s /\ commandSentCount s' = commandSentCount s /\
   commandSent s' = commandSent s) \/
  (exists c, outbox s' = app (outbox s) [mkOut (command_request c) false] /\
             wellFormedCommand c /\ client s = true /\
             commandSentCount s' = commandSentCount s /\
             commandSent s' = commandSent s) \/
  (exists c, outbox s' = app (outbox s) [mkOut (command_request c) true] /\
             wellFormedCommand c /\ client s = true /\
             commandSentCount s' = S (commandSentCount s) /\
             commandSent s' = true /\ state s' = WAIT_UI).

Definition clickEvent (ev : Event) : bool :=
  match ev with
  | EvInventoryContent _ | EvInventorySlot _ | EvLineTake _ => true
  | _ => false
  end.

Definition commandEvent (ev : Event) : bool :=
  match ev with
  | EvReadyTimer | EvLineCommand _ _ => true
  | _ => false
  end.

(** The counters of [sendCommand]: [commandSent] is set exactly while
    the count is positive, and the count is at most the number of
    command requests the transport accepted. *)
Definition counterInvariant (s : St) : Prop :=
  (commandSent s = true <-> (0 < commandSentCount s)%nat) /\
  (commandSentCount s <= cmdQueued s)%nat.

(** CLICK_SENT and DONE are held only after an accepted slot
    transaction. *)
Definition clickedInvariant (s : St) : Prop :=
  state s = CLICK_SENT \/ state s = DONE -> (1 <= txQueued s)%nat.

(** While the user wants the connection and there is no client, a
    reconnect is pending. *)
Definition offlineInvariant (s : St) : Prop :=
  wantConnected s = true -> client s = false -> reconnectTimer s <> None.

End BotMore.

(* ===================================================================== *)
(** ** Further vocabulary for StateMachine *)
(* ===================================================================== *)

Module FsmMore.
Import Js Fsm.

(** [t] can be reached from [s] along allowed transitions. *)
Inductive path : ClientState -> ClientState -> Prop :=
| path_here (s : ClientState) : path s s
| path_next (s t u : ClientState) :
    path s t -> In u (transitions t) -> path s u.

(** The phases of a connection, in the order of the flow: a command can
    be dispatched in phase 6 only. *)
Definition phase (s : ClientState) : nat :=
  match s with
  | DISCONNECTED => 0
  | CONNECTING => 1
  | AUTHENTICATING => 2
  | RESOURCE_PACKS => 3
  | SPAWNING => 4
  | WAITING_COMMANDS | WAIT_INVENTORY_READY => 5
  | READY | COMMAND_SENT | WAITING_GUI => 6
  | GUI_RECEIVED => 7
  | CLICKING_SLOT => 8
  | COMPLETED => 9
  | ERROR => 10
  end.

Definition noReset (ms : list Method) : bool :=
  forallb (fun m => negb (FsmSpec.isResetCall m)) ms.

(** The state after each call, oldest first. *)
Fixpoint visited (ms : list Method) (sm : StateMachine) : list ClientState :=
  match ms with
  | [] => []
  | m :: rest => state (call m sm) :: visited rest (call m sm)
  end.

(** [xs] occurs in [ys] in this order, not necessarily side by side. *)
Fixpoint subseq (xs ys : list ClientState) : bool :=
  match xs, ys with
  | [], _ => true
  | _ :: _, [] => false
  | x :: xs', y :: ys' =>
      if state_eqb x y then subseq xs' ys' else subseq xs ys'
  end.

(** The same, as a relation. *)
Inductive Sub : list ClientState -> list ClientState -> Prop :=
| Sub_nil (ys : list ClientState) : Sub [] ys
| Sub_take (x : ClientState) (xs ys : list ClientState) :
    Sub xs ys -> Sub (x :: xs) (x :: ys)
| Sub_skip (y : ClientState) (xs ys : list ClientState) :
    Sub xs ys -> Sub xs (y :: ys).

(** The states every way into [s] has gone through since the machine was
    made or reset, [s] last. *)
Definition chainTo (s : ClientState) : list ClientState :=
  match s with
  | DISCONNECTED => []
  | CONNECTING => [CONNECTING]
  | AUTHENTICATING => [CONNECTING; AUTHENTICATING]
  | RESOURCE_PACKS => [CONNECTING; AUTHENTICATING; RESOURCE_PACKS]
  | SPAWNING => [CONNECTING; AUTHENTICATING; SPAWNING]
  | WAITING_COMMANDS =>
      [CONNECTING; AUTHENTICATING; SPAWNING; WAITING_COMMANDS]
  | WAIT_INVENTORY_READY =>
      [CONNECTING; AUTHENTICATING; SPAWNING; WAIT_INVENTORY_READY]
  | READY => [CONNECTING; AUTHENTICATING; SPAWNING; READY]
  | COMMAND_SENT => [CONNECTING; AUTHENTICATING; SPAWNING; READY; COMMAND_SENT]
  | WAITING_GUI =>
      [CONNECTING; AUTHENTICATING; SPAWNING; READY; COMMAND_SENT; WAITING_GUI]
  | GUI_RECEIVED =>
      [CONNECTING; AUTHENTICATING; SPAWNING; READY; COMMAND_SENT; WAITING_GUI;
       GUI_RECEIVED]
  | CLICKING_SLOT =>
      [CONNECTING; AUTHENTICATING; SPAWNING; READY; COMMAND_SENT; WAITING_GUI;
       GUI_RECEIVED; CLICKING_SLOT]
  | COMPLETED =>
      [CONNECTING; AUTHENTICATING; SPAWNING; READY; COMMAND_SENT; WAITING_GUI;
       GUI_RECEIVED; CLICKING_SLOT; COMPLETED]
  | ERROR => [CONNECTING; ERROR]
  end.

Definition allStates : list ClientState :=
  [DISCONNECTED; CONNECTING; AUTHENTICATING; RESOURCE_PACKS; SPAWNING;
   WAITING_COMMANDS; WAIT_INVENTORY_READY; READY; COMMAND_SENT; WAITING_GUI;
   GUI_RECEIVED; CLICKING_SLOT; COMPLETED; ERROR].

End FsmMore.

(* ===================================================================== *)
(** ** ProxyManager (proxy-manager.js) *)
(* ===================================================================== *)

Module Proxy.
Import Js.

(** [s.split(sep)] for a separator of one character. *)
Fixpoint split (sep : ascii) (s : string) : list string :=
  match s with
  | EmptyString => [EmptyString]
  | String c rest =>
      if Ascii.eqb c sep then EmptyString :: split sep rest
      else match split sep rest with
           | p :: ps => String c p :: ps
           | [] => [String c EmptyString]
           end
  end.

Fixpoint drop (n : nat) (s : string) : string :=
  match n, s with
  | O, _ => s
  | S _, EmptyString => EmptyString
  | S n', String _ rest => drop n' rest
  end.

(** [hay.replace(needle, repl)] for a string [needle] that is not empty
    and a replacement without dollar signs: the first occurrence is
    replaced. *)
Fixpoint replace (needle repl hay : string) : string :=
  if startsWith hay needle then repl ++ drop (String.length needle) hay
  else match hay with
       | EmptyString => EmptyString
       | String c rest => String c (replace needle repl rest)
       end.

Definition colon : ascii := ":"%char.
Definition newline : ascii := "010"%char.

Section Manager.

(** The numbers of JavaScript, [parseInt], [isNaN] and
    [String.prototype.trim] are not modelled: whatever they are, the
    properties below hold. *)
Variable Num : Type.
Variable parseInt : string -> Num.
Variable isNaN : Num -> bool.
Variable trim : string -> string.

Record Proxy : Type := mkProxy {
  host : string;
  port : Num;
  type : string
}.

(** [parseProxy(proxyString)]; [None] is [null]. *)
Definition parseProxy (proxyString : string) : option Proxy :=
  let '(type, cleaned) :=
    if startsWith proxyString "http://"
    then ("http", replace "http://" "" proxyString)
    else if startsWith proxyString "https://"
    then ("http", replace "https://" "" proxyString)
    else if startsWith proxyString "socks5://"
    then ("socks5", replace "socks5://" "" proxyString)
    else if startsWith proxyString "socks4://"
    then ("socks4", replace "socks4://" "" proxyString)
    else ("socks5", proxyString) in
  let parts := split colon cleaned in
  if (List.length parts <? 2)%nat then None
  else
    let host := nth 0 parts "" in
    let port := parseInt (nth 1 parts "") in
    if String.eqb host "" || isNaN port then None
    else Some {| host := host; port := port; type := type |}.

Record ProxyManager : Type := mkManager {
  proxies : list Proxy;
  currentIndex : nat
}.

Fixpoint somes (l : list (option Proxy)) : list Proxy :=
  match l with
  | [] => []
  | Some p :: rest => p :: somes rest
  | None :: rest => somes rest
  end.

(** The lines [loadProxies] keeps: trimmed, not empty, not a comment. *)
Definition keptLines (content : string) : list string :=
  filter (fun line => negb (String.eqb line "") && negb (startsWith line "#"))
         (map trim (split newline content)).

(** [loadProxies()]: [content] is what [readFileSync] returns, [None]
    when it raises. *)
Definition loadProxies (content : option string) (pm : ProxyManager)
    : ProxyManager :=
  match content with
  | Some text =>
      {| proxies := somes (map parseProxy (keptLines text));
         currentIndex := currentIndex pm |}
  | None => {| proxies := []; currentIndex := currentIndex pm |}
  end.

(** [new ProxyManager()] *)
Definition create (content : option string) : ProxyManager :=
  loadProxies content {| proxies := []; currentIndex := 0 |}.

(** What [getNext] returns. *)
Inductive Got : Type :=
| GotNull
| GotUndefined
| GotProxy (p : Proxy).

Definition element (l : list Proxy) (i : nat) : Got :=
  match nth_error l i with
  | Some p => GotProxy p
  | None => GotUndefined
  end.

Definition getNext (pm : ProxyManager) : Got * ProxyManager :=
  if (List.length (proxies pm) =? 0)%nat then (GotNull, pm)
  else
    (element (proxies pm) (currentIndex pm),
     {| proxies := proxies pm;
        currentIndex := (currentIndex pm + 1) mod List.length (proxies pm) |}).

Definition getCount (pm : ProxyManager) : nat := List.length (proxies pm).

(** [k] calls of [getNext] in a row: what they return, oldest first,
    and the manager afterwards. *)
Fixpoint getNexts (k : nat) (pm : ProxyManager) : list Got * ProxyManager :=
  match k with
  | O => ([], pm)
  | S k' =>
      let '(g, pm1) := getNext pm in
      let '(gs, pm2) := getNexts k' pm1 in
      (g :: gs, pm2)
  end.

(** The index points into the list, unless the list is empty. *)
Definition inRange (pm : ProxyManager) : Prop :=
  proxies pm = [] \/ (currentIndex pm < List.length (proxies pm))%nat.

(** A proxy as [parseProxy] may return it. *)
Definition wellFormed (p : Proxy) : Prop :=
  host p <> "" /\ isNaN (port p) = false /\
  In (type p) ["http"; "socks5"; "socks4"] /\
  ~ In colon (list_ascii_of_string (host p)).

End Manager.

Arguments mkProxy {Num} _ _ _.
Arguments host {Num} _.
Arguments port {Num} _.
Arguments type {Num} _.
Arguments mkManager {Num} _ _.
Arguments proxies {Num} _.
Arguments currentIndex {Num} _.
Arguments GotNull {Num}.
Arguments GotUndefined {Num}.
Arguments GotProxy {Num} _.
Arguments getNext {Num} _.
Arguments getNexts {Num} _ _.
Arguments getCount {Num} _.
Arguments element {Num} _ _.
Arguments inRange {Num} _.

(** The four prefixes [parseProxy] knows and the type each stands for. *)
Definition schemes : list (string * string) :=
  [("http://", "http"); ("https://", "http");
   ("socks5://", "socks5"); ("socks4://", "socks4")].

Definition noColon (s : string) : Prop :=
  ~ In colon (list_ascii_of_string s).

(** For the examples: the value of a string of decimal digits, where
    [parseInt] agrees with it; [None] stands for NaN and for every other
    string. *)
Definition digit (c : ascii) : option Z :=
  let n := nat_of_ascii c in
  if (48 <=? n)%nat && (n <=? 57)%nat then Some (Z.of_nat (n - 48)) else None.

Fixpoint decimalFrom (acc : Z) (s : string) : option Z :=
  match s with
  | EmptyString => Some acc
  | String c rest =>
      match digit c with
      | Some d => decimalFrom (10 * acc + d) rest
      | None => None
      end
  end.

Definition decimal (s : string) : option Z :=
  match s with
  | EmptyString => None
  | _ => decimalFrom 0 s
  end.

Definition isNone (n : option Z) : bool :=
  match n with None => true | Some _ => false end.

(** [String.prototype.trim] on lines without white space at the ends. *)
Definition noTrim (s : string) : string := s.

End Proxy.

(* ===================================================================== *)
(** ** The client made of BedrockClient, CommandHandler and GUIHandler *)
(* ===================================================================== *)

(** The three classes share one [StateMachine].  A world holds that
    machine, the fields of the one [BedrockClient], the [containerData]
    of every [GUIHandler] that was set up, the timers that are pending
    and the packets written so far.  An event is a call of a public
    method by whoever drives the classes (main.js does, through
    BedrockAFKClient), a packet or error delivered to a handler, or a
    timer running out.  Events may come in any order: a packet that
    several handlers listen to is one event per handler.  What the
    classes write to the logger themselves is not kept; what the machine
    writes is, in its [logger].  A [CommandHandler] and a [GUIHandler]
    are taken to be made with a client that is not null, so that their
    [this.client.write] does not raise; the handlers of [BedrockClient]
    write to its field [client], which [disconnect] sets to null. *)
Module App.
Import Js Fsm.

(** A window id as it stands in a packet or in [containerData]. *)
Inductive Id : Type :=
| IdUndefined
| IdNull
| IdNum (z : Z)
| IdStr (s : string).

Definition Id_eq_dec (a b : Id) : {a = b} + {a <> b}.
Proof. decide equality; [apply Z.eq_dec | apply string_dec]. Defined.

(** [a === b] *)
Definition strictEq (a b : Id) : bool :=
  if Id_eq_dec a b then true else false.

(** [Boolean(a)] *)
Definition truthy (a : Id) : bool :=
  match a with
  | IdUndefined | IdNull => false
  | IdNum z => negb (z =? 0)
  | IdStr s => negb (String.eqb s "")
  end.

Definition idValue (a : Id) : JsValue :=
  match a with
  | IdUndefined => JsUndefined
  | IdNull => JsNull
  | IdNum z => JsNumber z
  | IdStr s => JsString s
  end.

(** [window_id === 0 || window_id === '0'] *)
Definition isPlayerWindow (a : Id) : bool :=
  strictEq a (IdNum 0) || strictEq a (IdStr "0").

(** An integer in a template literal. *)
Definition showZ (z : Z) : string := NilZero.string_of_int (Z.to_int z).

(** [containerData] of a [GUIHandler]. *)
Record ContainerData : Type := mkContainerData {
  cd_windowId : Id;
  cd_type : JsValue;
  cd_slots : list Bot.Slot;
  cd_received : bool
}.

(** The object literal of the constructor and of [resetContainerData]. *)
Definition noContainer : ContainerData :=
  {| cd_windowId := IdNull; cd_type := JsNull; cd_slots := [];
     cd_received := false |}.

(** A field that holds what [setTimeout] returned: nothing yet (or null
    again), a timer that is pending, or one that ran out or was
    cleared. *)
Inductive Handle : Type := NoTimer | Pending | Spent.

Definition clearTimeout (h : Handle) : Handle :=
  match h with Pending => Spent | _ => h end.

(** What [client.write] was called with.  A command request carries,
    next to the command, the origin [{type: "player", uuid: "",
    request_id: "", player_entity_id: 0}], [internal: false] and
    [version: "52"]; a transaction is of type normal with one action of
    source container on the window and slot, both items empty. *)
Inductive Packet : Type :=
| resource_pack_client_response
| request_chunk_radius
| command_request (command : string)
| inventory_transaction (window_id : Id) (slot : Z).

Record World : Type := mkWorld {
  sm : StateMachine;
  client : bool;                        (* BedrockClient.client is not null *)
  loginTimeout : Handle;
  strayLoginTimers : nat;               (* pending, their handle overwritten *)
  readyFallbackTimer : Handle;
  guis : list ContainerData;            (* one per GUIHandler set up *)
  autoClickTimers : list (nat * Z);     (* 500 ms: the handler and the slot *)
  commandTimers : nat;                  (* 500 ms, of sendCommand *)
  assumeTimers : nat;                   (* 5000 ms, of clickSlot *)
  written : list Packet                 (* oldest first *)
}.

Definition init : World :=
  {| sm := new; client := false; loginTimeout := NoTimer;
     strayLoginTimers := 0; readyFallbackTimer := NoTimer; guis := [];
     autoClickTimers := []; commandTimers := 0; assumeTimers := 0;
     written := [] |}.

Definition set_sm (v : StateMachine) (w : World) : World :=
  mkWorld v (client w) (loginTimeout w) (strayLoginTimers w)
    (readyFallbackTimer w) (guis w) (autoClickTimers w) (commandTimers w)
    (assumeTimers w) (written w).

Definition set_client (v : bool) (w : World) : World :=
  mkWorld (sm w) v (loginTimeout w) (strayLoginTimers w)
    (readyFallbackTimer w) (guis w) (autoClickTimers w) (commandTimers w)
    (assumeTimers w) (written w).

Definition set_loginTimeout (v : Handle) (w : World) : World :=
  mkWorld (sm w) (client w) v (strayLoginTimers w)
    (readyFallbackTimer w) (guis w) (autoClickTimers w) (commandTimers w)
    (assumeTimers w) (written w).

Definition set_strayLoginTimers (v : nat) (w : World) : World :=
  mkWorld (sm w) (client w) (loginTimeout w) v
    (readyFallbackTimer w) (guis w) (autoClickTimers w) (commandTimers w)
    (assumeTimers w) (written w).

Definition set_readyFallbackTimer (v : Handle) (w : World) : World :=
  mkWorld (sm w) (client w) (loginTimeout w) (strayLoginTimers w)
    v (guis w) (autoClickTimers w) (commandTimers w)
    (assumeTimers w) (written w).

Definition set_guis (v : list ContainerData) (w : World) : World :=
  mkWorld (sm w) (client w) (loginTimeout w) (strayLoginTimers w)
    (readyFallbackTimer w) v (autoClickTimers w) (commandTimers w)
    (assumeTimers w) (written w).

Definition set_autoClickTimers (v : list (nat * Z)) (w : World) : World :=
  mkWorld (sm w) (client w) (loginTimeout w) (strayLoginTimers w)
    (readyFallbackTimer w) (guis w) v (commandTimers w)
    (assumeTimers w) (written w).

Definition set_commandTimers (v : nat) (w : World) : World :=
  mkWorld (sm w) (client w) (loginTimeout w) (strayLoginTimers w)
    (readyFallbackTimer w) (guis w) (autoClickTimers w) v
    (assumeTimers w) (written w).

Definition set_assumeTimers (v : nat) (w : World) : World :=
  mkWorld (sm w) (client w) (loginTimeout w) (strayLoginTimers w)
    (readyFallbackTimer w) (guis w) (autoClickTimers w) (commandTimers w)
    v (written w).

Definition set_written (v : list Packet) (w : World) : World :=
  mkWorld (sm w) (client w) (loginTimeout w) (strayLoginTimers w)
    (readyFallbackTimer w) (guis w) (autoClickTimers w) (commandTimers w)
    (assumeTimers w) v.

(** [this.sm.transition(t, reason)], its result dropped. *)
Definition go (t : ClientState) (reason : string) (w : World) : World :=
  set_sm (snd (transition t reason (sm w))) w.

(** [client.write(name, params)] on a client that is there. *)
Definition write (p : Packet) (w : World) : World :=
  set_written (written w ++ [p]) w.

Definition stateIs (t : ClientState) (w : World) : bool :=
  state_eqb (state (sm w)) t.

(** *** BedrockClient *)

Definition armReadyFallback (w : World) : World :=
  match readyFallbackTimer w with
  | NoTimer => set_readyFallbackTimer Pending w
  | _ => w
  end.

(** [disconnect()]: [commandTimeout] is never assigned, so clearing it
    does nothing. *)
Definition disconnect (w : World) : World :=
  let w := set_loginTimeout (clearTimeout (loginTimeout w)) w in
  let w := set_readyFallbackTimer (clearTimeout (readyFallbackTimer w)) w in
  let w := if client w then set_client false w else w in
  set_sm (reset (sm w)) w.

(** [connect()] up to the promise it returns.  [created] tells whether
    [bedrock.createClient] returned; [message] is the message of what it
    raised otherwise. *)
Definition connect (created : bool) (message : string) (w : World) : World :=
  let w := go CONNECTING "Starting connection" w in
  if created then
    let w := set_client true w in
    let w := match loginTimeout w with
             | Pending => set_strayLoginTimers (S (strayLoginTimers w)) w
             | _ => w
             end in
    set_loginTimeout Pending w
  else go ERROR message w.

(** The callback of the login timer. *)
Definition loginTimedOut (w : World) : World :=
  if negb (stateIs READY w)
  then disconnect (go ERROR "Login timeout" w)
  else w.

Definition onPlayStatus (status : string) (w : World) : World :=
  if String.eqb status "login_success"
  then go AUTHENTICATING "Login successful" w
  else w.

(** Where [this.client] is null, [this.client.write] raises and the
    handler ends there. *)
Definition onResourcePackStack (w : World) : World :=
  let w := go RESOURCE_PACKS "Resource pack negotiation" w in
  if client w then write resource_pack_client_response w else w.

Definition onStartGame (w : World) : World :=
  let w := go SPAWNING "Game started" w in
  let w := if negb (inventoryReady (stateData (sm w)))
           then set_sm (setInventoryReady true (sm w)) w else w in
  if negb (client w) then w
  else
    let w := write request_chunk_radius w in
    let w := armReadyFallback w in
    if stateIs SPAWNING w
    then go WAITING_COMMANDS "Waiting for inventory" w
    else w.

Definition onInventoryContent (window_id : Id) (w : World) : World :=
  if isPlayerWindow window_id
  then set_sm (setInventoryReady true (sm w)) w
  else w.

Definition onInventorySlot (window_id : Id) (w : World) : World :=
  if isPlayerWindow window_id && negb (inventoryReady (stateData (sm w)))
  then set_sm (setInventoryReady true (sm w)) w
  else w.

(** The handler [connect] registers once for spawn. *)
Definition onSpawn (w : World) : World :=
  set_loginTimeout (clearTimeout (loginTimeout w)) w.

(** [msg] is [String(error?.message || error)]. *)
Definition onError (msg : string) (w : World) : World :=
  if includes msg "Read error" || includes msg "Invalid tag" then w
  else go ERROR msg w.

Definition onKick (w : World) : World := go ERROR "Kicked" w.

(** The callback of the timer of [armReadyFallback]. *)
Definition readyFallback (w : World) : World :=
  let d := stateData (sm w) in
  let w := if negb (commandsAvailable d) || negb (inventoryReady d)
           then set_sm (setInventoryReady true
                          (setCommandsAvailable true (sm w))) w
           else w in
  set_readyFallbackTimer NoTimer w.

(** *** CommandHandler *)

Definition sendCommand (command : string) (w : World) : bool * World :=
  if negb (canSendCommand (sm w)) then (false, w)
  else
    let cmd := if startsWith command "/" then command else "/" ++ command in
    let w := go COMMAND_SENT ("Sending: " ++ cmd) w in
    let w := write (command_request cmd) w in
    (true, set_commandTimers (S (commandTimers w)) w).

(** The callback of the timer of [sendCommand]. *)
Definition commandDone (w : World) : World :=
  if stateIs COMMAND_SENT w
  then go READY "Command completed, ready for next" w
  else w.

(** *** GUIHandler *)

Fixpoint replaceAt (i : nat) (d : ContainerData) (l : list ContainerData)
    : list ContainerData :=
  match l, i with
  | [], _ => []
  | _ :: rest, O => d :: rest
  | x :: rest, S i' => x :: replaceAt i' d rest
  end.

Definition set_gui (i : nat) (d : ContainerData) (w : World) : World :=
  set_guis (replaceAt i d (guis w)) w.

(** [new GUIHandler(...)] and [setupHandlers()]. *)
Definition newGui (w : World) : World :=
  set_guis (guis w ++ [noContainer]) w.

Definition onContainerOpen (i : nat) (window_id : Id) (type : JsValue)
    (w : World) : World :=
  match nth_error (guis w) i with
  | None => w
  | Some d =>
      if stateIs COMMAND_SENT w || stateIs READY w || stateIs WAITING_GUI w
      then
        let w := set_gui i {| cd_windowId := window_id; cd_type := type;
                              cd_slots := cd_slots d;
                              cd_received := cd_received d |} w in
        let w := set_sm (setContainerData (idValue window_id) type (sm w)) w in
        go GUI_RECEIVED "Container opened" w
      else w
  end.

(** [input] is [packet.input] where it is an array; [slotIndex] is
    [config.behavior.slotIndex] at that moment, an integer. *)
Definition onGuiInventoryContent (i : nat) (window_id : Id)
    (input : option (list Bot.Slot)) (slotIndex : Z) (w : World) : World :=
  match nth_error (guis w) i with
  | None => w
  | Some d =>
      if strictEq window_id (cd_windowId d) then
        let w := set_gui i {| cd_windowId := cd_windowId d;
                              cd_type := cd_type d;
                              cd_slots := match input with
                                          | Some items => items
                                          | None => []
                                          end;
                              cd_received := true |} w in
        if stateIs GUI_RECEIVED w
        then set_autoClickTimers (autoClickTimers w ++ [(i, slotIndex)]) w
        else w
      else w
  end.

Definition onContainerClose (i : nat) (window_id : Id) (w : World) : World :=
  match nth_error (guis w) i with
  | None => w
  | Some d =>
      if strictEq window_id (cd_windowId d) then
        let w := if stateIs CLICKING_SLOT w
                 then go COMPLETED "Slot clicked, GUI closed" w else w in
        set_gui i noContainer w
      else w
  end.

Definition clickSlot (i : nat) (slotIndex : Z) (w : World) : bool * World :=
  match nth_error (guis w) i with
  | None => (false, w)
  | Some d =>
      if negb (truthy (cd_windowId d)) then (false, w)
      else if negb (cd_received d) then (false, w)
      else if negb (stateIs GUI_RECEIVED w) then (false, w)
      else
        let w := go CLICKING_SLOT ("Clicking slot " ++ showZ slotIndex) w in
        let w := write (inventory_transaction (cd_windowId d) slotIndex) w in
        (true, set_assumeTimers (S (assumeTimers w)) w)
  end.

(** The callback of the timer of [clickSlot]. *)
Definition assumeSuccess (w : World) : World :=
  if stateIs CLICKING_SLOT w
  then go COMPLETED "Timeout assumed success" w
  else w.

Definition resetContainerData (i : nat) (w : World) : World :=
  match nth_error (guis w) i with
  | None => w
  | Some _ => set_gui i noContainer w
  end.

Fixpoint removeAt {A : Type} (k : nat) (l : list A) : list A :=
  match l, k with
  | [], _ => []
  | _ :: rest, O => rest
  | x :: rest, S k' => x :: removeAt k' rest
  end.

(** *** Everything that can happen *)

Inductive Event : Type :=
(* calls of public methods *)
| EvConnect (created : bool) (message : string)
| EvDisconnect
| EvSendCommand (command : string)      (* also what scheduleCommand does *)
| EvNewGui
| EvClickSlot (i : nat) (slotIndex : Z)
| EvResetContainerData (i : nat)
(* handlers of BedrockClient *)
| EvPlayStatus (status : string)
| EvResourcePackStack
| EvStartGame
| EvInventoryContent (window_id : Id)
| EvInventorySlot (window_id : Id)
| EvSpawn
| EvError (msg : string)
| EvKick
(* handlers of the GUIHandler number i *)
| EvContainerOpen (i : nat) (window_id : Id) (type : JsValue)
| EvGuiInventoryContent (i : nat) (window_id : Id)
    (input : option (list Bot.Slot)) (slotIndex : Z)
| EvContainerClose (i : nat) (window_id : Id)
(* timers *)
| EvLoginTimeout
| EvStrayLoginTimeout
| EvReadyFallback
| EvCommandTimer
| EvAutoClick (k : nat)                 (* the k-th pending one *)
| EvAssumeTimer.

(** One turn of the event loop.  A timer that is not pending cannot run
    out. *)
Definition step (w : World) (ev : Event) : World :=
  match ev with
  | EvConnect created message => connect created message w
  | EvDisconnect => disconnect w
  | EvSendCommand command => snd (sendCommand command w)
  | EvNewGui => newGui w
  | EvClickSlot i slotIndex => snd (clickSlot i slotIndex w)
  | EvResetContainerData i => resetContainerData i w
  | EvPlayStatus status => onPlayStatus status w
  | EvResourcePackStack => onResourcePackStack w
  | EvStartGame => onStartGame w
  | EvInventoryContent window_id => onInventoryContent window_id w
  | EvInventorySlot window_id => onInventorySlot window_id w
  | EvSpawn => onSpawn w
  | EvError msg => onError msg w
  | EvKick => onKick w
  | EvContainerOpen i window_id type => onContainerOpen i window_id type w
  | EvGuiInventoryContent i window_id input slotIndex =>
      onGuiInventoryContent i window_id input slotIndex w
  | EvContainerClose i window_id => onContainerClose i window_id w
  | EvLoginTimeout =>
      match loginTimeout w with
      | Pending => loginTimedOut (set_loginTimeout Spent w)
      | _ => w
      end
  | EvStrayLoginTimeout =>
      match strayLoginTimers w with
      | S n => loginTimedOut (set_strayLoginTimers n w)
      | O => w
      end
  | EvReadyFallback =>
      match readyFallbackTimer w with
      | Pending => readyFallback w
      | _ => w
      end
  | EvCommandTimer =>
      match commandTimers w with
      | S n => commandDone (set_commandTimers n w)
      | O => w
      end
  | EvAutoClick k =>
      match nth_error (autoClickTimers w) k with
      | Some (i, slotIndex) =>
          snd (clickSlot i slotIndex
                 (set_autoClickTimers (removeAt k (autoClickTimers w)) w))
      | None => w
      end
  | EvAssumeTimer =>
      match assumeTimers w with
      | S n => assumeSuccess (set_assumeTimers n w)
      | O => w
      end
  end.

Definition run (evs : list Event) (w : World) : World :=
  fold_left step evs w.

(** *** Vocabulary of the properties *)

Definition isCommand (p : Packet) : bool :=
  match p with command_request _ => true | _ => false end.

Definition isTransaction (p : Packet) : bool :=
  match p with inventory_transaction _ _ => true | _ => false end.

(** The command requests written so far. *)
Definition commandsWritten (w : World) : list Packet :=
  filter isCommand (written w).

Definition transactionsWritten (w : World) : list Packet :=
  filter isTransaction (written w).

Definition isReadyFallback (ev : Event) : bool :=
  match ev with EvReadyFallback => true | _ => false end.

(** The states the flow has after a container was asked for. *)
Definition guiState (s : ClientState) : bool :=
  match s with
  | WAITING_GUI | GUI_RECEIVED | CLICKING_SLOT | COMPLETED => true
  | _ => false
  end.

(** No state of the container flow is held and none of its timers is
    pending. *)
Definition noGui (w : World) : Prop :=
  guiState (state (sm w)) = false /\ autoClickTimers w = [] /\
  assumeTimers w = 0%nat /\ transactionsWritten w = [].

(** Commands are not available, and stay so from [w] to [w']: none is
    written, and a fallback timer that was cleared stays as it is. *)
Definition unavailable (w : World) : Prop :=
  commandsAvailable (stateData (sm w)) = false.

Definition keeps (w w' : World) : Prop :=
  unavailable w ->
  unavailable w' /\ commandsWritten w' = commandsWritten w /\
  (readyFallbackTimer w = Spent -> readyFallbackTimer w' = Spent).

(** READY and COMMAND_SENT are held with both flags only. *)
Definition readyWithFlags (m : StateMachine) : Prop :=
  state m = READY \/ state m = COMMAND_SENT ->
  commandsAvailable (stateData m) = true /\ inventoryReady (stateData m) = true.

(** The events that call [disconnect], and with it [reset]. *)
Definition resets (ev : Event) : bool :=
  match ev with
  | EvDisconnect | EvLoginTimeout | EvStrayLoginTimeout => true
  | _ => false
  end.

(** [command] with the slash [sendCommand] puts in front. *)
Definition withSlash (command : string) : string :=
  if startsWith command "/" then command else "/" ++ command.

(** What one event may add to the packets written, and when. *)
Definition writesOf (w w' : World) : Prop :=
  written w' = written w \/
  exists p, written w' = app (written w) [p] /\
    match p with
    | command_request c =>
        canSendCommand (sm w) = true /\ startsWith c "/" = true /\
        state (sm w') = COMMAND_SENT
    | inventory_transaction window_id _ =>
        state (sm w) = GUI_RECEIVED /\ truthy window_id = true /\
        state (sm w') = CLICKING_SLOT
    | resource_pack_client_response | request_chunk_radius =>
        client w = true
    end.

End App.

(* ===================================================================== *)
(** ** Properties of StateMachine *)
(* ===================================================================== *)

Module FsmFacts.
Import Js Fsm FsmSpec.

Lemma state_eqb_true (a b : ClientState) : state_eqb a b = true <-> a = b.
Proof.
  unfold state_eqb. destruct (ClientState_eq_dec a b); split; congruence.
Qed.

Lemma canTransition_In (t : ClientState) (sm : StateMachine) :
  canTransition t sm = true <-> In t (transitions (state sm)).
Proof.
  unfold canTransition. rewrite existsb_exists. split.
  - intros [x [Hin Heq]]. apply state_eqb_true in Heq. now subst.
  - intros Hin. exists t. split; [assumption | now apply state_eqb_true].
Qed.

Lemma canTransition_not_In (t : ClientState) (sm : StateMachine) :
  ~ In t (transitions (state sm)) -> canTransition t sm = false.
Proof.
  intros Hn. destruct (canTransition t sm) eqn:E; [|reflexivity].
  apply canTransition_In in E. contradiction.
Qed.

(** C8. A transition to a state outside the allowed successors of the
    current state writes one error line that names the current and the
    requested state, returns false, and leaves state and data as they
    were. *)
Theorem transition_illegal_rejected :
  forall (sm : StateMachine) (t : ClientState) (reason : string),
    ~ In t (transitions (state sm)) ->
    fst (transition t reason sm) = false /\
    state (snd (transition t reason sm)) = state sm /\
    stateData (snd (transition t reason sm)) = stateData sm /\
    logger (snd (transition t reason sm)) =
      app (logger sm)
        [(LvError,
          "Invalid transition: " ++ name (state sm) ++ " → " ++ name t ++
          ". Allowed: " ++ join ", " (map name (transitions (state sm))))].
Proof.
  intros sm t reason Hn. unfold transition.
  rewrite (canTransition_not_In t sm Hn). simpl. repeat split.
Qed.

Lemma transition_illegal_rejected_witness :
  ~ In READY (transitions (state new)) /\
  fst (transition READY "" new) = false /\
  state (snd (transition READY "" new)) = DISCONNECTED /\
  logger (snd (transition READY "" new)) =
    [(LvError, "Invalid transition: DISCONNECTED → READY. Allowed: CONNECTING")].
Proof.
  assert (Hn : ~ In READY (transitions (state new))).
  { simpl. intros [H | []]. discriminate H. }
  destruct (transition_illegal_rejected new READY "" Hn) as [H1 [H2 [_ H4]]].
  repeat split; assumption.
Defined.

(** The allowed transition, for comparison. *)
Lemma transition_legal (sm : StateMachine) (t : ClientState) (reason : string) :
  In t (transitions (state sm)) ->
  fst (transition t reason sm) = true /\ state (snd (transition t reason sm)) = t.
Proof.
  intros Hin. unfold transition.
  apply canTransition_In in Hin. rewrite Hin. simpl. split; reflexivity.
Qed.

Lemma terminal_no_successor (s : ClientState) :
  terminal s -> transitions s = [].
Proof. intros [-> | ->]; reflexivity. Qed.

Lemma checkReadyState_terminal (sm : StateMachine) :
  terminal (state sm) -> checkReadyState sm = sm.
Proof.
  intros [H | H]; unfold checkReadyState; rewrite H; reflexivity.
Qed.

Lemma call_terminal (m : Method) (sm : StateMachine) :
  terminal (state sm) -> isResetCall m = false -> state (call m sm) = state sm.
Proof.
  intros Ht Hm. destruct m; simpl in *; try discriminate.
  - unfold transition. rewrite canTransition_not_In; [reflexivity|].
    rewrite (terminal_no_successor _ Ht). intros [].
  - unfold setCommandsAvailable. rewrite checkReadyState_terminal; auto.
  - unfold setInventoryReady. rewrite checkReadyState_terminal; auto.
  - rewrite checkReadyState_terminal; auto.
  - reflexivity.
Qed.

Lemma calls_terminal (ms : list Method) :
  forall sm, terminal (state sm) ->
    forallb (fun m => negb (isResetCall m)) ms = true ->
    state (calls ms sm) = state sm.
Proof.
  induction ms as [|m ms IH]; intros sm Ht Hall; [reflexivity|].
  simpl in Hall. apply andb_true_iff in Hall. destruct Hall as [Hm Hms].
  apply negb_true_iff in Hm.
  assert (Hs : state (call m sm) = state sm) by now apply call_terminal.
  unfold calls in *. simpl. rewrite IH; [assumption | now rewrite Hs | assumption].
Qed.

(** C10. COMPLETED and ERROR have no allowed successor: there, every
    transition returns false and keeps the state, as does every sequence
    of calls without reset; reset leads to DISCONNECTED with the data of
    a new machine. *)
Theorem terminal_states_absorbing :
  forall (sm : StateMachine),
    state sm = COMPLETED \/ state sm = ERROR ->
    transitions (state sm) = [] /\
    (forall t reason,
        fst (transition t reason sm) = false /\
        state (snd (transition t reason sm)) = state sm) /\
    (forall ms, forallb (fun m => negb (isResetCall m)) ms = true ->
                state (calls ms sm) = state sm) /\
    state (reset sm) = DISCONNECTED /\
    stateData (reset sm) = freshData.
Proof.
  intros sm Ht. split; [now apply terminal_no_successor|].
  split.
  - intros t reason.
    assert (Hn : ~ In t (transitions (state sm))).
    { rewrite (terminal_no_successor _ Ht). intros []. }
    unfold transition. rewrite (canTransition_not_In t sm Hn). split; reflexivity.
  - split; [intros ms Hall; now apply calls_terminal|]. split; reflexivity.
Qed.

(** A machine driven to COMPLETED through allowed transitions only. *)
Lemma terminal_states_absorbing_witness :
  let sm := calls [MTransition CONNECTING ""; MTransition AUTHENTICATING "";
                   MTransition SPAWNING ""; MTransition READY "";
                   MTransition COMMAND_SENT ""; MTransition WAITING_GUI "";
                   MTransition GUI_RECEIVED ""; MTransition CLICKING_SLOT "";
                   MTransition COMPLETED ""; MSetInventoryReady true] new in
  state sm = COMPLETED /\
  fst (transition READY "" sm) = false /\
  state (calls [MTransition ERROR ""; MSetCommandsAvailable true;
                MCheckReadyState] sm) = COMPLETED /\
  inventoryReady (stateData sm) = true /\
  stateData (reset sm) = freshData.
Proof.
  intros sm.
  assert (Hs : state sm = COMPLETED) by reflexivity.
  destruct (terminal_states_absorbing sm (or_introl Hs)) as [_ [H1 [H2 [_ H4]]]].
  split; [exact Hs|]. split; [exact (proj1 (H1 READY ""))|].
  split; [rewrite H2; [exact Hs | reflexivity]|].
  split; [reflexivity | exact H4].
Defined.

(** *** The readiness flags of the machine *)

Lemma checkReadyState_data (sm : StateMachine) :
  stateData (checkReadyState sm) = stateData sm.
Proof.
  unfold checkReadyState.
  destruct (_ && _ && _); [|reflexivity].
  unfold transition. destruct (negb _); reflexivity.
Qed.

Lemma setInventoryReady_stores (ready : bool) (sm : StateMachine) :
  inventoryReady (stateData (setInventoryReady ready sm)) = ready /\
  commandsAvailable (stateData (setInventoryReady ready sm)) =
    commandsAvailable (stateData sm).
Proof.
  unfold setInventoryReady. rewrite checkReadyState_data. split; reflexivity.
Qed.



(** *** The gate of the machine *)





End FsmFacts.

(* ===================================================================== *)
(** ** Properties of the session script *)
(* ===================================================================== *)

Module BotFacts.
Import Js Bot.

(** *** Container inference *)

(** C3. A snapshot of 36 slots is never taken for a UI container,
    whatever the window id, the container id and the dynamic id. *)
Theorem snapshot_of_36_is_inventory :
  forall (windowId : WindowId) (containerId dynamicId : JsValue),
    isUiLikeContainerSnapshot windowId containerId dynamicId 36 = false.
Proof. intros. reflexivity. Qed.

(** C2, as the claim states it, fails: 36 slots win over a dynamic id. *)
Lemma dynamic_id_with_36_slots_not_ui :
  isUiLikeContainerSnapshot (WNum 5) JsUndefined (JsNumber 7) 36 = false /\
  ~ (forall windowId containerId z size,
        isUiLikeContainerSnapshot windowId containerId (JsNumber z) size = true).
Proof.
  split; [reflexivity|].
  intros H. specialize (H (WNum 5) JsUndefined 7 36). discriminate H.
Qed.

(** C2, amended. A snapshot whose dynamic id is a finite number is taken
    for a UI container whenever its size is not 36, whatever the window
    id and the container id. *)
Theorem dynamic_id_is_ui_unless_36 :
  forall (windowId : WindowId) (containerId : JsValue) (z size : Z),
    size <> 36 ->
    isUiLikeContainerSnapshot windowId containerId (JsNumber z) size = true.
Proof.
  intros windowId containerId z size Hsize. unfold isUiLikeContainerSnapshot.
  apply Z.eqb_neq in Hsize. rewrite Hsize. simpl.
  destruct containerId; try reflexivity.
  destruct (negb _); reflexivity.
Qed.

Lemma dynamic_id_is_ui_unless_36_witness :
  27 <> 36 /\
  isUiLikeContainerSnapshot (WNum 0) (JsString "inventory") (JsNumber 3) 27 = true.
Proof.
  assert (H : 27 <> 36) by lia.
  split; [exact H|].
  exact (dynamic_id_is_ui_unless_36 (WNum 0) (JsString "inventory") 3 27 H).
Defined.

(** *** Reconnect supervisor *)

Lemma reconnectBase_small (a : nat) :
  (a <= 6)%nat -> reconnectBase a = Z.min 60000 (2000 * 2 ^ Z.of_nat a).
Proof.
  intros Ha. unfold reconnectBase, RECONNECT_MAX_MS, RECONNECT_BASE_MS.
  now rewrite Nat.min_l.
Qed.

Lemma reconnectBase_flat (a : nat) :
  (5 <= a)%nat -> reconnectBase a = 60000.
Proof.
  intros Ha. unfold reconnectBase, RECONNECT_MAX_MS, RECONNECT_BASE_MS.
  assert (H : 2 ^ 5 <= 2 ^ Z.of_nat (Nat.min a 6)).
  { apply Z.pow_le_mono_r; lia. }
  change (2 ^ 5) with 32 in H. lia.
Qed.

Lemma reconnectBase_mono (a b : nat) :
  (a <= b)%nat -> reconnectBase a <= reconnectBase b.
Proof.
  intros Hab. unfold reconnectBase.
  apply Z.min_le_compat_l. unfold RECONNECT_BASE_MS.
  apply Z.mul_le_mono_nonneg_l; [lia|].
  apply Z.pow_le_mono_r; lia.
Qed.

(** C5. When a reconnect is scheduled without an explicit delay, the
    timer is set to max(250, min(60000, 2000 * 2^min(a, 6)) + j) with the
    jitter j in [0, 500); the delay before jitter is 2000 * 2^a capped at
    60000 up to a = 6, stays 60000 from a = 7 on, and never decreases
    with a. *)
Theorem scheduleReconnect_backoff :
  forall (env : Env) (reason : string) (s : St),
    wantConnected s = true -> client s = false -> reconnectTimer s = None ->
    0 <= jitter env < 500 ->
    let a := Z.of_nat (reconnectAttempt s) in
    (exists j, 0 <= j < 500 /\
       reconnectTimer (scheduleReconnect env reason None s) =
         Some (Z.max 250 (Z.min 60000 (2000 * 2 ^ Z.min a 6) + j))) /\
    (a <= 6 -> reconnectBase (reconnectAttempt s) = Z.min 60000 (2000 * 2 ^ a)) /\
    (7 <= a -> reconnectBase (reconnectAttempt s) = 60000) /\
    (forall b, (reconnectAttempt s <= b)%nat ->
               reconnectBase (reconnectAttempt s) <= reconnectBase b).
Proof.
  intros env reason s Hw Hc Ht Hj a. repeat split.
  - exists (jitter env). split; [exact Hj|].
    unfold scheduleReconnect. rewrite Hw, Hc, Ht. simpl.
    unfold reconnectWait, reconnectBase, RECONNECT_MAX_MS, RECONNECT_BASE_MS.
    subst a. now rewrite Nat2Z.inj_min.
  - intros Ha. apply reconnectBase_small. lia.
  - intros Ha. apply reconnectBase_flat. lia.
  - intros b Hb. now apply reconnectBase_mono.
Qed.

(** The third reconnect after a connection loss, with jitter 123. *)
Lemma scheduleReconnect_backoff_witness :
  let s := set_reconnectAttempt 3%nat (set_wantConnected true init) in
  reconnectTimer (scheduleReconnect (mkEnv true 123) "closed" None s) =
    Some 16123 /\
  reconnectBase 3 = 16000 /\
  reconnectBase 3 <= reconnectBase 9.
Proof.
  intros s.
  assert (Hj : 0 <= jitter (mkEnv true 123) < 500) by (simpl; lia).
  destruct (scheduleReconnect_backoff (mkEnv true 123) "closed" s
              eq_refl eq_refl eq_refl Hj) as [_ [H2 [_ H4]]].
  split; [reflexivity|]. split.
  - assert (Ha : Z.of_nat (reconnectAttempt s) <= 6) by (simpl; lia).
    exact (H2 Ha).
  - apply H4. simpl. lia.
Defined.

(** C7. After a kick whose message contains "already online" in any
    letter case, the close that follows schedules the reconnect with
    30000 plus jitter, whatever the attempt counter says; the override is
    used up. *)
Theorem kick_already_online_cooldown :
  forall (env1 env2 : Env) (msg : string) (s : St),
    includes (toLowerCase msg) "already online" = true ->
    wantConnected s = true -> reconnectTimer s = None ->
    0 <= jitter env2 < 500 ->
    let s' := run [(env1, EvKick (Some msg)); (env2, EvClose)] s in
    reconnectTimer s' = Some (30000 + jitter env2) /\
    pendingReconnectDelayMs s' = None.
Proof.
  intros env1 env2 msg s Hmsg Hw Ht Hj.
  cbn -[Z.add Z.max]. unfold step. cbn -[Z.add Z.max].
  unfold onKick. rewrite Hmsg.
  unfold onClose, scheduleReconnect, setState. cbn -[Z.add Z.max].
  rewrite Hw, Ht. cbn -[Z.add Z.max]. unfold reconnectWait.
  split; [|reflexivity]. f_equal. lia.
Qed.

(** A session at its seventh attempt: the backoff alone would wait
    60000 and more. *)
Lemma kick_already_online_cooldown_witness :
  let s := set_reconnectAttempt 7%nat (connectServer init) in
  let s' := run [(mkEnv true 0, EvKick (Some "You are Already Online!"));
                 (mkEnv true 40, EvClose)] s in
  reconnectTimer s' = Some 30040 /\
  reconnectWait (reconnectAttempt s) None 40 = 60040.
Proof.
  intros s s'. split; [|reflexivity].
  assert (Hj : 0 <= jitter (mkEnv true 40) < 500) by (simpl; lia).
  exact (proj1 (kick_already_online_cooldown (mkEnv true 0) (mkEnv true 40)
                  "You are Already Online!" s eq_refl eq_refl eq_refl Hj)).
Defined.

(** Any other kick leaves the delay to the backoff. *)
Lemma kick_other_reason_backoff :
  forall (env1 env2 : Env) (msg : string) (s : St),
    includes (toLowerCase msg) "already online" = false ->
    wantConnected s = true -> reconnectTimer s = None ->
    pendingReconnectDelayMs s = None ->
    reconnectTimer (run [(env1, EvKick (Some msg)); (env2, EvClose)] s) =
      Some (Z.max 250 (reconnectBase (reconnectAttempt s) + jitter env2)).
Proof.
  intros env1 env2 msg s Hmsg Hw Ht Hp.
  cbn -[Z.add Z.max reconnectBase]. unfold step. cbn -[Z.add Z.max reconnectBase].
  unfold onKick. rewrite Hmsg.
  unfold onClose, scheduleReconnect, setState. cbn -[Z.add Z.max reconnectBase].
  rewrite Hw, Ht, Hp. reflexivity.
Qed.

(** *** The attempt counter *)

(** Case analysis on the innermost scrutinee first. *)
Ltac break_match :=
  match goal with
  | |- context [match ?x with _ => _ end] =>
      lazymatch x with
      | context [match _ with _ => _ end] => fail
      | _ => destruct x eqn:?
      end
  end.

(** Projections of updated records, and nothing else. *)
Ltac fields :=
  cbn [client state availableCommandsSeen inventoryReady
       inventoryReadyReason inventoryReadyFallbackTimer currentWindowId
       currentWindowType currentWindowItems playerInventoryItems clickSent
       commandSent autoCommandSent commandSentCount wantConnected
       reconnectTimer reconnectAttempt pendingReconnectReason
       pendingReconnectDelayMs desiredTakeSlotIndex readyTimers outbox
       set_client set_state set_availableCommandsSeen set_inventoryReady
       set_inventoryReadyReason set_inventoryReadyFallbackTimer
       set_currentWindowId set_currentWindowType set_currentWindowItems
       set_playerInventoryItems set_clickSent set_commandSent
       set_autoCommandSent set_commandSentCount set_wantConnected
       set_reconnectTimer set_reconnectAttempt set_pendingReconnectReason
       set_pendingReconnectDelayMs set_desiredTakeSlotIndex set_readyTimers
       set_outbox setState clearReconnectTimer after andThen fst snd negb
       andb orb].

Ltac fields_in H :=
  cbn [client state availableCommandsSeen inventoryReady
       inventoryReadyReason inventoryReadyFallbackTimer currentWindowId
       currentWindowType currentWindowItems playerInventoryItems clickSent
       commandSent autoCommandSent commandSentCount wantConnected
       reconnectTimer reconnectAttempt pendingReconnectReason
       pendingReconnectDelayMs desiredTakeSlotIndex readyTimers outbox
       set_client set_state set_availableCommandsSeen set_inventoryReady
       set_inventoryReadyReason set_inventoryReadyFallbackTimer
       set_currentWindowId set_currentWindowType set_currentWindowItems
       set_playerInventoryItems set_clickSent set_commandSent
       set_autoCommandSent set_commandSentCount set_wantConnected
       set_reconnectTimer set_reconnectAttempt set_pendingReconnectReason
       set_pendingReconnectDelayMs set_desiredTakeSlotIndex set_readyTimers
       set_outbox setState clearReconnectTimer after andThen fst snd negb
       andb orb] in H.

Ltac frame := intros; repeat break_match; try reflexivity.

Lemma scheduleReconnect_attempt env reason delayMs s :
  reconnectAttempt (scheduleReconnect env reason delayMs s) = reconnectAttempt s.
Proof. unfold scheduleReconnect. frame. Qed.

Lemma onMaybeReady_attempt s :
  reconnectAttempt (onMaybeReady s) = reconnectAttempt s.
Proof. unfold onMaybeReady. frame. Qed.

Lemma markInventoryReady_attempt reason s :
  reconnectAttempt (markInventoryReady reason s) = reconnectAttempt s.
Proof.
  unfold markInventoryReady. destruct (inventoryReady s); [reflexivity|].
  rewrite onMaybeReady_attempt. frame.
Qed.

Lemma armInventoryReadyFallback_attempt s :
  reconnectAttempt (armInventoryReadyFallback s) = reconnectAttempt s.
Proof. unfold armInventoryReadyFallback. frame. Qed.

Lemma sendCommand_attempt env line s :
  reconnectAttempt (after (sendCommand env line s)) = reconnectAttempt s.
Proof. unfold sendCommand, send. frame. Qed.

Lemma clickSlot_attempt env w i s :
  reconnectAttempt (after (clickSlot env w i s)) = reconnectAttempt s.
Proof. unfold clickSlot, send. frame. Qed.

Lemma maybeTakeDesiredSlot_attempt env s :
  reconnectAttempt (after (maybeTakeDesiredSlot env s)) = reconnectAttempt s.
Proof.
  unfold maybeTakeDesiredSlot.
  repeat (break_match; try reflexivity); rewrite clickSlot_attempt; reflexivity.
Qed.

Lemma tryTakeFromOpenContainer_attempt env i s :
  reconnectAttempt (after (tryTakeFromOpenContainer env i s)) = reconnectAttempt s.
Proof.
  unfold tryTakeFromOpenContainer.
  repeat (break_match; try reflexivity); rewrite clickSlot_attempt; reflexivity.
Qed.

Lemma andThen_frame {A : Type} (f : St -> A) (r : Res) (k : St -> Res) :
  (forall x, f (after (k x)) = f x) ->
  f (after (andThen r k)) = f (after r).
Proof. intros Hk. destruct r; simpl; [apply Hk | reflexivity]. Qed.

Lemma inferContainer_attempt w c d n s :
  reconnectAttempt (inferContainer w c d n s) = reconnectAttempt s.
Proof. unfold inferContainer. frame. Qed.

Lemma playerContentReady_attempt w s :
  reconnectAttempt (playerContentReady w s) = reconnectAttempt s.
Proof.
  unfold playerContentReady. break_match;
    [apply markInventoryReady_attempt | reflexivity].
Qed.

Lemma keepPlayerSnapshot_attempt w input s :
  reconnectAttempt (keepPlayerSnapshot w input s) = reconnectAttempt s.
Proof. unfold keepPlayerSnapshot. frame. Qed.

Lemma containerContent_attempt env w input s :
  reconnectAttempt (after (containerContent env w input s)) = reconnectAttempt s.
Proof.
  unfold containerContent. repeat (break_match; try reflexivity);
    now rewrite maybeTakeDesiredSlot_attempt.
Qed.

Lemma onInventoryContent_attempt env packet s :
  reconnectAttempt (after (onInventoryContent env packet s)) = reconnectAttempt s.
Proof.
  unfold onInventoryContent. destruct (ic_window_id packet); [|reflexivity].
  cbv zeta.
  now rewrite containerContent_attempt, keepPlayerSnapshot_attempt,
    playerContentReady_attempt, inferContainer_attempt.
Qed.

Lemma playerSlotReady_attempt w s :
  reconnectAttempt (playerSlotReady w s) = reconnectAttempt s.
Proof.
  unfold playerSlotReady. break_match;
    [apply markInventoryReady_attempt | reflexivity].
Qed.

Lemma keepPlayerSlot_attempt w i item s :
  reconnectAttempt (keepPlayerSlot w i item s) = reconnectAttempt s.
Proof. unfold keepPlayerSlot. frame. Qed.

Lemma containerSlot_attempt env w i item s :
  reconnectAttempt (after (containerSlot env w i item s)) = reconnectAttempt s.
Proof.
  unfold containerSlot. repeat (break_match; try reflexivity);
    now rewrite maybeTakeDesiredSlot_attempt.
Qed.

Lemma rearmFallback_attempt s :
  reconnectAttempt (rearmFallback s) = reconnectAttempt s.
Proof.
  unfold rearmFallback. break_match;
    [apply armInventoryReadyFallback_attempt | reflexivity].
Qed.

Lemma onInventorySlot_attempt env packet s :
  reconnectAttempt (after (onInventorySlot env packet s)) = reconnectAttempt s.
Proof.
  unfold onInventorySlot. destruct (is_window_id packet); [|reflexivity].
  cbv zeta. rewrite (andThen_frame reconnectAttempt).
  - now rewrite containerSlot_attempt, keepPlayerSlot_attempt,
      playerSlotReady_attempt.
  - intros x. apply rearmFallback_attempt.
Qed.

Lemma onError_attempt env msg s :
  reconnectAttempt (onError env msg s) = reconnectAttempt s.
Proof.
  unfold onError. break_match; [reflexivity|]. break_match; [|reflexivity].
  cbv zeta. fields. now rewrite scheduleReconnect_attempt.
Qed.

Lemma readyTimerCallback_attempt env s :
  reconnectAttempt (after (readyTimerCallback env s)) = reconnectAttempt s.
Proof.
  unfold readyTimerCallback. break_match; [reflexivity|].
  rewrite (andThen_frame reconnectAttempt); [apply sendCommand_attempt|].
  reflexivity.
Qed.

Lemma handle_attempt env ev s :
  reconnectAttempt (after (handle env ev s)) =
    match ev, reconnectTimer s with
    | EvReconnectTimer, Some _ => S (reconnectAttempt s)
    | _, _ => reconnectAttempt s
    end.
Proof.
  destruct ev; cbn [handle after].
  - apply onError_attempt.
  - unfold onKick. frame.
  - unfold onClose. cbv zeta. now rewrite scheduleReconnect_attempt.
  - unfold onSpawn. now rewrite onMaybeReady_attempt.
  - unfold onStartGame. break_match; [apply markInventoryReady_attempt|reflexivity].
  - unfold onAvailableCommands. cbv zeta. rewrite onMaybeReady_attempt.
    break_match; [now rewrite armInventoryReadyFallback_attempt | reflexivity].
  - apply onInventoryContent_attempt.
  - apply onInventorySlot_attempt.
  - reflexivity.
  - unfold onContainerClose. frame.
  - unfold fallbackTimerCallback.
    repeat (break_match; try reflexivity). apply markInventoryReady_attempt.
  - destruct (readyTimers s); [reflexivity|].
    now rewrite readyTimerCallback_attempt.
  - destruct (reconnectTimer s); [|reflexivity].
    unfold reconnectTimerCallback, connectServer. frame.
  - unfold connectServer. frame.
  - unfold disconnectServer. frame.
  - unfold onLineSlot. frame.
  - unfold onLineTake. cbv zeta.
    repeat (break_match; try reflexivity);
      now rewrite tryTakeFromOpenContainer_attempt.
  - unfold onLineCommand. cbv zeta.
    repeat (break_match; try reflexivity); now rewrite sendCommand_attempt.
Qed.

(** C6, as the claim states it, fails: after a reconnect the manual
    disconnect, and the close that answers it, leave the counter at 1;
    and a scheduled reconnect that a manual connect replaces does not
    count. *)
Lemma disconnect_keeps_attempt :
  let e := mkEnv true 0 in
  reconnectAttempt
    (run [(e, EvLineConnect); (e, EvClose); (e, EvReconnectTimer);
          (e, EvLineDisconnect); (e, EvClose)] init) = 1%nat /\
  (let s := run [(e, EvLineConnect); (e, EvClose)] init in
   reconnectTimer s = Some 2000 /\
   reconnectAttempt (run [(e, EvLineConnect)] s) = 0%nat).
Proof. repeat split. Qed.

(** C6, amended. The counter grows by one exactly when a pending
    reconnect timer runs out; every other event, the manual disconnect
    included, leaves it as it is, so it never decreases. *)
Theorem reconnectAttempt_lifecycle :
  forall (env : Env) (ev : Event) (s : St),
    reconnectAttempt (step s (env, ev)) =
      match ev, reconnectTimer s with
      | EvReconnectTimer, Some _ => S (reconnectAttempt s)
      | _, _ => reconnectAttempt s
      end.
Proof. intros. unfold step. simpl. apply handle_attempt. Qed.

(** *** Slot transactions *)

Lemma firstEmptyFrom_Some (l : list Slot) :
  forall n r, firstEmptyFrom n l = Some r ->
    exists d, r = (n + d)%nat /\ leastEmpty l d.
Proof.
  induction l as [|x l IH]; intros n r H; simpl in H; [discriminate|].
  destruct (isEmptyItem x) eqn:Ex.
  - injection H as <-. exists 0%nat. split; [lia|].
    repeat split; simpl; [lia | exact Ex | intros k Hk; lia].
  - destruct (IH _ _ H) as [d [-> [Hlen [Hd Hbefore]]]].
    exists (S d). split; [lia|]. repeat split; simpl; [lia | exact Hd |].
    intros [|k] Hk; [exact Ex | apply Hbefore; lia].
Qed.

Lemma firstEmptyFrom_None (l : list Slot) :
  forall n, firstEmptyFrom n l = None ->
    forall k, (k < List.length l)%nat -> isEmptyItem (nth k l None) = false.
Proof.
  induction l as [|x l IH]; intros n H k Hk; simpl in *; [lia|].
  destruct (isEmptyItem x) eqn:Ex; [discriminate|].
  destruct k as [|k]; [exact Ex | apply (IH _ H); lia].
Qed.

Lemma leastEmpty_unique (l : list Slot) (d d' : nat) :
  leastEmpty l d -> leastEmpty l d' -> d = d'.
Proof.
  intros [_ [Hd Hlt]] [_ [Hd' Hlt']].
  destruct (Nat.lt_trichotomy d d') as [H | [H | H]]; [|exact H|].
  - rewrite (Hlt' _ H) in Hd. discriminate.
  - rewrite (Hlt _ H) in Hd'. discriminate.
Qed.

Lemma findFirstEmptyPlayerSlot_least (s : St) (dest : list Slot) (d : nat) :
  playerInventoryItems s = Some dest -> leastEmpty dest d ->
  findFirstEmptyPlayerSlot s = Some d.
Proof.
  intros Hp Hd. unfold findFirstEmptyPlayerSlot. rewrite Hp.
  destruct (firstEmptyFrom 0 dest) as [r|] eqn:E.
  - destruct (firstEmptyFrom_Some _ _ _ E) as [d' [-> Hd']].
    f_equal. simpl. now apply (leastEmpty_unique dest).
  - destruct Hd as [Hlen [Hd _]].
    rewrite (firstEmptyFrom_None _ _ E _ Hlen) in Hd. discriminate.
Qed.

Lemma findFirstEmptyPlayerSlot_none (s : St) :
  noEmpty (playerInventoryItems s) -> findFirstEmptyPlayerSlot s = None.
Proof.
  unfold noEmpty, findFirstEmptyPlayerSlot.
  destruct (playerInventoryItems s) as [dest|]; [|reflexivity].
  intros Hno. destruct (firstEmptyFrom 0 dest) as [r|] eqn:E; [|reflexivity].
  destruct (firstEmptyFrom_Some _ _ _ E) as [d [_ [Hlen [Hd _]]]].
  rewrite (Hno _ Hlen) in Hd. discriminate.
Qed.

Lemma same_window_refl (w : WindowId) : same_window w w = true.
Proof. unfold same_window. destruct (WindowId_eq_dec w w); congruence. Qed.

Lemma same_window_true (a b : WindowId) : same_window a b = true -> a = b.
Proof. unfold same_window. destruct (WindowId_eq_dec a b); congruence. Qed.

Lemma state_is_refl (a : State) : state_is a a = true.
Proof. unfold state_is. destruct (State_eq_dec a a); congruence. Qed.

Lemma state_is_true (a b : State) : state_is a b = true <-> a = b.
Proof. unfold state_is. destruct (State_eq_dec a b); split; congruence. Qed.

Lemma state_is_false (a b : State) : state_is a b = false <-> a <> b.
Proof. unfold state_is. destruct (State_eq_dec a b); split; congruence. Qed.

(** What [clickSlot] hands to [client.queue] once its guards are passed
    and the source slot holds an item. *)
Lemma clickSlot_sends (env : Env) (s : St) (w : WindowId) (i : Z)
    (items : list Slot) (item : Item) :
  client s = true -> clickSent s = false -> state s = WAIT_CONTAINER_CONTENT ->
  currentWindowId s = Some w -> currentWindowItems s = Some items ->
  0 <= i -> js_get items i = Some item -> network_id item <> 0 ->
  outbox (after (clickSlot env w i s)) =
    app (outbox s)
      [mkOut (inventory_transaction
                match findFirstEmptyPlayerSlot s with
                | Some d => buildMoveToInventoryTransaction w i (Z.of_nat d) item
                | None => buildNormalClickTransaction w i item
                end) (queue_ok env)].
Proof.
  intros Hc Hk Hst Hw Hitems Hi Hitem Hid.
  unfold clickSlot. rewrite Hk, Hst, Hitems, Hw, state_is_refl, same_window_refl.
  cbn [negb]. apply Z.ltb_ge in Hi. rewrite Hi, Hitem.
  unfold isEmptyItem. apply Z.eqb_neq in Hid. rewrite Hid.
  unfold send. rewrite Hc. cbn [negb].
  destruct (queue_ok env); reflexivity.
Qed.

(** C4. Past the guards of clickSlot and with an item in the source
    slot, exactly one transaction goes out: with an empty slot in the
    player inventory, two actions (the item leaves the source slot, the
    item enters the smallest empty slot of window 0); with no empty slot
    or no player snapshot, one action whose old and new item are the item.
    With an empty or missing source slot nothing is built or sent. *)
Theorem clickSlot_transaction :
  forall (env : Env) (s : St) (windowId : WindowId) (slotIndex : Z),
    (forall (items : list Slot) (item : Item),
        client s = true -> clickSent s = false ->
        state s = WAIT_CONTAINER_CONTENT ->
        currentWindowId s = Some windowId -> currentWindowItems s = Some items ->
        0 <= slotIndex ->
        js_get items slotIndex = Some item -> network_id item <> 0 ->
        (forall dest d,
            playerInventoryItems s = Some dest -> leastEmpty dest d ->
            outbox (after (clickSlot env windowId slotIndex s)) =
              app (outbox s)
                [mkOut (inventory_transaction
                          (mkTransaction 0 "normal"
                             [mkAction "container" windowId slotIndex
                                       item EMPTY_ITEM;
                              mkAction "container" (WNum 0) (Z.of_nat d)
                                       EMPTY_ITEM item]))
                       (queue_ok env)]) /\
        (noEmpty (playerInventoryItems s) ->
            outbox (after (clickSlot env windowId slotIndex s)) =
              app (outbox s)
                [mkOut (inventory_transaction
                          (mkTransaction 0 "normal"
                             [mkAction "container" windowId slotIndex
                                       item item]))
                       (queue_ok env)])) /\
    ((forall items, currentWindowItems s = Some items ->
                    isEmptyItem (js_get items slotIndex) = true) ->
     clickSlot env windowId slotIndex s = Ok s).
Proof.
  intros env s w i. split.
  - intros items item Hc Hk Hst Hw Hitems Hi Hitem Hid.
    pose proof (clickSlot_sends env s w i items item
                  Hc Hk Hst Hw Hitems Hi Hitem Hid) as Hout.
    split.
    + intros dest d Hp Hd.
      rewrite (findFirstEmptyPlayerSlot_least s dest d Hp Hd) in Hout.
      exact Hout.
    + intros Hno. rewrite (findFirstEmptyPlayerSlot_none s Hno) in Hout.
      exact Hout.
  - intros Hempty. unfold clickSlot.
    destruct (clickSent s); [reflexivity|].
    destruct (negb _); [reflexivity|].
    destruct (currentWindowItems s) as [items|]; [|reflexivity].
    specialize (Hempty items eq_refl).
    destruct (currentWindowId s); [|reflexivity].
    destruct (negb _); [reflexivity|].
    destruct (i <? 0); [reflexivity|].
    cbv zeta. destruct (js_get items i); [|reflexivity].
    rewrite Hempty. reflexivity.
Qed.

(** The item of network id 7 in slot 5 of window 12, with the only empty
    slot of the player inventory at index 3; then a full inventory; then
    an empty source slot. *)
Lemma clickSlot_transaction_witness :
  let e := mkEnv true 0 in
  let it := fun n => mkItem n (Some 1) None None in
  let chest := [None; None; None; None; None; Some (it 7)] in
  let content := fun w input =>
    EvInventoryContent (mkInventoryContent (Some (WNum w)) JsUndefined
                                           JsUndefined (Some input)) in
  let session := fun player =>
    run [(e, EvLineConnect); (e, EvSpawn); (e, EvAvailableCommands);
         (e, content 0 player); (e, EvReadyTimer);
         (e, EvContainerOpen (WNum 12) JsUndefined); (e, content 12 chest)] init in
  let s := session [Some (it 1); Some (it 2); Some (it 3); Some EMPTY_ITEM;
                    Some (it 4); None] in
  let full := session [Some (it 1); Some (it 2)] in
  txAttempts (after (clickSlot e (WNum 12) 5 s)) =
    [mkOut (inventory_transaction
              (mkTransaction 0 "normal"
                 [mkAction "container" (WNum 12) 5 (it 7) EMPTY_ITEM;
                  mkAction "container" (WNum 0) 3 EMPTY_ITEM (it 7)])) true] /\
  txAttempts (after (clickSlot e (WNum 12) 5 full)) =
    [mkOut (inventory_transaction
              (mkTransaction 0 "normal"
                 [mkAction "container" (WNum 12) 5 (it 7) (it 7)])) true] /\
  clickSlot e (WNum 12) 2 s = Ok s.
Proof.
  intros e it chest content session s full.
  assert (Hleast : leastEmpty [Some (it 1); Some (it 2); Some (it 3);
                               Some EMPTY_ITEM; Some (it 4); None] 3).
  { repeat split; [simpl; lia|].
    intros k Hk. do 3 (destruct k as [|k]; [reflexivity|]). lia. }
  assert (Hp : playerInventoryItems s =
               Some [Some (it 1); Some (it 2); Some (it 3); Some EMPTY_ITEM;
                     Some (it 4); None]) by (vm_compute; reflexivity).
  assert (Hfull : noEmpty (playerInventoryItems full)).
  { replace (playerInventoryItems full) with (Some [Some (it 1); Some (it 2)])
      by (vm_compute; reflexivity).
    intros k Hk. simpl in Hk.
    do 2 (destruct k as [|k]; [reflexivity|]). lia. }
  assert (Hid : network_id (it 7) <> 0) by (simpl; lia).
  assert (Hi : 0 <= 5) by lia.
  assert (Hc : client s = true) by (vm_compute; reflexivity).
  assert (Hk : clickSent s = false) by (vm_compute; reflexivity).
  assert (Hst : state s = WAIT_CONTAINER_CONTENT) by (vm_compute; reflexivity).
  assert (Hw : currentWindowId s = Some (WNum 12)) by (vm_compute; reflexivity).
  assert (Hitems : currentWindowItems s = Some chest) by (vm_compute; reflexivity).
  assert (Hc' : client full = true) by (vm_compute; reflexivity).
  assert (Hk' : clickSent full = false) by (vm_compute; reflexivity).
  assert (Hst' : state full = WAIT_CONTAINER_CONTENT) by (vm_compute; reflexivity).
  assert (Hw' : currentWindowId full = Some (WNum 12)) by (vm_compute; reflexivity).
  assert (Hitems' : currentWindowItems full = Some chest) by (vm_compute; reflexivity).
  assert (Hout : txAttempts s = []) by (vm_compute; reflexivity).
  assert (Hout' : txAttempts full = []) by (vm_compute; reflexivity).
  destruct (clickSlot_transaction e s (WNum 12) 5) as [Hs _].
  destruct (Hs chest (it 7) Hc Hk Hst Hw Hitems Hi eq_refl Hid) as [Hmove _].
  destruct (clickSlot_transaction e full (WNum 12) 5) as [Hf _].
  destruct (Hf chest (it 7) Hc' Hk' Hst' Hw' Hitems' Hi eq_refl Hid) as [_ Hclick].
  destruct (clickSlot_transaction e s (WNum 12) 2) as [_ Hempty].
  split; [|split].
  - unfold txAttempts in *. rewrite (Hmove _ 3%nat Hp Hleast).
    rewrite filter_app, Hout. reflexivity.
  - unfold txAttempts in *. rewrite (Hclick Hfull).
    rewrite filter_app, Hout'. reflexivity.
  - apply Hempty. intros items Hitems2. rewrite Hitems in Hitems2.
    injection Hitems2 as <-. reflexivity.
Defined.

(** *** At most one slot transaction between two resets of clickSent *)

Lemma calm_refl s : calm s s.
Proof. repeat split; auto. Qed.

Lemma calm_trans s1 s2 s3 : calm s1 s2 -> calm s2 s3 -> calm s1 s3.
Proof.
  intros [H1 [H2 H3]] [K1 [K2 K3]]. repeat split; try congruence; auto.
Qed.

Ltac calm_tac :=
  unfold calm; intros; repeat break_match; fields;
  repeat split; try reflexivity; try (intro; discriminate); try congruence.

Lemma scheduleReconnect_calm env reason delayMs s :
  calm s (scheduleReconnect env reason delayMs s).
Proof. unfold scheduleReconnect. calm_tac. Qed.

Lemma onMaybeReady_calm s : calm s (onMaybeReady s).
Proof. unfold onMaybeReady. calm_tac. Qed.

Lemma markInventoryReady_calm reason s : calm s (markInventoryReady reason s).
Proof.
  unfold markInventoryReady. destruct (inventoryReady s); [apply calm_refl|].
  cbv zeta. eapply calm_trans; [|apply onMaybeReady_calm]. calm_tac.
Qed.

Lemma armInventoryReadyFallback_calm s : calm s (armInventoryReadyFallback s).
Proof. unfold armInventoryReadyFallback. calm_tac. Qed.

Lemma onError_calm env msg s : calm s (onError env msg s).
Proof.
  unfold onError. break_match; [apply calm_refl|].
  break_match; [|apply calm_refl]. cbv zeta.
  apply calm_trans with (setState CONNECTING (set_client false s)); [calm_tac|].
  eapply calm_trans; [apply scheduleReconnect_calm|]. calm_tac.
Qed.

Lemma onKick_calm message s : calm s (onKick message s).
Proof. unfold onKick. calm_tac. Qed.

Lemma onSpawn_calm s : calm s (onSpawn s).
Proof.
  unfold onSpawn. eapply calm_trans; [|apply onMaybeReady_calm]. calm_tac.
Qed.

Lemma onStartGame_calm s : calm s (onStartGame s).
Proof.
  unfold onStartGame. break_match;
    [apply markInventoryReady_calm | apply calm_refl].
Qed.

Lemma onAvailableCommands_calm s : calm s (onAvailableCommands s).
Proof.
  unfold onAvailableCommands. cbv zeta.
  eapply calm_trans; [|apply onMaybeReady_calm].
  break_match.
  - eapply calm_trans; [|apply armInventoryReadyFallback_calm]. calm_tac.
  - calm_tac.
Qed.

Lemma playerContentReady_calm w s : calm s (playerContentReady w s).
Proof.
  unfold playerContentReady. break_match;
    [apply markInventoryReady_calm | apply calm_refl].
Qed.

Lemma keepPlayerSnapshot_calm w input s : calm s (keepPlayerSnapshot w input s).
Proof. unfold keepPlayerSnapshot. calm_tac. Qed.

Lemma playerSlotReady_calm w s : calm s (playerSlotReady w s).
Proof.
  unfold playerSlotReady. break_match;
    [apply markInventoryReady_calm | apply calm_refl].
Qed.

Lemma keepPlayerSlot_calm w i item s : calm s (keepPlayerSlot w i item s).
Proof. unfold keepPlayerSlot. calm_tac. Qed.

Lemma rearmFallback_calm s : calm s (rearmFallback s).
Proof.
  unfold rearmFallback. break_match;
    [apply armInventoryReadyFallback_calm | apply calm_refl].
Qed.

Lemma onContainerClose_calm w s : calm s (onContainerClose w s).
Proof. unfold onContainerClose. calm_tac. Qed.

Lemma connectServer_calm s : calm s (connectServer s).
Proof. unfold connectServer. calm_tac. Qed.

Lemma disconnectServer_calm s : calm s (disconnectServer s).
Proof. unfold disconnectServer. calm_tac. Qed.

Lemma reconnectTimerCallback_calm s : calm s (reconnectTimerCallback s).
Proof.
  unfold reconnectTimerCallback. cbv zeta.
  eapply calm_trans; [|apply connectServer_calm]. calm_tac.
Qed.

Lemma fallbackTimerCallback_calm s : calm s (fallbackTimerCallback s).
Proof.
  unfold fallbackTimerCallback. break_match;
    [apply calm_refl | apply markInventoryReady_calm].
Qed.

(** The first block of the inventory_content handler assigns false to
    clickSent, but only in WAIT_UI, where it is false already. *)
Lemma inferContainer_calm w c d n s :
  unclickedInWaitUi s -> calm s (inferContainer w c d n s).
Proof.
  intros Hinv. unfold inferContainer.
  destruct (state_is (state s) WAIT_UI) eqn:Hst; [|apply calm_refl].
  apply state_is_true in Hst. specialize (Hinv Hst).
  repeat break_match; fields; try apply calm_refl;
    unfold calm; fields; (repeat split; [congruence | intro; discriminate]).
Qed.

Lemma atMostOneClick_refl s : atMostOneClick s s.
Proof. split; [auto | left; repeat split; auto]. Qed.

Lemma calm_atMostOneClick s s' : calm s s' -> atMostOneClick s s'.
Proof.
  intros [H1 [H2 H3]]. split; [exact H3|]. left.
  unfold txQueued, txAttempts. rewrite H2. repeat split; auto.
Qed.

Lemma atMostOneClick_trans s1 s2 s3 :
  atMostOneClick s1 s2 -> atMostOneClick s2 s3 -> atMostOneClick s1 s3.
Proof.
  intros [H1 H2] [K1 K2]. split; [auto|].
  destruct H2 as [[A1 [A2 A3]] | [A1 [A2 [A3 A4]]]];
    destruct K2 as [[B1 [B2 B3]] | [B1 [B2 [B3 B4]]]].
  - left. repeat split; try congruence.
    intros Hc. rewrite B3; [auto | congruence].
  - right. repeat split; try congruence.
  - right. repeat split; try congruence. intros Hs. apply A4. auto.
  - congruence.
Qed.

Lemma atMostOneClick_keeps_invariant s s' :
  unclickedInWaitUi s -> atMostOneClick s s' -> unclickedInWaitUi s'.
Proof.
  intros Hinv [H1 H2] Hst.
  destruct H2 as [[A1 _] | [_ [_ [_ A4]]]]; [|contradiction].
  rewrite A1. apply Hinv. auto.
Qed.

Lemma txQueued_sent (s : St) (o : Out) (s' : St) :
  outbox s' = app (outbox s) [o] -> isTransaction o = true ->
  txQueued s' = (txQueued s + (if queued o then 1 else 0))%nat /\
  txAttempts s' = app (txAttempts s) [o].
Proof.
  intros Hout Ho. unfold txQueued, txAttempts. rewrite Hout.
  rewrite filter_app. simpl. rewrite Ho. split; [|reflexivity].
  rewrite filter_app, length_app. simpl. destruct (queued o); reflexivity.
Qed.

Lemma clickSlot_atMostOneClick env w i s :
  atMostOneClick s (after (clickSlot env w i s)).
Proof.
  unfold clickSlot.
  destruct (clickSent s) eqn:Hk; [apply atMostOneClick_refl|].
  destruct (negb _); [apply atMostOneClick_refl|].
  destruct (currentWindowItems s) as [items|]; [|apply atMostOneClick_refl].
  destruct (currentWindowId s) as [cur|]; [|apply atMostOneClick_refl].
  destruct (negb _); [apply atMostOneClick_refl|].
  destruct (i <? 0); [apply atMostOneClick_refl|].
  cbv zeta. destruct (js_get items i) as [it|]; [|apply atMostOneClick_refl].
  destruct (isEmptyItem (Some it)); [apply atMostOneClick_refl|].
  unfold send. destruct (negb (client s)); [apply atMostOneClick_refl|].
  set (tx := match findFirstEmptyPlayerSlot s with
             | Some d => buildMoveToInventoryTransaction w i (Z.of_nat d) it
             | None => buildNormalClickTransaction w i it
             end).
  destruct (queue_ok env) eqn:Hq; cbn [negb after].
  - destruct (txQueued_sent s (mkOut (inventory_transaction tx) true)
                (setState CLICK_SENT
                   (set_clickSent true
                      (set_outbox (app (outbox s)
                                     [mkOut (inventory_transaction tx) true]) s)))
                eq_refl eq_refl) as [Hn _].
    split; [intro H; discriminate H|]. right.
    repeat split; [exact Hk | rewrite Hn; simpl; lia | intro H; discriminate H].
  - destruct (txQueued_sent s (mkOut (inventory_transaction tx) false)
                (set_outbox (app (outbox s)
                               [mkOut (inventory_transaction tx) false]) s)
                eq_refl eq_refl) as [Hn _].
    split; [auto|]. left.
    repeat split; [rewrite Hn; simpl; lia | intro H; congruence].
Qed.

Lemma maybeTakeDesiredSlot_atMostOneClick env s :
  atMostOneClick s (after (maybeTakeDesiredSlot env s)).
Proof.
  unfold maybeTakeDesiredSlot.
  destruct (currentWindowId s); [|apply atMostOneClick_refl].
  destruct (_ <? 0); [apply atMostOneClick_refl|].
  destruct (currentWindowItems s); [|apply atMostOneClick_refl].
  destruct (_ >=? _); [apply atMostOneClick_refl|]. cbv zeta.
  eapply atMostOneClick_trans; [|apply clickSlot_atMostOneClick].
  apply calm_atMostOneClick. calm_tac.
Qed.

Lemma containerContent_atMostOneClick env w input s :
  atMostOneClick s (after (containerContent env w input s)).
Proof.
  unfold containerContent.
  destruct (currentWindowId s); [|apply atMostOneClick_refl].
  destruct (same_window _ _); [|apply atMostOneClick_refl]. cbv zeta.
  eapply atMostOneClick_trans; [|apply maybeTakeDesiredSlot_atMostOneClick].
  apply calm_atMostOneClick. calm_tac.
Qed.

Lemma containerSlot_atMostOneClick env w i item s :
  atMostOneClick s (after (containerSlot env w i item s)).
Proof.
  unfold containerSlot.
  destruct (currentWindowId s); [|apply atMostOneClick_refl].
  destruct i; [|apply atMostOneClick_refl].
  destruct (same_window _ _); [|apply atMostOneClick_refl]. cbv zeta.
  break_match.
  - eapply atMostOneClick_trans; [|apply maybeTakeDesiredSlot_atMostOneClick].
    apply calm_atMostOneClick. calm_tac.
  - apply calm_atMostOneClick. calm_tac.
Qed.

Lemma onInventoryContent_atMostOneClick env packet s :
  unclickedInWaitUi s ->
  atMostOneClick s (after (onInventoryContent env packet s)).
Proof.
  intros Hinv. unfold onInventoryContent.
  destruct (ic_window_id packet); [|apply atMostOneClick_refl]. cbv zeta.
  eapply atMostOneClick_trans; [|apply containerContent_atMostOneClick].
  apply calm_atMostOneClick.
  eapply calm_trans; [apply inferContainer_calm; exact Hinv|].
  eapply calm_trans; [apply playerContentReady_calm|].
  apply keepPlayerSnapshot_calm.
Qed.

Lemma onInventorySlot_atMostOneClick env packet s :
  atMostOneClick s (after (onInventorySlot env packet s)).
Proof.
  unfold onInventorySlot.
  destruct (is_window_id packet); [|apply atMostOneClick_refl]. cbv zeta.
  eapply atMostOneClick_trans.
  - apply calm_atMostOneClick.
    eapply calm_trans; [apply playerSlotReady_calm | apply keepPlayerSlot_calm].
  - pose proof (containerSlot_atMostOneClick env w (is_slot packet)
                  (is_item packet)
                  (keepPlayerSlot w (is_slot packet) (is_item packet)
                     (playerSlotReady w s))) as H.
    destruct (containerSlot _ _ _ _ _) as [x|x]; cbn [andThen after] in *.
    + eapply atMostOneClick_trans; [exact H|].
      apply calm_atMostOneClick, rearmFallback_calm.
    + exact H.
Qed.

Lemma handle_atMostOneClick env ev s :
  resetsClick ev = false -> unclickedInWaitUi s ->
  atMostOneClick s (after (handle env ev s)).
Proof.
  intros Hev Hinv.
  destruct ev; try discriminate Hev; cbn [handle after].
  - apply calm_atMostOneClick, onError_calm.
  - apply calm_atMostOneClick, onKick_calm.
  - apply calm_atMostOneClick, onSpawn_calm.
  - apply calm_atMostOneClick, onStartGame_calm.
  - apply calm_atMostOneClick, onAvailableCommands_calm.
  - now apply onInventoryContent_atMostOneClick.
  - apply onInventorySlot_atMostOneClick.
  - apply calm_atMostOneClick, onContainerClose_calm.
  - destruct (inventoryReadyFallbackTimer s); cbn [after];
      [apply calm_atMostOneClick, fallbackTimerCallback_calm
      | apply atMostOneClick_refl].
  - destruct (reconnectTimer s); cbn [after];
      [apply calm_atMostOneClick, reconnectTimerCallback_calm
      | apply atMostOneClick_refl].
  - apply calm_atMostOneClick, connectServer_calm.
  - apply calm_atMostOneClick, disconnectServer_calm.
  - apply calm_atMostOneClick. unfold onLineSlot. calm_tac.
Qed.

Lemma sendCommand_unclicked env line s :
  clickSent (after (sendCommand env line s)) = false.
Proof. unfold sendCommand, send. repeat break_match; reflexivity. Qed.

Lemma unclicked_invariant s : clickSent s = false -> unclickedInWaitUi s.
Proof. intros H _. exact H. Qed.

Lemma not_waiting_invariant s : state s <> WAIT_UI -> unclickedInWaitUi s.
Proof. intros H Hst. contradiction. Qed.

Lemma readyTimerCallback_invariant env s :
  unclickedInWaitUi s -> unclickedInWaitUi (after (readyTimerCallback env s)).
Proof.
  intros Hinv. unfold readyTimerCallback. break_match; [exact Hinv|].
  apply unclicked_invariant.
  pose proof (sendCommand_unclicked env TARGET_COMMAND s) as H.
  destruct (sendCommand env TARGET_COMMAND s); exact H.
Qed.

Lemma tryTakeFromOpenContainer_invariant env i s :
  unclickedInWaitUi s ->
  unclickedInWaitUi (after (tryTakeFromOpenContainer env i s)).
Proof.
  intros Hinv. unfold tryTakeFromOpenContainer.
  destruct (currentWindowId s); [|exact Hinv].
  destruct (i <? 0); [exact Hinv|].
  destruct (currentWindowItems s).
  - cbv zeta.
    eapply atMostOneClick_keeps_invariant; [|apply clickSlot_atMostOneClick].
    apply unclicked_invariant. reflexivity.
  - apply not_waiting_invariant. intro H. discriminate H.
Qed.

Lemma handle_invariant env ev s :
  unclickedInWaitUi s -> unclickedInWaitUi (after (handle env ev s)).
Proof.
  intros Hinv. destruct (resetsClick ev) eqn:Hev.
  - destruct ev; try discriminate Hev; cbn [handle after].
    + apply unclicked_invariant. unfold onClose. cbv zeta.
      match goal with
      | |- clickSent (scheduleReconnect ?e ?r ?d ?x) = false =>
          destruct (scheduleReconnect_calm e r d x) as [H _]; exact H
      end.
    + apply not_waiting_invariant. intro H. discriminate H.
    + destruct (readyTimers s); [exact Hinv|].
      apply readyTimerCallback_invariant. exact Hinv.
    + unfold onLineTake. cbv zeta.
      repeat break_match; try exact Hinv;
        apply tryTakeFromOpenContainer_invariant; exact Hinv.
    + unfold onLineCommand. cbv zeta.
      set (s1 := match slotArg with
                 | Some n => if n <? 0 then s else set_desiredTakeSlotIndex n s
                 | None => s
                 end).
      assert (H1 : unclickedInWaitUi s1)
        by (subst s1; repeat break_match; exact Hinv).
      destruct (canSendCommands s1); [|exact H1].
      apply unclicked_invariant, sendCommand_unclicked.
  - eapply atMostOneClick_keeps_invariant; [exact Hinv|].
    apply handle_atMostOneClick; assumption.
Qed.

Lemma run_invariant (evs : list (Env * Event)) :
  forall s, unclickedInWaitUi s -> unclickedInWaitUi (run evs s).
Proof.
  induction evs as [|[env ev] evs IH]; intros s Hinv; [exact Hinv|].
  unfold run in *. simpl. apply IH. apply handle_invariant. exact Hinv.
Qed.

Lemma run_atMostOneClick (evs : list (Env * Event)) :
  forall s, unclickedInWaitUi s ->
    forallb (fun ev => negb (resetsClick (snd ev))) evs = true ->
    atMostOneClick s (run evs s).
Proof.
  induction evs as [|[env ev] evs IH]; intros s Hinv Hall;
    [apply atMostOneClick_refl|].
  simpl in Hall. apply andb_true_iff in Hall. destruct Hall as [Hev Hall].
  apply negb_true_iff in Hev.
  unfold run in *. simpl.
  eapply atMostOneClick_trans;
    [apply (handle_atMostOneClick env ev s Hev Hinv)|].
  apply IH; [|exact Hall]. apply handle_invariant. exact Hinv.
Qed.

(** C9. In any session, over any stretch of events that holds no
    command dispatch, no container_open, no connection close and no manual
    take (a container_close may occur), at most one slot transaction is
    accepted; if clickSent is already set when the stretch begins, none is
    even attempted and clickSent stays set, and clickSlot itself returns
    at once. *)
Theorem clickSlot_at_most_once :
  forall (before evs : list (Env * Event)),
    forallb (fun ev => negb (resetsClick (snd ev))) evs = true ->
    let s := run before init in
    (txQueued (run evs s) <= S (txQueued s))%nat /\
    (clickSent s = true ->
       clickSent (run evs s) = true /\ txAttempts (run evs s) = txAttempts s) /\
    (clickSent s = true ->
       forall env windowId slotIndex, clickSlot env windowId slotIndex s = Ok s).
Proof.
  intros before evs Hall s.
  assert (Hinv : unclickedInWaitUi s).
  { apply run_invariant. intro H. discriminate H. }
  destruct (run_atMostOneClick evs s Hinv Hall) as [_ H].
  split; [|split].
  - destruct H as [[_ [H2 _]] | [_ [_ [H3 _]]]]; lia.
  - intros Hk. destruct H as [[H1 [_ H3]] | [H1 _]]; [|congruence].
    split; [congruence | auto].
  - intros Hk env w i. unfold clickSlot. rewrite Hk. reflexivity.
Qed.

(** A chest of 27 slots with an item in slot 16: the first snapshot is
    answered by one transaction, and neither the repeated snapshot, nor
    a slot update, nor the container_close brings a second one. *)
Lemma clickSlot_at_most_once_witness :
  let e := mkEnv true 0 in
  let it := fun n => Some (mkItem n (Some 1) None None) in
  let chest := app (repeat None 16) (it 7 :: repeat None 10) in
  let content := fun w input =>
    EvInventoryContent (mkInventoryContent (Some (WNum w)) JsUndefined
                                           JsUndefined (Some input)) in
  let before :=
    [(e, EvLineConnect); (e, EvSpawn); (e, EvAvailableCommands);
     (e, content 0 [it 1; None]); (e, EvReadyTimer);
     (e, EvContainerOpen (WNum 12) JsUndefined)] in
  let evs :=
    [(e, content 12 chest); (e, content 12 chest);
     (e, EvInventorySlot (mkInventorySlot (Some (WNum 12)) (Some 16) (it 7)));
     (e, EvContainerClose (WNum 12));
     (e, EvInventorySlot (mkInventorySlot (Some (WNum 12)) (Some 16) (it 7)))] in
  txQueued (run before init) = 0%nat /\
  txQueued (run evs (run before init)) = 1%nat /\
  (txQueued (run evs (run before init)) <= 1)%nat /\
  clickSent (run (app before [(e, content 12 chest)]) init) = true /\
  txAttempts (run (tl evs) (run (app before [(e, content 12 chest)]) init)) =
    txAttempts (run (app before [(e, content 12 chest)]) init).
Proof.
  intros e it chest content before evs.
  assert (Hall : forallb (fun ev => negb (resetsClick (snd ev))) evs = true)
    by reflexivity.
  assert (Hall' : forallb (fun ev => negb (resetsClick (snd ev))) (tl evs) = true)
    by reflexivity.
  assert (H0 : txQueued (run before init) = 0%nat) by (vm_compute; reflexivity).
  assert (Hk : clickSent (run (app before [(e, content 12 chest)]) init) = true)
    by (vm_compute; reflexivity).
  destruct (clickSlot_at_most_once before evs Hall) as [H1 _].
  destruct (clickSlot_at_most_once (app before [(e, content 12 chest)]) (tl evs)
              Hall') as [_ [H2 _]].
  rewrite H0 in H1.
  split; [exact H0|]. split; [vm_compute; reflexivity|].
  split; [exact H1|]. split; [exact Hk|].
  exact (proj2 (H2 Hk)).
Defined.

(** *** The readiness gate *)





















Lemma readiness_not_close ev : readinessSignal ev = true -> ev <> EvClose.
Proof. intros H ->. discriminate H. Qed.






(** *** From a fresh connection: READY exactly when both flags hold *)


(** Bring the invariant to the fields of the record, then decide every
    test the handler makes. *)
Ltac gate_cases :=
  unfold gateInvariant, isReady in *;
  repeat match goal with
         | H : _ /\ _ |- _ => destruct H
         | H : _ <-> _ |- _ => destruct H
         end;
  repeat match goal with
         | s : St |- _ => destruct s
         end;
  cbn [client state availableCommandsSeen inventoryReady
       inventoryReadyReason inventoryReadyFallbackTimer currentWindowId
       currentWindowType currentWindowItems playerInventoryItems clickSent
       commandSent autoCommandSent commandSentCount wantConnected
       reconnectTimer reconnectAttempt pendingReconnectReason
       pendingReconnectDelayMs desiredTakeSlotIndex readyTimers outbox] in *;
  subst;
  repeat match goal with
         | H : _ \/ _ |- _ => destruct H; subst
         end;
  cbn; repeat (break_match; cbn);
  repeat split; intros; try reflexivity; try discriminate;
  try congruence; auto;
  repeat match goal with
         | H : context [andb ?b _] |- _ => is_var b; destruct b; cbn in H
         | H : context [andb _ ?b] |- _ => is_var b; destruct b; cbn in H
         | H : context [orb ?b _] |- _ => is_var b; destruct b; cbn in H
         | H : context [orb _ ?b] |- _ => is_var b; destruct b; cbn in H
         | H : context [negb ?b] |- _ => is_var b; destruct b; cbn in H
         | |- context [andb ?b _] => is_var b; destruct b; cbn
         | |- context [andb _ ?b] => is_var b; destruct b; cbn
         end;
  try reflexivity; try discriminate; try congruence; auto;
  try match goal with
      | H : (?a = ?a -> _) |- _ => solve [discriminate (H eq_refl)]
      end.

Lemma onMaybeReady_gateInvariant s :
  currentWindowId s = None ->
  (state s = CONNECTING \/ state s = WAIT_SPAWN \/
   state s = WAIT_AVAILABLE_COMMANDS \/ state s = WAIT_INVENTORY_READY \/
   state s = READY) ->
  (state s = WAIT_INVENTORY_READY -> availableCommandsSeen s = true) ->
  (inventoryReadyFallbackTimer s = true -> availableCommandsSeen s = true) ->
  (state s = READY -> isReady s = true) ->
  gateInvariant (onMaybeReady s).
Proof.
  intros H1 H2 H3 H4 H5. unfold onMaybeReady, setState. gate_cases.
Qed.

Lemma gateInvariant_ext s s' :
  state s' = state s ->
  availableCommandsSeen s' = availableCommandsSeen s ->
  inventoryReady s' = inventoryReady s ->
  inventoryReadyFallbackTimer s' = inventoryReadyFallbackTimer s ->
  currentWindowId s' = currentWindowId s ->
  gateInvariant s -> gateInvariant s'.
Proof.
  unfold gateInvariant, isReady. intros -> -> -> -> ->. auto.
Qed.

Lemma markInventoryReady_gateInvariant reason s :
  gateInvariant s -> gateInvariant (markInventoryReady reason s).
Proof.
  intros Hg. unfold markInventoryReady.
  destruct (inventoryReady s) eqn:Hi; [exact Hg|]. cbv zeta.
  apply onMaybeReady_gateInvariant; unfold setState; gate_cases.
Qed.

Lemma armInventoryReadyFallback_gateInvariant s :
  gateInvariant s -> availableCommandsSeen s = true ->
  gateInvariant (armInventoryReadyFallback s).
Proof.
  intros Hg Ha. unfold armInventoryReadyFallback. gate_cases.
Qed.

Lemma inferContainer_idle w c d n s :
  state s <> WAIT_UI -> inferContainer w c d n s = s.
Proof.
  intros H. unfold inferContainer. apply state_is_false in H. now rewrite H.
Qed.

Lemma gateInvariant_not_waiting s : gateInvariant s -> state s <> WAIT_UI.
Proof.
  intros [_ [H _]] Hst. rewrite Hst in H.
  repeat (destruct H as [H | H]; [discriminate H|]). discriminate H.
Qed.

Lemma handle_gateInvariant env ev s :
  readinessSignal ev = true -> gateInvariant s ->
  gateInvariant (after (handle env ev s)).
Proof.
  intros Hev Hg. destruct ev; try discriminate Hev; cbn [handle after].
  - unfold onSpawn. apply onMaybeReady_gateInvariant; unfold setState;
      gate_cases.
  - unfold onStartGame. break_match;
      [now apply markInventoryReady_gateInvariant | exact Hg].
  - unfold onAvailableCommands. cbv zeta.
    apply onMaybeReady_gateInvariant;
      unfold armInventoryReadyFallback, setState; gate_cases.
  - unfold onInventoryContent.
    destruct (ic_window_id packet) as [w|]; [|exact Hg]. cbv zeta.
    rewrite inferContainer_idle by now apply gateInvariant_not_waiting.
    assert (H1 : gateInvariant (playerContentReady w s)).
    { unfold playerContentReady. break_match;
        [now apply markInventoryReady_gateInvariant | exact Hg]. }
    assert (H2 : gateInvariant
                   (keepPlayerSnapshot w (ic_input packet)
                      (playerContentReady w s))).
    { revert H1. apply gateInvariant_ext; unfold keepPlayerSnapshot;
        repeat break_match; reflexivity. }
    unfold containerContent. rewrite (proj1 H2). exact H2.
  - unfold onInventorySlot.
    destruct (is_window_id packet) as [w|]; [|exact Hg]. cbv zeta.
    assert (H1 : gateInvariant (playerSlotReady w s)).
    { unfold playerSlotReady. break_match;
        [now apply markInventoryReady_gateInvariant | exact Hg]. }
    assert (H2 : gateInvariant
                   (keepPlayerSlot w (is_slot packet) (is_item packet)
                      (playerSlotReady w s))).
    { revert H1. apply gateInvariant_ext; unfold keepPlayerSlot;
        repeat break_match; reflexivity. }
    unfold containerSlot. rewrite (proj1 H2). cbn [andThen after].
    unfold rearmFallback.
    destruct (state_is _ WAIT_INVENTORY_READY) eqn:Hst; [|exact H2].
    destruct (negb _); [|exact H2]. cbn [andb].
    apply armInventoryReadyFallback_gateInvariant; [exact H2|].
    apply state_is_true in Hst. destruct H2 as [_ [_ [H3 _]]]. auto.
  - destruct (inventoryReadyFallbackTimer s); [|exact Hg]. cbn [after].
    unfold fallbackTimerCallback. break_match;
      [exact Hg | now apply markInventoryReady_gateInvariant].
Qed.

Lemma run_gateInvariant (evs : list (Env * Event)) :
  forall s, forallb (fun ev => readinessSignal (snd ev)) evs = true ->
    gateInvariant s -> gateInvariant (run evs s).
Proof.
  induction evs as [|[env ev] evs IH]; intros s Hall Hg; [exact Hg|].
  simpl in Hall. apply andb_true_iff in Hall. destruct Hall as [Hev Hall].
  unfold run in *. simpl. apply IH; [exact Hall|].
  now apply handle_gateInvariant.
Qed.


(** *** From the start of a connection, with or without a stale timer *)












(** With the timer among the events the order matters: it runs out only
    while pending, and available_commands is what arms it. *)
Lemma fallback_order_matters :
  let e := mkEnv true 0 in
  let s := connectServer init in
  isReady (run [(e, EvSpawn); (e, EvAvailableCommands); (e, EvFallbackTimer)] s)
    = true /\
  isReady (run [(e, EvSpawn); (e, EvFallbackTimer); (e, EvAvailableCommands)] s)
    = false.
Proof. split; vm_compute; reflexivity. Qed.



End BotFacts.

(* ===================================================================== *)
(** ** Further properties of the session script *)
(* ===================================================================== *)

Module BotMoreFacts.
Import Js Bot BotMore BotFacts.

(** *** What each event may write *)

Lemma unchanged_refl v s : unchanged v s s.
Proof. destruct v; reflexivity. Qed.

Lemma unchanged_trans v s1 s2 s3 :
  unchanged v s1 s2 -> unchanged v s2 s3 -> unchanged v s1 s3.
Proof. destruct v; simpl; congruence. Qed.

Lemma inVars_app v vs ws : inVars v (vs ++ ws) = inVars v vs || inVars v ws.
Proof. unfold inVars. apply existsb_app. Qed.

Lemma inStates_app t ts us :
  inStates t (ts ++ us) = inStates t ts || inStates t us.
Proof. unfold inStates. apply existsb_app. Qed.

Lemma effect_refl s : effect [] [] s s.
Proof. split; [intros v _; apply unchanged_refl | left; reflexivity]. Qed.

Lemma effect_trans vs1 ts1 vs2 ts2 s1 s2 s3 :
  effect vs1 ts1 s1 s2 -> effect vs2 ts2 s2 s3 ->
  effect (vs1 ++ vs2) (ts1 ++ ts2) s1 s3.
Proof.
  intros [C1 M1] [C2 M2]. split.
  - intros v Hv. rewrite inVars_app in Hv. apply orb_false_iff in Hv.
    destruct Hv as [H1 H2].
    eapply unchanged_trans; [apply C1 | apply C2]; assumption.
  - unfold movesTo in *. rewrite inStates_app.
    destruct M2 as [M2 | M2].
    + rewrite M2. destruct M1 as [M1 | M1]; [left; exact M1|].
      right. now rewrite M1.
    + right. rewrite M2. apply orb_true_r.
Qed.

Lemma effect_weaken vs ts vs' ts' s s' :
  forallb (fun v => inVars v vs') vs = true ->
  forallb (fun t => inStates t ts') ts = true ->
  effect vs ts s s' -> effect vs' ts' s s'.
Proof.
  intros Hv Ht [C M]. split.
  - intros v Hnot. apply C.
    destruct (inVars v vs) eqn:E; [|reflexivity].
    unfold inVars in E. apply existsb_exists in E.
    destruct E as [w [Hw Heq]]. destruct (Var_eq_dec v w); [subst w|discriminate].
    rewrite forallb_forall in Hv. rewrite (Hv _ Hw) in Hnot. discriminate.
  - destruct M as [M | M]; [left; exact M|]. right.
    unfold inStates in M. apply existsb_exists in M.
    destruct M as [t [Hin Heq]]. apply state_is_true in Heq. subst t.
    rewrite forallb_forall in Ht. exact (Ht _ Hin).
Qed.

(** A function made of tests and assignments only. *)
Ltac effect_tac :=
  split;
  [ let v := fresh "v" in let Hv := fresh "Hv" in
    intros v Hv; destruct v; try discriminate Hv; cbn [unchanged];
    repeat break_match; fields; congruence
  | unfold movesTo; repeat break_match; fields;
    first [left; congruence | right; reflexivity] ].

(** Compose the effects of the parts and check the lists. *)
Ltac effect_of H :=
  eapply effect_weaken; [| | exact H]; reflexivity.

Lemma setState_effect next s : effect [V_state] [next] s (setState next s).
Proof.
  unfold setState. split.
  - intros v Hv; destruct v; try discriminate Hv; reflexivity.
  - right. unfold inStates. cbn [existsb state set_state].
    now rewrite state_is_refl.
Qed.

Lemma scheduleReconnect_effect env reason delayMs s :
  effect [V_reconnectTimer] [] s (scheduleReconnect env reason delayMs s).
Proof. unfold scheduleReconnect. effect_tac. Qed.

Lemma onMaybeReady_effect s :
  effect [V_state; V_readyTimers] [READY] s (onMaybeReady s).
Proof. unfold onMaybeReady, setState. effect_tac. Qed.

Lemma armInventoryReadyFallback_effect s :
  effect [V_inventoryReadyFallbackTimer] [] s (armInventoryReadyFallback s).
Proof. unfold armInventoryReadyFallback. effect_tac. Qed.

Lemma markInventoryReady_effect reason s :
  effect markWrites [READY] s (markInventoryReady reason s).
Proof.
  unfold markInventoryReady.
  destruct (inventoryReady s); [effect_of (effect_refl s)|]. cbv zeta.
  match goal with
  | |- effect _ _ _ (onMaybeReady ?x) =>
      assert (H : effect [V_inventoryReady; V_inventoryReadyReason;
                          V_inventoryReadyFallbackTimer; V_state] [READY] s x)
        by (unfold setState; effect_tac);
      effect_of (effect_trans _ _ _ _ _ _ _ H (onMaybeReady_effect x))
  end.
Qed.

Lemma sendCommand_effect env line s :
  effect sendCommandWrites [WAIT_UI] s (after (sendCommand env line s)).
Proof. unfold sendCommand, send, setState. effect_tac. Qed.

Lemma clickSlot_effect env w i s :
  effect clickWrites [CLICK_SENT] s (after (clickSlot env w i s)).
Proof. unfold clickSlot, send, setState. effect_tac. Qed.

Ltac chain H1 H2 := effect_of (effect_trans _ _ _ _ _ _ _ H1 H2).

Lemma maybeTakeDesiredSlot_effect env s :
  effect clickWrites [WAIT_CONTAINER_CONTENT; CLICK_SENT] s
    (after (maybeTakeDesiredSlot env s)).
Proof.
  unfold maybeTakeDesiredSlot.
  destruct (currentWindowId s) as [cur|]; [|effect_of (effect_refl s)].
  destruct (_ <? 0); [effect_of (effect_refl s)|].
  destruct (currentWindowItems s); [|effect_of (effect_refl s)].
  destruct (_ >=? _); [effect_of (effect_refl s)|]. cbv zeta.
  match goal with
  | |- effect _ _ _ (after (clickSlot ?e ?w ?i ?x)) =>
      assert (H : effect [V_state] [WAIT_CONTAINER_CONTENT] s x)
        by (unfold setState; effect_tac);
      chain H (clickSlot_effect e w i x)
  end.
Qed.

Lemma tryTakeFromOpenContainer_effect env i s :
  effect clickWrites [WAIT_CONTAINER_CONTENT; CLICK_SENT] s
    (after (tryTakeFromOpenContainer env i s)).
Proof.
  unfold tryTakeFromOpenContainer.
  destruct (currentWindowId s) as [cur|]; [|effect_of (effect_refl s)].
  destruct (i <? 0); [effect_of (effect_refl s)|].
  destruct (currentWindowItems s).
  - cbv zeta.
    match goal with
    | |- effect _ _ _ (after (clickSlot ?e ?w ?j ?x)) =>
        assert (H : effect [V_state; V_clickSent] [WAIT_CONTAINER_CONTENT] s x)
          by (unfold setState; effect_tac);
        chain H (clickSlot_effect e w j x)
    end.
  - effect_of (setState_effect WAIT_CONTAINER_CONTENT s).
Qed.

Lemma inferContainer_effect w c d n s :
  effect [V_currentWindowId; V_currentWindowType; V_currentWindowItems;
          V_clickSent; V_state] [WAIT_CONTAINER_CONTENT] s
    (inferContainer w c d n s).
Proof. unfold inferContainer, setState. effect_tac. Qed.

Lemma playerContentReady_effect w s :
  effect markWrites [READY] s (playerContentReady w s).
Proof.
  unfold playerContentReady. break_match;
    [apply markInventoryReady_effect | effect_of (effect_refl s)].
Qed.

Lemma keepPlayerSnapshot_effect w input s :
  effect [V_playerInventoryItems] [] s (keepPlayerSnapshot w input s).
Proof. unfold keepPlayerSnapshot. effect_tac. Qed.

Lemma containerContent_effect env w input s :
  effect (V_currentWindowItems :: clickWrites)
    [WAIT_CONTAINER_CONTENT; CLICK_SENT] s
    (after (containerContent env w input s)).
Proof.
  unfold containerContent.
  destruct (currentWindowId s) as [cur|]; [|effect_of (effect_refl s)].
  destruct (same_window w cur); [|effect_of (effect_refl s)]. cbv zeta.
  match goal with
  | |- effect _ _ _ (after (maybeTakeDesiredSlot ?e ?x)) =>
      assert (H : effect [V_currentWindowItems; V_state]
                    [WAIT_CONTAINER_CONTENT] s x)
        by (unfold setState; effect_tac);
      chain H (maybeTakeDesiredSlot_effect e x)
  end.
Qed.

Lemma onInventoryContent_effect env packet s :
  effect (footprint (EvInventoryContent packet))
    (targets (EvInventoryContent packet)) s
    (after (onInventoryContent env packet s)).
Proof.
  unfold onInventoryContent.
  destruct (ic_window_id packet) as [w|]; [|effect_of (effect_refl s)].
  cbv zeta.
  set (n := match ic_input packet with
            | Some input => Z.of_nat (List.length input)
            | None => 0
            end).
  pose proof (inferContainer_effect w (ic_container_id packet)
                (ic_dynamic_container_id packet) n s) as H1.
  set (s1 := inferContainer _ _ _ _ s) in *.
  pose proof (playerContentReady_effect w s1) as H2.
  set (s2 := playerContentReady w s1) in *.
  pose proof (keepPlayerSnapshot_effect w (ic_input packet) s2) as H3.
  set (s3 := keepPlayerSnapshot _ _ s2) in *.
  pose proof (containerContent_effect env w (ic_input packet) s3) as H4.
  chain (effect_trans _ _ _ _ _ _ _ (effect_trans _ _ _ _ _ _ _ H1 H2) H3) H4.
Qed.

Lemma playerSlotReady_effect w s :
  effect markWrites [READY] s (playerSlotReady w s).
Proof.
  unfold playerSlotReady. break_match;
    [apply markInventoryReady_effect | effect_of (effect_refl s)].
Qed.

Lemma keepPlayerSlot_effect w i item s :
  effect [V_playerInventoryItems] [] s (keepPlayerSlot w i item s).
Proof. unfold keepPlayerSlot. effect_tac. Qed.

Lemma containerSlot_effect env w i item s :
  effect (V_currentWindowItems :: clickWrites)
    [WAIT_CONTAINER_CONTENT; CLICK_SENT] s
    (after (containerSlot env w i item s)).
Proof.
  unfold containerSlot.
  destruct (currentWindowId s) as [cur|]; [|effect_of (effect_refl s)].
  destruct i as [i|]; [|effect_of (effect_refl s)].
  destruct (same_window w cur); [|effect_of (effect_refl s)]. cbv zeta.
  match goal with
  | |- effect _ _ _ (after (if _ then maybeTakeDesiredSlot ?e ?x else _)) =>
      assert (H : effect [V_currentWindowItems] [] s x) by effect_tac;
      break_match;
        [chain H (maybeTakeDesiredSlot_effect e x) | effect_of H]
  end.
Qed.

Lemma rearmFallback_effect s :
  effect [V_inventoryReadyFallbackTimer] [] s (rearmFallback s).
Proof.
  unfold rearmFallback. break_match;
    [apply armInventoryReadyFallback_effect | effect_of (effect_refl s)].
Qed.

Lemma onInventorySlot_effect env packet s :
  effect (footprint (EvInventorySlot packet))
    (targets (EvInventorySlot packet)) s
    (after (onInventorySlot env packet s)).
Proof.
  unfold onInventorySlot.
  destruct (is_window_id packet) as [w|]; [|effect_of (effect_refl s)].
  cbv zeta.
  pose proof (playerSlotReady_effect w s) as H1.
  set (s1 := playerSlotReady w s) in *.
  pose proof (keepPlayerSlot_effect w (is_slot packet) (is_item packet) s1) as H2.
  set (s2 := keepPlayerSlot _ _ _ s1) in *.
  pose proof (containerSlot_effect env w (is_slot packet) (is_item packet) s2)
    as H3.
  destruct (containerSlot _ _ _ _ s2) as [x|x]; cbn [andThen after] in *.
  - chain (effect_trans _ _ _ _ _ _ _ (effect_trans _ _ _ _ _ _ _ H1 H2) H3)
          (rearmFallback_effect x).
  - chain (effect_trans _ _ _ _ _ _ _ H1 H2) H3.
Qed.

Lemma onError_effect env msg s :
  effect (footprint (EvError msg)) (targets (EvError msg)) s (onError env msg s).
Proof.
  unfold onError. break_match; [effect_of (effect_refl s)|].
  break_match; [|effect_of (effect_refl s)]. cbv zeta.
  match goal with
  | |- effect _ _ _ (set_pendingReconnectDelayMs None
                       (scheduleReconnect ?e ?r ?d ?x)) =>
      assert (H1 : effect [V_client; V_state] [CONNECTING] s x)
        by (unfold setState; effect_tac);
      pose proof (scheduleReconnect_effect e r d x) as H2;
      assert (H3 : effect [V_pendingReconnectDelayMs] []
                     (scheduleReconnect e r d x)
                     (set_pendingReconnectDelayMs None
                        (scheduleReconnect e r d x))) by effect_tac;
      chain (effect_trans _ _ _ _ _ _ _ H1 H2) H3
  end.
Qed.

Lemma onKick_effect message s :
  effect (footprint (EvKick message)) (targets (EvKick message)) s
    (onKick message s).
Proof. unfold onKick, setState. effect_tac. Qed.

Lemma onClose_effect env s :
  effect (footprint EvClose) (targets EvClose) s (onClose env s).
Proof.
  unfold onClose. cbv zeta.
  match goal with
  | |- effect _ _ _ (scheduleReconnect ?e ?r ?d ?x) =>
      assert (H1 : effect
                [V_client; V_availableCommandsSeen; V_inventoryReady;
                 V_inventoryReadyReason; V_currentWindowId;
                 V_currentWindowType; V_currentWindowItems;
                 V_playerInventoryItems; V_clickSent; V_commandSent;
                 V_autoCommandSent; V_commandSentCount;
                 V_pendingReconnectReason; V_pendingReconnectDelayMs; V_state]
                [CONNECTING] s x)
        by (unfold setState; effect_tac);
      chain H1 (scheduleReconnect_effect e r d x)
  end.
Qed.

Lemma connectServer_effect s :
  effect [V_wantConnected; V_reconnectTimer; V_client; V_state] [WAIT_SPAWN]
    s (connectServer s).
Proof. unfold connectServer, clearReconnectTimer, setState. effect_tac. Qed.

Lemma readyTimerCallback_effect env s :
  effect (V_autoCommandSent :: sendCommandWrites) [WAIT_UI] s
    (after (readyTimerCallback env s)).
Proof.
  unfold readyTimerCallback. break_match; [effect_of (effect_refl s)|].
  pose proof (sendCommand_effect env TARGET_COMMAND s) as H.
  destruct (sendCommand env TARGET_COMMAND s) as [x|x]; cbn [andThen after] in *.
  - assert (H2 : effect [V_autoCommandSent] [] x (set_autoCommandSent true x))
      by effect_tac.
    chain H H2.
  - effect_of H.
Qed.

(** What the handler of each event may assign, and where it may leave
    the state. *)
Lemma handle_effect env ev s :
  effect (footprint ev) (targets ev) s (after (handle env ev s)).
Proof.
  destruct ev; cbn [handle after].
  - apply onError_effect.
  - apply onKick_effect.
  - apply onClose_effect.
  - unfold onSpawn.
    chain (setState_effect WAIT_AVAILABLE_COMMANDS s)
          (onMaybeReady_effect (setState WAIT_AVAILABLE_COMMANDS s)).
  - unfold onStartGame. break_match;
      [apply markInventoryReady_effect | effect_of (effect_refl s)].
  - unfold onAvailableCommands. cbv zeta.
    match goal with
    | |- effect _ _ _ (onMaybeReady ?x) =>
        assert (H : effect [V_availableCommandsSeen; V_state;
                            V_inventoryReadyFallbackTimer]
                      [WAIT_INVENTORY_READY] s x)
          by (unfold armInventoryReadyFallback, setState; effect_tac);
        chain H (onMaybeReady_effect x)
    end.
  - apply onInventoryContent_effect.
  - apply onInventorySlot_effect.
  - unfold onContainerOpen, setState. effect_tac.
  - unfold onContainerClose, setState. effect_tac.
  - destruct (inventoryReadyFallbackTimer s); cbn [after];
      [|effect_of (effect_refl s)].
    unfold fallbackTimerCallback. break_match;
      [effect_of (effect_refl s) | apply markInventoryReady_effect].
  - destruct (readyTimers s) as [|n]; cbn [after];
      [effect_of (effect_refl s)|].
    assert (H : effect [V_readyTimers] [] s (set_readyTimers n s))
      by effect_tac.
    chain H (readyTimerCallback_effect env (set_readyTimers n s)).
  - destruct (reconnectTimer s); cbn [after]; [|effect_of (effect_refl s)].
    unfold reconnectTimerCallback. cbv zeta.
    match goal with
    | |- effect _ _ _ (connectServer ?x) =>
        assert (H : effect [V_reconnectTimer; V_reconnectAttempt] [] s x)
          by effect_tac;
        chain H (connectServer_effect x)
    end.
  - effect_of (connectServer_effect s).
  - unfold disconnectServer, clearReconnectTimer. effect_tac.
  - unfold onLineSlot. effect_tac.
  - unfold onLineTake. cbv zeta.
    match goal with
    | |- effect _ _ _ (after (if ?c then _ else
                                tryTakeFromOpenContainer ?e ?n ?x)) =>
        destruct c; cbn [after]; [effect_of (effect_refl s)|];
        assert (H : effect [V_desiredTakeSlotIndex] [] s x) by effect_tac;
        chain H (tryTakeFromOpenContainer_effect e n x)
    end.
  - unfold onLineCommand. cbv zeta.
    set (s1 := match slotArg with
               | Some n => if n <? 0 then s else set_desiredTakeSlotIndex n s
               | None => s
               end).
    assert (H : effect [V_desiredTakeSlotIndex] [] s s1)
      by (subst s1; effect_tac).
    destruct (canSendCommands s1); cbn [after];
      [chain H (sendCommand_effect env cmdLine s1) | effect_of H].
Qed.

Lemma turn_without_close env ev s : turn None env ev s = step s (env, ev).
Proof.
  assert (H : forall x, closeIfClient None x = x)
    by (intros x; unfold closeIfClient, closeCall; now destruct (client x)).
  destruct ev; try reflexivity; unfold step; cbn [turn handle after fst snd].
  - unfold onErrorClosing, onError. cbv zeta. now rewrite H.
  - unfold onKickClosing, onKick. cbv zeta. now rewrite H.
Qed.

Lemma closeCall_effect inside s :
  effect (footprint EvClose) (targets EvClose) s (closeCall inside s).
Proof.
  destruct inside as [e|]; [apply onClose_effect | effect_of (effect_refl s)].
Qed.

Lemma closeIfClient_effect inside s :
  effect (footprint EvClose) (targets EvClose) s (closeIfClient inside s).
Proof.
  unfold closeIfClient.
  destruct (client s); [apply closeCall_effect | effect_of (effect_refl s)].
Qed.

Lemma onErrorClosing_effect inside env msg s :
  effect (footprint (EvError msg) ++ footprint EvClose)
         (targets (EvError msg) ++ targets EvClose) s
         (onErrorClosing inside env msg s).
Proof.
  unfold onErrorClosing.
  destruct (_ || _); [effect_of (effect_refl s)|].
  destruct (includes _ _); [|effect_of (effect_refl s)]. cbv zeta.
  pose proof (closeIfClient_effect inside s) as H0.
  set (x := closeIfClient inside s) in *.
  assert (H1 : effect [V_client; V_state] [CONNECTING] x
                 (setState CONNECTING (set_client false x)))
    by (unfold setState; effect_tac).
  pose proof (scheduleReconnect_effect env "connect timeout"
                (pendingReconnectDelayMs (setState CONNECTING (set_client false x)))
                (setState CONNECTING (set_client false x))) as H2.
  match goal with
  | |- effect _ _ _ (set_pendingReconnectDelayMs None ?y) =>
      assert (H3 : effect [V_pendingReconnectDelayMs] [] y
                     (set_pendingReconnectDelayMs None y)) by effect_tac
  end.
  chain (effect_trans _ _ _ _ _ _ _ (effect_trans _ _ _ _ _ _ _ H0 H1) H2) H3.
Qed.

Lemma onKickClosing_effect inside message s :
  effect (footprint (EvKick message) ++ footprint EvClose)
         (targets (EvKick message) ++ targets EvClose) s
         (onKickClosing inside message s).
Proof.
  unfold onKickClosing. cbv zeta.
  match goal with
  | |- effect _ _ _ (setState CONNECTING (closeIfClient inside ?x)) =>
      assert (H0 : effect [V_pendingReconnectReason; V_pendingReconnectDelayMs]
                     [] s x) by effect_tac;
      chain (effect_trans _ _ _ _ _ _ _ H0 (closeIfClient_effect inside x))
            (setState_effect CONNECTING (closeIfClient inside x))
  end.
Qed.

Lemma disconnectServerClosing_effect inside s :
  effect (footprint EvLineDisconnect ++ footprint EvClose)
         (targets EvLineDisconnect ++ targets EvClose) s
         (disconnectServerClosing inside s).
Proof.
  unfold disconnectServerClosing.
  destruct (negb (client s)); [effect_of (effect_refl s)|].
  assert (H0 : effect [V_wantConnected; V_reconnectTimer] [] s
                 (clearReconnectTimer (set_wantConnected false s)))
    by (unfold clearReconnectTimer; effect_tac).
  chain H0 (closeCall_effect inside
              (clearReconnectTimer (set_wantConnected false s))).
Qed.

(** After kick and after the console line disconnect, a close handler
    that ran inside [close] leaves what a close event right after the
    handler leaves. *)
Lemma close_inside_or_next (e env : Env) (ev : Event) (s : St) :
  client s = true ->
  match ev with EvKick _ | EvLineDisconnect => True | _ => False end ->
  turn (Some e) env ev s = step (step s (env, ev)) (e, EvClose).
Proof.
  intros Hc Hev. destruct ev; try contradiction;
    unfold step; cbn [turn handle after fst snd].
  - unfold onKickClosing, onKick, closeIfClient, closeCall. cbv zeta.
    repeat match goal with
           | |- context [if ?b then _ else _] =>
               match b with
               | client _ => fail 1
               | _ => destruct b
               end
           end;
      cbn [client set_pendingReconnectReason set_pendingReconnectDelayMs];
      rewrite Hc; unfold onClose, scheduleReconnect, setState;
      destruct s; cbn; repeat break_match; reflexivity.
  - unfold disconnectServerClosing, disconnectServer, closeCall.
    rewrite Hc. reflexivity.
Qed.

(** X1. Whatever one turn of the event loop does, it assigns, of the
    variables the session keeps, only those listed for the event, and it
    leaves the state as it was or in one of the states listed for the
    event.  Where the handler calls [client.close()] and the close
    handler runs inside the call, the variables and the state of the
    close handler are added to the lists; where [close] returns without
    the event, the turn is the handler alone. *)
Theorem event_effect :
  forall (inside : option Env) (env : Env) (ev : Event) (s : St),
    changesOnly (turnFootprint inside ev) s (turn inside env ev s) /\
    (state (turn inside env ev s) = state s \/
     inStates (state (turn inside env ev s)) (turnTargets inside ev) = true) /\
    turn None env ev s = step s (env, ev).
Proof.
  intros inside env ev s.
  split; [|split]; [| |apply turn_without_close];
    (destruct inside as [e|];
     [ destruct ev; cbn [turn turnFootprint turnTargets callsClose];
       first [ apply (onErrorClosing_effect (Some e))
             | apply (onKickClosing_effect (Some e))
             | apply (disconnectServerClosing_effect (Some e))
             | apply (handle_effect env _ s) ]
     | rewrite turn_without_close; apply (handle_effect env ev s) ]).
Qed.

Lemma run_snoc (evs : list (Env * Event)) (ev : Env * Event) (s : St) :
  run (evs ++ [ev]) s = step (run evs s) ev.
Proof. unfold run. now rewrite fold_left_app. Qed.

(** Induction over the events of a session, oldest first. *)
Lemma reachable_ind (P : St -> Prop) :
  P init ->
  (forall env ev s, P s -> P (after (handle env ev s))) ->
  forall evs, P (run evs init).
Proof.
  intros H0 Hstep evs. induction evs as [|[env ev] evs IH] using rev_ind;
    [exact H0|].
  rewrite run_snoc. apply Hstep. exact IH.
Qed.

(** X2. COMMAND_SENT and CONTAINER_OPENED are only passed through
    inside a handler: between two events the script is never in one of
    them. *)
Theorem transient_states_never_observed :
  forall (evs : list (Env * Event)),
    state (run evs init) <> COMMAND_SENT /\
    state (run evs init) <> CONTAINER_OPENED.
Proof.
  apply (reachable_ind
           (fun s => state s <> COMMAND_SENT /\ state s <> CONTAINER_OPENED)).
  - split; discriminate.
  - intros env ev s [H1 H2].
    destruct (handle_effect env ev s) as [_ [M | M]].
    + rewrite M. now split.
    + split; intro E; rewrite E in M; destruct ev; discriminate M.
Qed.

(** *** The reconnect timer *)

Lemma linkInvariant_frame vs ts s s' :
  effect vs ts s s' ->
  inVars V_client vs = false -> inVars V_wantConnected vs = false ->
  inVars V_reconnectTimer vs = false ->
  linkInvariant s -> linkInvariant s'.
Proof.
  intros [C _] H1 H2 H3 Hinv. unfold linkInvariant.
  pose proof (C V_client H1) as E1. pose proof (C V_wantConnected H2) as E2.
  pose proof (C V_reconnectTimer H3) as E3. simpl in E1, E2, E3.
  now rewrite E1, E2, E3.
Qed.

Ltac link_cases :=
  unfold linkInvariant, onError, onClose, reconnectTimerCallback,
    connectServer, disconnectServer, clearReconnectTimer, scheduleReconnect,
    setState in *;
  cbv zeta; fields;
  match goal with
  | s : St |- _ =>
      destruct (wantConnected s) eqn:?; destruct (client s) eqn:?;
      destruct (reconnectTimer s) eqn:?
  end;
  repeat (fields; break_match); fields; intros;
  try match goal with
      | H : _ <> None -> _ |- _ => destruct H; [congruence|]
      end;
  try split; congruence.

Lemma handle_linkInvariant env ev s :
  linkInvariant s -> linkInvariant (after (handle env ev s)).
Proof.
  intros Hinv.
  destruct ev;
    try (apply (linkInvariant_frame _ _ _ _ (handle_effect env _ s));
         [reflexivity | reflexivity | reflexivity | exact Hinv]);
    cbn [handle after].
  - link_cases.
  - link_cases.
  - destruct (reconnectTimer s) eqn:E; cbn [after]; [|exact Hinv].
    link_cases.
  - link_cases.
  - link_cases.
Qed.

(** X3. In every state a session can reach, a reconnect is pending only
    while there is no client and the user wants the connection. *)
Theorem reconnect_pending_means_disconnected :
  forall (evs : list (Env * Event)),
    reconnectTimer (run evs init) <> None ->
    client (run evs init) = false /\ wantConnected (run evs init) = true.
Proof.
  apply (reachable_ind linkInvariant).
  - intros H. now contradiction H.
  - intros env ev s. apply handle_linkInvariant.
Qed.

Lemma reconnect_pending_means_disconnected_witness :
  let e := mkEnv true 17 in
  let evs := [(e, EvLineConnect); (e, EvClose)] in
  client (run evs init) = false /\ wantConnected (run evs init) = true.
Proof.
  intros e evs.
  assert (H : reconnectTimer (run evs init) <> None)
    by (vm_compute; discriminate).
  exact (reconnect_pending_means_disconnected evs H).
Defined.

Lemma handle_stays_disconnected env ev s :
  lineConnect ev = false ->
  wantConnected s = false -> reconnectTimer s = None ->
  wantConnected (after (handle env ev s)) = false /\
  reconnectTimer (after (handle env ev s)) = None /\
  (client s = false -> client (after (handle env ev s)) = false).
Proof.
  intros Hev Hw Ht.
  assert (Hframe : forall vs ts s',
            effect vs ts s s' ->
            inVars V_client vs = false -> inVars V_wantConnected vs = false ->
            inVars V_reconnectTimer vs = false ->
            wantConnected s' = false /\ reconnectTimer s' = None /\
            (client s = false -> client s' = false)).
  { intros vs ts s' [C _] H1 H2 H3.
    pose proof (C V_client H1) as E1. pose proof (C V_wantConnected H2) as E2.
    pose proof (C V_reconnectTimer H3) as E3. simpl in E1, E2, E3.
    rewrite E1, E2, E3. auto. }
  destruct ev; try discriminate Hev;
    try (apply (Hframe _ _ _ (handle_effect env _ s)); reflexivity);
    cbn [handle after].
  - unfold onError. break_match; [auto|]. break_match; [|auto].
    unfold scheduleReconnect, setState. cbv zeta. fields.
    rewrite Hw. cbn [negb]. fields. auto.
  - unfold onClose, scheduleReconnect, setState. cbv zeta. fields.
    rewrite Hw. cbn [negb]. fields. auto.
  - rewrite Ht. cbn [after]. auto.
  - unfold disconnectServer, clearReconnectTimer.
    break_match; fields; auto.
Qed.

(** X4. Once the user has disconnected (wantConnected unset, nothing
    pending), no event other than the console line connect schedules a
    reconnect or brings a client back. *)
Theorem no_reconnect_after_disconnect :
  forall (evs : list (Env * Event)) (s : St),
    forallb (fun ev => negb (lineConnect (snd ev))) evs = true ->
    wantConnected s = false -> reconnectTimer s = None ->
    wantConnected (run evs s) = false /\
    reconnectTimer (run evs s) = None /\
    (client s = false -> client (run evs s) = false).
Proof.
  induction evs as [|[env ev] evs IH]; intros s Hall Hw Ht; [auto|].
  simpl in Hall. apply andb_true_iff in Hall. destruct Hall as [Hev Hall].
  apply negb_true_iff in Hev.
  destruct (handle_stays_disconnected env ev s Hev Hw Ht) as [H1 [H2 H3]].
  unfold run in *. simpl. unfold step at 2. cbn [fst snd].
  destruct (IH _ Hall H1 H2) as [K1 [K2 K3]]. auto.
Qed.

(** A session the user has left: after the close no kick, error or
    timer brings it back. *)
Lemma no_reconnect_after_disconnect_witness :
  let e := mkEnv true 17 in
  let s := run [(e, EvLineConnect); (e, EvSpawn); (e, EvLineDisconnect);
                (e, EvClose)] init in
  let evs := [(e, EvKick (Some "already online")); (e, EvClose);
              (e, EvError "connect timed out"); (e, EvReconnectTimer);
              (e, EvLineDisconnect)] in
  client s = false /\ client (run evs s) = false /\
  reconnectTimer (run evs s) = None.
Proof.
  intros e s evs.
  assert (Hw : wantConnected s = false) by (vm_compute; reflexivity).
  assert (Ht : reconnectTimer s = None) by (vm_compute; reflexivity).
  assert (Hc : client s = false) by (vm_compute; reflexivity).
  destruct (no_reconnect_after_disconnect evs s eq_refl Hw Ht) as [_ [H2 H3]].
  auto.
Defined.

(** X5. The console line disconnect does nothing while there is no
    client: a reconnect that is pending stays pending, and when its timer
    runs out the script connects again and still wants the connection. *)
Theorem pending_reconnect_survives_disconnect :
  forall (env1 env2 : Env) (s : St) (d : Z),
    client s = false -> reconnectTimer s = Some d ->
    step s (env1, EvLineDisconnect) = s /\
    let s' := run [(env1, EvLineDisconnect); (env2, EvReconnectTimer)] s in
    client s' = true /\ wantConnected s' = true /\
    reconnectTimer s' = None /\
    reconnectAttempt s' = S (reconnectAttempt s) /\ state s' = WAIT_SPAWN.
Proof.
  intros env1 env2 s d Hc Ht.
  assert (H1 : step s (env1, EvLineDisconnect) = s).
  { unfold step. cbn [fst snd handle after]. unfold disconnectServer.
    now rewrite Hc. }
  split; [exact H1|]. cbv zeta. unfold run. cbn [fold_left]. rewrite H1.
  unfold step. cbn [fst snd handle]. rewrite Ht. cbn [after].
  unfold reconnectTimerCallback, connectServer, clearReconnectTimer, setState.
  cbv zeta. fields. rewrite Hc. fields. repeat split.
Qed.

Lemma pending_reconnect_survives_disconnect_witness :
  let e := mkEnv true 17 in
  let s := run [(e, EvLineConnect); (e, EvClose)] init in
  reconnectTimer s = Some 2017 /\
  client (run [(e, EvLineDisconnect); (e, EvReconnectTimer)] s) = true.
Proof.
  intros e s.
  assert (Hc : client s = false) by (vm_compute; reflexivity).
  assert (Ht : reconnectTimer s = Some 2017) by (vm_compute; reflexivity).
  split; [exact Ht|].
  exact (proj1 (proj2 (pending_reconnect_survives_disconnect e e s 2017 Hc Ht))).
Defined.

(** *** How long a reconnect waits *)

Lemma reconnectBase_bounds (a : nat) : 2000 <= reconnectBase a <= 60000.
Proof.
  unfold reconnectBase, RECONNECT_MAX_MS, RECONNECT_BASE_MS.
  assert (H : 1 <= 2 ^ Z.of_nat (Nat.min a 6)).
  { change 1 with (2 ^ 0). apply Z.pow_le_mono_r; lia. }
  lia.
Qed.

Lemma reconnectWait_bounds (a : nat) (delayMs : option Z) (j : Z) :
  delayMs = None \/ delayMs = Some 30000 -> 0 <= j < 500 ->
  2000 <= reconnectWait a delayMs j <= 60499.
Proof.
  intros Hd Hj. unfold reconnectWait. cbv zeta.
  pose proof (reconnectBase_bounds a) as Hb.
  destruct Hd as [-> | ->]; lia.
Qed.

Lemma scheduleReconnect_delay env reason delayMs s :
  goodEnv env -> delayMs = None \/ delayMs = Some 30000 ->
  (forall d, reconnectTimer s = Some d -> 2000 <= d <= 60499) ->
  forall d, reconnectTimer (scheduleReconnect env reason delayMs s) = Some d ->
            2000 <= d <= 60499.
Proof.
  intros Hj Hd Hs d. unfold scheduleReconnect.
  destruct (negb _); [apply Hs|]. destruct (client s); [apply Hs|].
  destruct (reconnectTimer s) eqn:E; [rewrite E; apply Hs|].
  fields. intros H. injection H as <-. now apply reconnectWait_bounds.
Qed.

Lemma delayInvariant_frame vs ts s s' :
  effect vs ts s s' ->
  inVars V_reconnectTimer vs = false ->
  inVars V_pendingReconnectDelayMs vs = false ->
  delayInvariant s -> delayInvariant s'.
Proof.
  intros [C _] H1 H2 Hinv. unfold delayInvariant.
  pose proof (C V_reconnectTimer H1) as E1.
  pose proof (C V_pendingReconnectDelayMs H2) as E2. simpl in E1, E2.
  now rewrite E1, E2.
Qed.

Lemma handle_delayInvariant env ev s :
  goodEnv env -> delayInvariant s -> delayInvariant (after (handle env ev s)).
Proof.
  intros Hj Hinv.
  destruct ev;
    try (apply (delayInvariant_frame _ _ _ _ (handle_effect env _ s));
         [reflexivity | reflexivity | exact Hinv]);
    cbn [handle after]; destruct Hinv as [Ht Hp].
  - unfold onError. break_match; [now split|]. break_match; [|now split].
    cbv zeta. split; [|left; reflexivity]. fields.
    apply scheduleReconnect_delay; [exact Hj | exact Hp | exact Ht].
  - unfold onKick, setState. cbv zeta. split.
    + intros d. repeat break_match; fields; apply Ht.
    + repeat break_match; fields; auto.
  - unfold onClose. cbv zeta. split.
    + apply scheduleReconnect_delay; [exact Hj | exact Hp | exact Ht].
    + match goal with
      | |- context [scheduleReconnect ?e ?r ?d ?x] =>
          destruct (scheduleReconnect_effect e r d x) as [C _];
          pose proof (C V_pendingReconnectDelayMs eq_refl) as E
      end.
      cbn [unchanged] in E. rewrite E. left. reflexivity.
  - destruct (reconnectTimer s) eqn:E; cbn [after];
      [|split; [intros d; rewrite E; apply Ht | exact Hp]].
    unfold reconnectTimerCallback, connectServer, clearReconnectTimer, setState.
    cbv zeta. split; [|repeat break_match; fields; exact Hp].
    intros d. repeat break_match; fields; discriminate.
  - unfold connectServer, clearReconnectTimer, setState. cbv zeta. split.
    + intros d. repeat break_match; fields; [apply Ht | discriminate].
    + repeat break_match; fields; exact Hp.
  - unfold disconnectServer, clearReconnectTimer. split.
    + intros d. repeat break_match; fields; [apply Ht | discriminate].
    + repeat break_match; fields; exact Hp.
Qed.

(** X6. With the jitter in [0, 500), every reconnect a session ever
    schedules waits between 2000 and 60499 ms (so the floor of 250 never
    decides), and the only override a kick ever leaves is 30000. *)
Theorem reconnect_delay_bounds :
  forall (evs : list (Env * Event)),
    Forall (fun ev => goodEnv (fst ev)) evs ->
    (forall d, reconnectTimer (run evs init) = Some d -> 2000 <= d <= 60499) /\
    (pendingReconnectDelayMs (run evs init) = None \/
     pendingReconnectDelayMs (run evs init) = Some 30000).
Proof.
  induction evs as [|[env ev] evs IH] using rev_ind; intros Hall.
  - split; [discriminate | left; reflexivity].
  - apply Forall_app in Hall. destruct Hall as [Hevs Hev].
    inversion Hev as [|x l Hj _]; subst.
    rewrite run_snoc. unfold step. cbn [fst snd].
    apply handle_delayInvariant; [exact Hj | exact (IH Hevs)].
Qed.

Lemma reconnect_delay_bounds_witness :
  let evs := [(mkEnv true 0, EvLineConnect);
              (mkEnv true 3, EvKick (Some "Already online"));
              (mkEnv true 499, EvClose)] in
  reconnectTimer (run evs init) = Some 30499 /\ 2000 <= 30499 <= 60499.
Proof.
  intros evs.
  assert (Hall : Forall (fun ev => goodEnv (fst ev)) evs).
  { repeat constructor; unfold goodEnv; simpl; lia. }
  assert (Ht : reconnectTimer (run evs init) = Some 30499)
    by (vm_compute; reflexivity).
  split; [exact Ht|].
  exact (proj1 (reconnect_delay_bounds evs Hall) 30499 Ht).
Defined.

(** *** Readiness and the state *)

(** Bring an invariant to the fields of the record, split on the state
    and on every test the function makes, and close what is left. *)
Ltac inv_cases :=
  repeat match goal with
         | H : _ /\ _ |- _ => destruct H
         end;
  repeat match goal with
         | s : St |- _ => destruct s
         end;
  cbn [client state availableCommandsSeen inventoryReady
       inventoryReadyReason inventoryReadyFallbackTimer currentWindowId
       currentWindowType currentWindowItems playerInventoryItems clickSent
       commandSent autoCommandSent commandSentCount wantConnected
       reconnectTimer reconnectAttempt pendingReconnectReason
       pendingReconnectDelayMs desiredTakeSlotIndex readyTimers outbox] in *;
  subst;
  repeat match goal with
         | st : State |- _ => destruct st
         end;
  cbn; repeat (break_match; cbn);
  repeat split; intros;
  repeat match goal with
         | H : ?a = ?a -> _ |- _ => specialize (H eq_refl)
         | H : _ /\ _ |- _ => destruct H
         end;
  subst; try reflexivity; try discriminate; try congruence; auto;
  repeat match goal with
         | H : context [andb ?b _] |- _ => is_var b; destruct b; cbn in H
         | H : context [andb _ ?b] |- _ => is_var b; destruct b; cbn in H
         | H : context [orb ?b _] |- _ => is_var b; destruct b; cbn in H
         | H : context [orb _ ?b] |- _ => is_var b; destruct b; cbn in H
         | H : context [negb ?b] |- _ => is_var b; destruct b; cbn in H
         end;
  try reflexivity; try discriminate; try congruence; auto.

Lemma not_inStates t ts s' :
  inStates t ts = false -> inStates (state s') ts = true -> state s' <> t.
Proof. intros Hn Hy E. rewrite E in Hy. congruence. Qed.

Lemma gateSafe_frame vs ts s s' :
  effect vs ts s s' ->
  inVars V_availableCommandsSeen vs = false ->
  inVars V_inventoryReady vs = false ->
  inVars V_inventoryReadyFallbackTimer vs = false ->
  inStates READY ts = false -> inStates WAIT_INVENTORY_READY ts = false ->
  gateSafe s -> gateSafe s'.
Proof.
  intros [C M] H1 H2 H3 T1 T2 [G1 [G2 G3]]. unfold gateSafe.
  pose proof (C V_availableCommandsSeen H1) as E1.
  pose proof (C V_inventoryReady H2) as E2.
  pose proof (C V_inventoryReadyFallbackTimer H3) as E3.
  cbn [unchanged] in E1, E2, E3. rewrite E1, E2, E3.
  destruct M as [M | M].
  - rewrite M. auto.
  - split; [exact G1|]. split; intros E;
      [exfalso; exact (not_inStates _ _ _ T1 M E)
      | exfalso; exact (not_inStates _ _ _ T2 M E)].
Qed.

Lemma onMaybeReady_gateSafe s : gateSafe s -> gateSafe (onMaybeReady s).
Proof. intros H. unfold onMaybeReady, setState, gateSafe in *. inv_cases. Qed.

Lemma markInventoryReady_gateSafe reason s :
  gateSafe s -> gateSafe (markInventoryReady reason s).
Proof.
  intros H. unfold markInventoryReady.
  destruct (inventoryReady s) eqn:Hi; [exact H|]. cbv zeta.
  apply onMaybeReady_gateSafe. unfold setState, gateSafe in *. inv_cases.
Qed.

Lemma armInventoryReadyFallback_gateSafe s :
  gateSafe s -> gateSafe (armInventoryReadyFallback s).
Proof.
  intros H. unfold armInventoryReadyFallback, gateSafe in *. inv_cases.
Qed.

Lemma handle_gateSafe env ev s :
  gateSafe s -> gateSafe (after (handle env ev s)).
Proof.
  intros Hinv.
  destruct ev;
    try (apply (gateSafe_frame _ _ _ _ (handle_effect env _ s));
         [reflexivity | reflexivity | reflexivity | reflexivity | reflexivity
         | exact Hinv]);
    cbn [handle after].
  - unfold onClose. cbv zeta.
    match goal with
    | |- gateSafe (scheduleReconnect ?e ?r ?d ?x) =>
        apply (gateSafe_frame _ _ _ _ (scheduleReconnect_effect e r d x));
          try reflexivity
    end.
    unfold setState, gateSafe in *. inv_cases.
  - unfold onSpawn. apply onMaybeReady_gateSafe.
    unfold setState, gateSafe in *. inv_cases.
  - unfold onStartGame. break_match;
      [now apply markInventoryReady_gateSafe | exact Hinv].
  - unfold onAvailableCommands. cbv zeta. apply onMaybeReady_gateSafe.
    unfold armInventoryReadyFallback, setState, gateSafe in *. inv_cases.
  - unfold onInventoryContent.
    destruct (ic_window_id packet) as [w|]; [|exact Hinv]. cbv zeta.
    match goal with
    | |- gateSafe (after (containerContent ?e ?a ?b ?x)) =>
        apply (gateSafe_frame _ _ _ _ (containerContent_effect e a b x));
          try reflexivity
    end.
    match goal with
    | |- gateSafe (keepPlayerSnapshot ?a ?b ?x) =>
        apply (gateSafe_frame _ _ _ _ (keepPlayerSnapshot_effect a b x));
          try reflexivity
    end.
    assert (H0 : forall c d n, gateSafe (inferContainer w c d n s)).
    { intros c d n.
      apply (gateSafe_frame _ _ _ _ (inferContainer_effect w c d n s));
        try reflexivity. exact Hinv. }
    unfold playerContentReady.
    destruct (negb _ && _); [apply markInventoryReady_gateSafe|]; apply H0.
  - unfold onInventorySlot.
    destruct (is_window_id packet) as [w|]; [|exact Hinv]. cbv zeta.
    assert (H1 : gateSafe (playerSlotReady w s)).
    { unfold playerSlotReady. break_match;
        [now apply markInventoryReady_gateSafe | exact Hinv]. }
    assert (H2 : gateSafe (keepPlayerSlot w (is_slot packet) (is_item packet)
                             (playerSlotReady w s))).
    { apply (gateSafe_frame _ _ _ _
               (keepPlayerSlot_effect w (is_slot packet) (is_item packet)
                  (playerSlotReady w s))); try reflexivity. exact H1. }
    pose proof (gateSafe_frame _ _ _ _
                  (containerSlot_effect env w (is_slot packet) (is_item packet)
                     (keepPlayerSlot w (is_slot packet) (is_item packet)
                        (playerSlotReady w s)))
                  eq_refl eq_refl eq_refl eq_refl eq_refl H2) as H3.
    destruct (containerSlot _ _ _ _ _) as [x|x]; cbn [andThen after] in *;
      [|exact H3].
    unfold rearmFallback. break_match;
      [now apply armInventoryReadyFallback_gateSafe | exact H3].
  - destruct (inventoryReadyFallbackTimer s); cbn [after]; [|exact Hinv].
    unfold fallbackTimerCallback. break_match;
      [exact Hinv | now apply markInventoryReady_gateSafe].
Qed.

(** X7. In every state a session can reach: the fallback timer is
    pending only while inventoryReady is unset; the state is READY only
    with both flags set; and it is WAIT_INVENTORY_READY only after
    available_commands. *)
Theorem ready_state_needs_both_flags :
  forall (evs : list (Env * Event)),
    let s := run evs init in
    (inventoryReadyFallbackTimer s = true -> inventoryReady s = false) /\
    (state s = READY ->
     availableCommandsSeen s = true /\ inventoryReady s = true) /\
    (state s = WAIT_INVENTORY_READY -> availableCommandsSeen s = true).
Proof.
  apply (reachable_ind gateSafe).
  - repeat split; discriminate.
  - intros env ev s. apply handle_gateSafe.
Qed.

(** *** What is handed to the transport *)

Lemma startsWith_slash (line : string) :
  startsWith (if startsWith line "/" then line else "/" ++ line) "/" = true.
Proof.
  destruct (startsWith line "/") eqn:E; [exact E|].
  simpl. destruct line; reflexivity.
Qed.

Ltac conj_tac :=
  repeat match goal with |- _ /\ _ => split end; auto.

Lemma sendCommand_cmdTraffic env line s :
  cmdTraffic s (after (sendCommand env line s)).
Proof.
  unfold sendCommand, send. cbv zeta. fields.
  destruct (client s) eqn:Hc; cbn [negb]; [|left; repeat split].
  set (c := {| command := if startsWith line "/" then line else "/" ++ line;
               origin_type := "player"; request_id := "";
               player_entity_id := 0; internal := false; version := "52" |}).
  assert (Hwf : wellFormedCommand c).
  { unfold wellFormedCommand, c. cbn [command origin_type request_id
      player_entity_id internal version].
    repeat split. apply startsWith_slash. }
  destruct (queue_ok env); cbn [negb after].
  - right. right. exists c. unfold setState. fields. conj_tac.
  - right. left. exists c. fields. conj_tac.
Qed.

Lemma clickSlot_clickTraffic env w i s :
  clickTraffic s (after (clickSlot env w i s)).
Proof.
  assert (Hsame : clickTraffic s s) by (left; split; auto).
  unfold clickSlot.
  destruct (clickSent s); [exact Hsame|].
  destruct (negb (state_is (state s) WAIT_CONTAINER_CONTENT)) eqn:Hst;
    [exact Hsame|].
  destruct (currentWindowItems s) as [items|]; [|exact Hsame].
  destruct (currentWindowId s) as [cur|]; [|exact Hsame].
  destruct (negb (same_window w cur)); [exact Hsame|].
  destruct (i <? 0) eqn:Hi; [exact Hsame|]. apply Z.ltb_ge in Hi.
  cbv zeta. destruct (js_get items i) as [it|]; [|exact Hsame].
  destruct (isEmptyItem (Some it)) eqn:He; [exact Hsame|].
  unfold send. destruct (negb (client s)); [exact Hsame|].
  set (tx := match findFirstEmptyPlayerSlot s with
             | Some d => buildMoveToInventoryTransaction w i (Z.of_nat d) it
             | None => buildNormalClickTransaction w i it
             end).
  assert (Hwf : wellFormedTx tx).
  { exists w, i, it. split; [exact Hi|]. split.
    - simpl in He. now apply Z.eqb_neq.
    - unfold tx. destruct (findFirstEmptyPlayerSlot s) as [d|];
        [right; exists d; reflexivity | left; reflexivity]. }
  destruct (queue_ok env); cbn [negb after].
  - right. right. exists tx. unfold setState. fields. conj_tac.
  - right. left. exists tx. fields. split; [reflexivity|]. split; [exact Hwf|].
    intros Hs. rewrite Hs in Hst. vm_compute in Hst. discriminate Hst.
Qed.

Lemma inStates_nil t : inStates t [] = false.
Proof. reflexivity. Qed.

Lemma clickTraffic_pre vs ts s s1 s2 :
  effect vs ts s s1 -> inVars V_outbox vs = false ->
  inStates CLICK_SENT ts = false ->
  clickTraffic s1 s2 -> clickTraffic s s2.
Proof.
  intros [C M] Hv Ht H. pose proof (C _ Hv) as Ho. cbn [unchanged] in Ho.
  unfold clickTraffic in *. rewrite <- Ho.
  destruct H as [[H1 H2] | H]; [|right; exact H].
  left. split; [exact H1|]. intros Hs. specialize (H2 Hs).
  destruct M as [M | M]; [congruence|]. rewrite H2 in M. congruence.
Qed.

Lemma clickTraffic_of_effect vs ts s s' :
  effect vs ts s s' -> inVars V_outbox vs = false ->
  inStates CLICK_SENT ts = false -> clickTraffic s s'.
Proof.
  intros H Hv Ht. eapply clickTraffic_pre; eauto. left. split; auto.
Qed.

Lemma clickTraffic_post vs s s1 s2 :
  clickTraffic s s1 -> effect vs [] s1 s2 -> inVars V_outbox vs = false ->
  clickTraffic s s2.
Proof.
  intros H [C M] Hv. pose proof (C _ Hv) as Ho. cbn [unchanged] in Ho.
  assert (Hs : state s2 = state s1).
  { destruct M as [M | M]; [exact M | discriminate M]. }
  unfold clickTraffic in *. rewrite Ho, Hs. exact H.
Qed.

Lemma maybeTakeDesiredSlot_clickTraffic env s :
  clickTraffic s (after (maybeTakeDesiredSlot env s)).
Proof.
  assert (Hsame : clickTraffic s s) by (left; split; auto).
  unfold maybeTakeDesiredSlot.
  destruct (currentWindowId s) as [cur|]; [|exact Hsame].
  destruct (_ <? 0); [exact Hsame|].
  destruct (currentWindowItems s); [|exact Hsame].
  destruct (_ >=? _); [exact Hsame|]. cbv zeta.
  match goal with
  | |- clickTraffic _ (after (clickSlot ?e ?w ?i ?x)) =>
      assert (H : effect [V_state] [WAIT_CONTAINER_CONTENT] s x)
        by (unfold setState; effect_tac);
      exact (clickTraffic_pre _ _ _ _ _ H eq_refl eq_refl
               (clickSlot_clickTraffic e w i x))
  end.
Qed.

Lemma tryTakeFromOpenContainer_clickTraffic env i s :
  clickTraffic s (after (tryTakeFromOpenContainer env i s)).
Proof.
  assert (Hsame : clickTraffic s s) by (left; split; auto).
  unfold tryTakeFromOpenContainer.
  destruct (currentWindowId s) as [cur|]; [|exact Hsame].
  destruct (i <? 0); [exact Hsame|].
  destruct (currentWindowItems s).
  - cbv zeta.
    match goal with
    | |- clickTraffic _ (after (clickSlot ?e ?w ?j ?x)) =>
        assert (H : effect [V_state; V_clickSent] [WAIT_CONTAINER_CONTENT] s x)
          by (unfold setState; effect_tac);
        exact (clickTraffic_pre _ _ _ _ _ H eq_refl eq_refl
                 (clickSlot_clickTraffic e w j x))
    end.
  - exact (clickTraffic_of_effect _ _ _ _
             (setState_effect WAIT_CONTAINER_CONTENT s) eq_refl eq_refl).
Qed.

Lemma containerContent_clickTraffic env w input s :
  clickTraffic s (after (containerContent env w input s)).
Proof.
  assert (Hsame : clickTraffic s s) by (left; split; auto).
  unfold containerContent.
  destruct (currentWindowId s) as [cur|]; [|exact Hsame].
  destruct (same_window w cur); [|exact Hsame]. cbv zeta.
  match goal with
  | |- clickTraffic _ (after (maybeTakeDesiredSlot ?e ?x)) =>
      assert (H : effect [V_currentWindowItems; V_state]
                    [WAIT_CONTAINER_CONTENT] s x)
        by (unfold setState; effect_tac);
      exact (clickTraffic_pre _ _ _ _ _ H eq_refl eq_refl
               (maybeTakeDesiredSlot_clickTraffic e x))
  end.
Qed.

Lemma onInventoryContent_clickTraffic env packet s :
  clickTraffic s (after (onInventoryContent env packet s)).
Proof.
  unfold onInventoryContent.
  destruct (ic_window_id packet) as [w|]; [|left; split; auto].
  cbv zeta.
  set (n := match ic_input packet with
            | Some input => Z.of_nat (List.length input)
            | None => 0
            end).
  pose proof (inferContainer_effect w (ic_container_id packet)
                (ic_dynamic_container_id packet) n s) as H1.
  set (s1 := inferContainer _ _ _ _ s) in *.
  pose proof (playerContentReady_effect w s1) as H2.
  set (s2 := playerContentReady w s1) in *.
  pose proof (keepPlayerSnapshot_effect w (ic_input packet) s2) as H3.
  set (s3 := keepPlayerSnapshot _ _ s2) in *.
  exact (clickTraffic_pre _ _ _ _ _
           (effect_trans _ _ _ _ _ _ _ (effect_trans _ _ _ _ _ _ _ H1 H2) H3)
           eq_refl eq_refl
           (containerContent_clickTraffic env w (ic_input packet) s3)).
Qed.

Lemma containerSlot_clickTraffic env w i item s :
  clickTraffic s (after (containerSlot env w i item s)).
Proof.
  assert (Hsame : clickTraffic s s) by (left; split; auto).
  unfold containerSlot.
  destruct (currentWindowId s) as [cur|]; [|exact Hsame].
  destruct i as [i|]; [|exact Hsame].
  destruct (same_window w cur); [|exact Hsame]. cbv zeta.
  match goal with
  | |- clickTraffic _ (after (if _ then maybeTakeDesiredSlot ?e ?x else _)) =>
      assert (H : effect [V_currentWindowItems] [] s x) by effect_tac;
      break_match;
        [ exact (clickTraffic_pre _ _ _ _ _ H eq_refl eq_refl
                   (maybeTakeDesiredSlot_clickTraffic e x))
        | exact (clickTraffic_of_effect _ _ _ _ H eq_refl eq_refl) ]
  end.
Qed.

Lemma onInventorySlot_clickTraffic env packet s :
  clickTraffic s (after (onInventorySlot env packet s)).
Proof.
  unfold onInventorySlot.
  destruct (is_window_id packet) as [w|]; [|left; split; auto].
  cbv zeta.
  pose proof (playerSlotReady_effect w s) as H1.
  set (s1 := playerSlotReady w s) in *.
  pose proof (keepPlayerSlot_effect w (is_slot packet) (is_item packet) s1) as H2.
  set (s2 := keepPlayerSlot _ _ _ s1) in *.
  pose proof (containerSlot_clickTraffic env w (is_slot packet) (is_item packet) s2)
    as H3.
  pose proof (clickTraffic_pre _ _ _ _ _ (effect_trans _ _ _ _ _ _ _ H1 H2)
                eq_refl eq_refl H3) as H4.
  destruct (containerSlot _ _ _ _ s2) as [x|x]; cbn [andThen after] in *.
  - exact (clickTraffic_post _ _ _ _ H4 (rearmFallback_effect x) eq_refl).
  - exact H4.
Qed.

Lemma onLineTake_clickTraffic env arg s :
  clickTraffic s (after (onLineTake env arg s)).
Proof.
  unfold onLineTake. cbv zeta.
  destruct (_ <? 0); [left; split; auto|].
  match goal with
  | |- clickTraffic _ (after (tryTakeFromOpenContainer ?e ?n ?x)) =>
      assert (H : effect [V_desiredTakeSlotIndex] [] s x) by effect_tac;
      exact (clickTraffic_pre _ _ _ _ _ H eq_refl eq_refl
               (tryTakeFromOpenContainer_clickTraffic e n x))
  end.
Qed.

Lemma cmdTraffic_pre vs ts s s1 s2 :
  effect vs ts s s1 ->
  forallb (fun v => negb (inVars v vs))
    [V_outbox; V_commandSentCount; V_commandSent; V_client] = true ->
  cmdTraffic s1 s2 -> cmdTraffic s s2.
Proof.
  intros [C M] Hv H. cbn [forallb] in Hv.
  repeat (apply andb_prop in Hv; destruct Hv as [?Hv Hv]).
  repeat match goal with
  | X : negb (inVars ?v vs) = true |- _ =>
      apply negb_true_iff in X; apply C in X; cbn [unchanged] in X
  end.
  unfold cmdTraffic in *. rewrite <- Hv0, <- Hv1, <- Hv2, <- Hv3. exact H.
Qed.

Lemma cmdTraffic_post vs s s1 s2 :
  cmdTraffic s s1 -> effect vs [] s1 s2 ->
  forallb (fun v => negb (inVars v vs))
    [V_outbox; V_commandSentCount; V_commandSent] = true ->
  cmdTraffic s s2.
Proof.
  intros H [C M] Hv. cbn [forallb] in Hv.
  repeat (apply andb_prop in Hv; destruct Hv as [?Hv Hv]).
  repeat match goal with
  | X : negb (inVars ?v vs) = true |- _ =>
      apply negb_true_iff in X; apply C in X; cbn [unchanged] in X
  end.
  assert (Hs : state s2 = state s1).
  { destruct M as [M | M]; [exact M | discriminate M]. }
  unfold cmdTraffic in *. rewrite Hv0, Hv1, Hv2, Hs. exact H.
Qed.

Lemma readyTimerCallback_cmdTraffic env s :
  cmdTraffic s (after (readyTimerCallback env s)).
Proof.
  unfold readyTimerCallback.
  destruct (_ || _); [left; auto|].
  pose proof (sendCommand_cmdTraffic env TARGET_COMMAND s) as H.
  destruct (sendCommand env TARGET_COMMAND s) as [x|x]; cbn [andThen after] in *;
    [|exact H].
  assert (H1 : effect [V_autoCommandSent] [] x (set_autoCommandSent true x))
    by effect_tac.
  exact (cmdTraffic_post _ _ _ _ H H1 eq_refl).
Qed.

Lemma onLineCommand_cmdTraffic env slotArg line s :
  cmdTraffic s (after (onLineCommand env slotArg line s)).
Proof.
  unfold onLineCommand. cbv zeta.
  match goal with
  | |- cmdTraffic _ (after (if canSendCommands ?x then _ else _)) =>
      assert (H : effect [V_desiredTakeSlotIndex] [] s x) by effect_tac;
      destruct (canSendCommands x);
        [ exact (cmdTraffic_pre _ _ _ _ _ H eq_refl
                   (sendCommand_cmdTraffic env line x))
        | cbn [after]; destruct H as [C _]; left;
          repeat split; [apply (C V_outbox) | apply (C V_commandSentCount)
                         | apply (C V_commandSent)]; reflexivity ]
  end.
Qed.

(** What one turn of the event loop hands to the transport. *)
Lemma handle_traffic env ev s :
  (clickEvent ev = true /\ clickTraffic s (after (handle env ev s))) \/
  (commandEvent ev = true /\ cmdTraffic s (after (handle env ev s))) \/
  (clickEvent ev = false /\ commandEvent ev = false /\
   outbox (after (handle env ev s)) = outbox s).
Proof.
  pose proof (handle_effect env ev s) as [C _].
  destruct ev;
    try (right; right; split; [reflexivity|]; split; [reflexivity|];
         apply (C V_outbox); reflexivity).
  - left. split; [reflexivity|]. apply onInventoryContent_clickTraffic.
  - left. split; [reflexivity|]. apply onInventorySlot_clickTraffic.
  - right. left. split; [reflexivity|]. cbn [handle].
    destruct (readyTimers s) as [|n]; [left; auto|].
    assert (H : effect [V_readyTimers] [] s (set_readyTimers n s)) by effect_tac.
    exact (cmdTraffic_pre _ _ _ _ _ H eq_refl
             (readyTimerCallback_cmdTraffic env _)).
  - left. split; [reflexivity|]. apply onLineTake_clickTraffic.
  - right. left. split; [reflexivity|]. apply onLineCommand_cmdTraffic.
Qed.

(** X8. Every packet a session ever hands to the transport is a command
    request as sendCommand builds it (the command starts with a slash,
    the origin is the player, the version is the string 52) or a slot
    transaction for an item that is not empty at a slot that is not
    negative, in one of the two forms of the builders. *)
Theorem outbox_well_formed :
  forall (evs : list (Env * Event)),
    Forall wellFormedOut (outbox (run evs init)).
Proof.
  apply (reachable_ind (fun s => Forall wellFormedOut (outbox s))).
  - constructor.
  - intros env ev s IH.
    destruct (handle_traffic env ev s) as [[_ H] | [[_ H] | [_ [_ H]]]].
    + destruct H as [[H _] | [[tx [H [Hwf _]]] | [tx [H [Hwf _]]]]];
        rewrite H; [exact IH | |];
        (apply Forall_app; split; [exact IH|]; constructor; [exact Hwf|constructor]).
    + destruct H as [[H _] | [[c [H [Hwf _]]] | [c [H [Hwf _]]]]];
        rewrite H; [exact IH | |];
        (apply Forall_app; split; [exact IH|]; constructor; [exact Hwf|constructor]).
    + rewrite H. exact IH.
Qed.

Lemma cmdQueued_snoc s s' o :
  outbox s' = app (outbox s) [o] ->
  cmdQueued s' = (cmdQueued s + (if isCommand o && queued o then 1 else 0))%nat.
Proof.
  intros H. unfold cmdQueued, cmdAttempts. rewrite H, !filter_app, length_app.
  cbn [filter]. destruct (isCommand o); cbn [filter andb];
    [destruct (queued o)|]; reflexivity.
Qed.

Lemma txQueued_snoc s s' o :
  outbox s' = app (outbox s) [o] ->
  txQueued s' = (txQueued s + (if isTransaction o && queued o then 1 else 0))%nat.
Proof.
  intros H. unfold txQueued, txAttempts. rewrite H, !filter_app, length_app.
  cbn [filter]. destruct (isTransaction o); cbn [filter andb];
    [destruct (queued o)|]; reflexivity.
Qed.

Lemma cmdQueued_same s s' : outbox s' = outbox s -> cmdQueued s' = cmdQueued s.
Proof. intros H. unfold cmdQueued, cmdAttempts. now rewrite H. Qed.

Lemma txQueued_same s s' : outbox s' = outbox s -> txQueued s' = txQueued s.
Proof. intros H. unfold txQueued, txAttempts. now rewrite H. Qed.

Lemma clickTraffic_cmdQueued s s' :
  clickTraffic s s' -> cmdAttempts s' = cmdAttempts s.
Proof.
  unfold cmdAttempts.
  intros [[H _] | [[tx [H _]] | [tx [H _]]]]; rewrite H; [reflexivity | |];
    rewrite filter_app; cbn; apply app_nil_r.
Qed.

(** The variables of one connection after its close. *)
Lemma onClose_resets env s :
  commandSent (onClose env s) = false /\
  commandSentCount (onClose env s) = 0%nat /\
  autoCommandSent (onClose env s) = false /\
  currentWindowId (onClose env s) = None /\
  currentWindowItems (onClose env s) = None /\
  currentWindowType (onClose env s) = JsNull /\
  client (onClose env s) = false /\
  outbox (onClose env s) = outbox s /\
  state (onClose env s) = CONNECTING.
Proof.
  unfold onClose, scheduleReconnect, setState. cbv zeta.
  repeat break_match; fields; repeat split.
Qed.

Lemma handle_counters env ev s :
  closeEvent ev = false -> commandEvent ev = false ->
  commandSent (after (handle env ev s)) = commandSent s /\
  commandSentCount (after (handle env ev s)) = commandSentCount s.
Proof.
  intros H1 H2. pose proof (handle_effect env ev s) as [C _].
  destruct ev; try discriminate H1; try discriminate H2;
    (split; [apply (C V_commandSent) | apply (C V_commandSentCount)]; reflexivity).
Qed.

Lemma handle_counterInvariant env ev s :
  counterInvariant s -> counterInvariant (after (handle env ev s)).
Proof.
  intros [I1 I2]. unfold counterInvariant.
  destruct (handle_traffic env ev s) as [[Hev H] | [[Hev H] | [Hv1 [Hv2 H]]]].
  - destruct (handle_counters env ev s) as [E1 E2];
      [destruct ev; try discriminate Hev; reflexivity
      |destruct ev; try discriminate Hev; reflexivity|].
    rewrite E1, E2. split; [exact I1|].
    unfold cmdQueued. rewrite (clickTraffic_cmdQueued _ _ H). exact I2.
  - destruct H as [[H [E1 E2]] | [[c [H [_ [_ [E1 E2]]]]] | [c [H [_ [_ [E1 [E2 _]]]]]]]];
      rewrite E1, E2.
    + rewrite (cmdQueued_same _ _ H). now split.
    + rewrite (cmdQueued_snoc _ _ _ H). split; [exact I1|]. lia.
    + rewrite (cmdQueued_snoc _ _ _ H). cbn [isCommand pkt queued andb].
      split; [split; [lia | reflexivity] | lia].
  - rewrite (cmdQueued_same _ _ H).
    destruct (closeEvent ev) eqn:Hc.
    + destruct ev; try discriminate Hc. cbn [handle after].
      destruct (onClose_resets env s) as [E1 [E2 _]]. rewrite E1, E2.
      split; [split; [discriminate | lia] | lia].
    + destruct (handle_counters env ev s Hc Hv2) as [E1 E2].
      rewrite E1, E2. now split.
Qed.

(** X9. In every state a session can reach, commandSent is set exactly
    while commandSentCount is positive, and commandSentCount is at most
    the number of command requests the transport has accepted: a command
    is counted only once it was queued. *)
Theorem command_counter_tracks_accepted :
  forall (evs : list (Env * Event)),
    let s := run evs init in
    (commandSent s = true <-> (0 < commandSentCount s)%nat) /\
    (commandSentCount s <= cmdQueued s)%nat.
Proof.
  apply (reachable_ind counterInvariant).
  - split; [split; [discriminate | cbn; lia] | cbn; lia].
  - intros env ev s. apply handle_counterInvariant.
Qed.

Lemma onContainerClose_done w s :
  state (onContainerClose w s) = DONE ->
  state s = DONE \/ state s = CLICK_SENT.
Proof.
  unfold onContainerClose, setState. cbv zeta.
  repeat break_match; fields; auto.
  match goal with
  | H : state_is _ _ = true |- _ => apply state_is_true in H; auto
  end.
Qed.

Lemma handle_txQueued_mono env ev s :
  (txQueued s <= txQueued (after (handle env ev s)))%nat.
Proof.
  destruct (handle_traffic env ev s) as [[_ H] | [[_ H] | [_ [_ H]]]].
  - destruct H as [[H _] | [[tx [H _]] | [tx [H _]]]];
      [rewrite (txQueued_same _ _ H) | rewrite (txQueued_snoc _ _ _ H)
      | rewrite (txQueued_snoc _ _ _ H)]; lia.
  - destruct H as [[H _] | [[tx [H _]] | [tx [H _]]]];
      [rewrite (txQueued_same _ _ H) | rewrite (txQueued_snoc _ _ _ H)
      | rewrite (txQueued_snoc _ _ _ H)]; lia.
  - rewrite (txQueued_same _ _ H). lia.
Qed.

Lemma handle_clickedInvariant env ev s :
  clickedInvariant s -> clickedInvariant (after (handle env ev s)).
Proof.
  intros I. unfold clickedInvariant in *.
  pose proof (handle_txQueued_mono env ev s) as Hmono.
  pose proof (handle_effect env ev s) as [_ M].
  intros Hst.
  assert (Hold : state s = CLICK_SENT \/ state s = DONE ->
                 (1 <= txQueued (after (handle env ev s)))%nat).
  { intros K. specialize (I K). lia. }
  destruct (handle_traffic env ev s) as [[Hev H] | [[Hev H] | [Hv1 [Hv2 H]]]].
  - destruct Hst as [Hst | Hst].
    + destruct H as [[H K] | [[tx [H [_ K]]] | [tx [H _]]]].
      * apply Hold. left. exact (K Hst).
      * contradiction.
      * rewrite (txQueued_snoc _ _ _ H). cbn [isTransaction pkt queued andb]. lia.
    + apply Hold. right. destruct M as [M | M]; [congruence|].
      rewrite Hst in M. destruct ev; discriminate.
  - apply Hold. destruct M as [M | M]; [rewrite <- M; exact Hst|].
    destruct Hst as [Hst | Hst]; rewrite Hst in M; destruct ev; discriminate.
  - destruct Hst as [Hst | Hst].
    + apply Hold. left. destruct M as [M | M]; [congruence|].
      rewrite Hst in M. destruct ev; discriminate.
    + apply Hold. destruct M as [M | M]; [right; congruence|].
      rewrite Hst in M. destruct ev; try discriminate.
      cbn [handle after] in Hst.
      destruct (onContainerClose_done _ _ Hst); auto.
Qed.

(** X10. In every state a session can reach, the state is CLICK_SENT or
    DONE only if the transport has accepted a slot transaction: the
    script never reports a click it did not send. *)
Theorem click_reported_only_after_transaction :
  forall (evs : list (Env * Event)),
    state (run evs init) = CLICK_SENT \/ state (run evs init) = DONE ->
    (1 <= txQueued (run evs init))%nat.
Proof.
  apply (reachable_ind clickedInvariant).
  - intros [H | H]; discriminate H.
  - intros env ev s. apply handle_clickedInvariant.
Qed.

(** A container opens, its content arrives with an item at the desired
    slot, the click is accepted and the container closes. *)
Lemma click_reported_only_after_transaction_witness :
  let e := mkEnv true 17 in
  let item := Some (mkItem 5 (Some 1) None None) in
  let evs := [(e, EvLineConnect); (e, EvLineSlot 1);
              (e, EvContainerOpen (WNum 7) (JsString "container"));
              (e, EvInventoryContent
                    (mkInventoryContent (Some (WNum 7)) JsUndefined JsUndefined
                       (Some [item; item])));
              (e, EvContainerClose (WNum 7))] in
  state (run evs init) = DONE /\ (1 <= txQueued (run evs init))%nat.
Proof.
  intros e item evs.
  assert (H : state (run evs init) = DONE) by (vm_compute; reflexivity).
  split; [exact H|].
  exact (click_reported_only_after_transaction evs (or_intror H)).
Defined.

Lemma reachable_gateSafe (evs : list (Env * Event)) : gateSafe (run evs init).
Proof.
  apply (reachable_ind gateSafe).
  - repeat split; discriminate.
  - intros env ev s. apply handle_gateSafe.
Qed.

Lemma cmdAttempts_same s s' :
  outbox s' = outbox s -> cmdAttempts s' = cmdAttempts s.
Proof. intros H. unfold cmdAttempts. now rewrite H. Qed.

Lemma handle_command_guard env ev s :
  gateSafe s ->
  cmdAttempts (after (handle env ev s)) <> cmdAttempts s ->
  client s = true /\ availableCommandsSeen s = true /\
  (ev = EvReadyTimer ->
   state s = READY /\ inventoryReady s = true /\ autoCommandSent s = false).
Proof.
  intros [_ [G _]] Hne.
  destruct (handle_traffic env ev s) as [[Hev H] | [[Hev H] | [_ [_ H]]]].
  - contradiction Hne. exact (clickTraffic_cmdQueued _ _ H).
  - assert (Hc : client s = true).
    { destruct H as [[H _] | [[c [_ [_ [H _]]]] | [c [_ [_ [H _]]]]]];
        [|exact H|exact H].
      contradiction Hne. exact (cmdAttempts_same _ _ H). }
    destruct ev; try discriminate Hev; cbn [handle] in Hne.
    + destruct (readyTimers s) as [|n];
        [contradiction Hne; reflexivity|].
      unfold readyTimerCallback in Hne. fields_in Hne.
      destruct (state_is (state s) READY) eqn:Hs; cbn [negb orb] in Hne;
        [|contradiction Hne; reflexivity].
      destruct (autoCommandSent s) eqn:Ha;
        [contradiction Hne; reflexivity|].
      apply state_is_true in Hs. destruct (G Hs) as [G1 G2]. auto.
    + unfold onLineCommand in Hne. cbv zeta in Hne.
      match type of Hne with
      | context [canSendCommands ?x] =>
          assert (E : client x = client s /\
                      availableCommandsSeen x = availableCommandsSeen s /\
                      outbox x = outbox s)
            by (repeat break_match; fields; auto);
          destruct E as [E1 [E2 E3]];
          destruct (canSendCommands x) eqn:Hcan;
            [|contradiction Hne; cbn [after]; exact (cmdAttempts_same _ _ E3)];
          unfold canSendCommands in Hcan; rewrite E1, E2 in Hcan;
          apply andb_prop in Hcan; destruct Hcan as [K1 K2]
      end.
      split; [exact K1|]. split; [exact K2|]. intros E; discriminate E.
  - contradiction Hne. exact (cmdAttempts_same _ _ H).
Qed.

(** X11. In a session, an event hands a command request to the transport
    only while there is a client and available_commands has been seen
    on this connection; the 600 ms timer does so only in READY, with
    inventoryReady set and before the automatic command was marked as
    sent. *)
Theorem command_only_when_available :
  forall (evs : list (Env * Event)) (env : Env) (ev : Event),
    cmdAttempts (step (run evs init) (env, ev)) <> cmdAttempts (run evs init) ->
    client (run evs init) = true /\
    availableCommandsSeen (run evs init) = true /\
    (ev = EvReadyTimer ->
     state (run evs init) = READY /\ inventoryReady (run evs init) = true /\
     autoCommandSent (run evs init) = false).
Proof.
  intros evs env ev. apply handle_command_guard. apply reachable_gateSafe.
Qed.

Lemma command_only_when_available_witness :
  let e := mkEnv true 17 in
  let evs := [(e, EvLineConnect); (e, EvSpawn); (e, EvAvailableCommands);
              (e, EvStartGame)] in
  availableCommandsSeen (run evs init) = true /\
  inventoryReady (run evs init) = true.
Proof.
  intros e evs.
  assert (Hne : cmdAttempts (step (run evs init) (e, EvReadyTimer)) <>
                cmdAttempts (run evs init)) by (vm_compute; discriminate).
  destruct (command_only_when_available evs e EvReadyTimer Hne) as [_ [H1 H2]].
  split; [exact H1|]. exact (proj1 (proj2 (H2 eq_refl))).
Defined.

Lemma sendCommand_returns env line s :
  client s = true -> exists x, sendCommand env line s = Ok x.
Proof.
  intros Hc. unfold sendCommand, send. cbv zeta. fields. rewrite Hc.
  cbn [negb]. destruct (queue_ok env); cbn [negb]; eexists; reflexivity.
Qed.

Lemma handle_keeps_autoCommandSent env ev s :
  closeEvent ev = false -> autoCommandSent s = true ->
  autoCommandSent (after (handle env ev s)) = true /\
  (ev = EvReadyTimer -> outbox (after (handle env ev s)) = outbox s).
Proof.
  intros Hev Ha. pose proof (handle_effect env ev s) as [C _].
  destruct ev; try discriminate Hev;
    try (split; [rewrite <- Ha; apply (C V_autoCommandSent); reflexivity
                |intros E; discriminate E]).
  cbn [handle]. destruct (readyTimers s) as [|n]; [auto|].
  unfold readyTimerCallback. fields. rewrite Ha, orb_true_r. cbn [after].
  fields. auto.
Qed.

Lemma run_keeps_autoCommandSent evs :
  forall s,
    forallb (fun ev => negb (closeEvent (snd ev))) evs = true ->
    autoCommandSent s = true -> autoCommandSent (run evs s) = true.
Proof.
  induction evs as [|[env ev] evs IH]; intros s Hall Ha; [exact Ha|].
  simpl in Hall. apply andb_true_iff in Hall. destruct Hall as [Hev Hall].
  apply negb_true_iff in Hev.
  unfold run in *. simpl. apply (IH _ Hall). unfold step. cbn [fst snd].
  exact (proj1 (handle_keeps_autoCommandSent env ev s Hev Ha)).
Qed.

(** X12. The automatic command is tried once per connection.  When the
    600 ms timer runs out in READY with a client, autoCommandSent is set
    afterwards whether or not the transport accepted the command, and
    until the connection closes no later run of the timer hands anything
    to the transport: a refused automatic command is not retried. *)
Theorem auto_command_never_retried :
  forall (env env' : Env) (evs : list (Env * Event)) (s : St),
    client s = true -> (0 < readyTimers s)%nat -> state s = READY ->
    forallb (fun ev => negb (closeEvent (snd ev))) evs = true ->
    autoCommandSent (step s (env, EvReadyTimer)) = true /\
    outbox (step (run evs (step s (env, EvReadyTimer))) (env', EvReadyTimer)) =
      outbox (run evs (step s (env, EvReadyTimer))).
Proof.
  intros env env' evs s Hc Hn Hs Hall.
  assert (H1 : autoCommandSent (step s (env, EvReadyTimer)) = true).
  { unfold step. cbn [fst snd handle].
    destruct (readyTimers s) as [|n]; [lia|].
    unfold readyTimerCallback. fields. rewrite Hs.
    destruct (autoCommandSent s) eqn:Ha; cbn [negb orb after];
      [rewrite orb_true_r; cbn [after]; fields; exact Ha|].
    replace (state_is READY READY) with true by reflexivity.
    cbn [negb orb].
    destruct (sendCommand_returns env TARGET_COMMAND (set_readyTimers n s))
      as [x Hx]; [fields; exact Hc|].
    rewrite Hx. cbn [andThen after]. fields. reflexivity. }
  split; [exact H1|].
  pose proof (run_keeps_autoCommandSent evs _ Hall H1) as H2.
  unfold step at 1. cbn [fst snd].
  exact (proj2 (handle_keeps_autoCommandSent env' EvReadyTimer _ eq_refl H2)
           eq_refl).
Qed.

(** The transport refuses the automatic command; the flags arrive again
    and the timer runs again, and nothing more is tried. *)
Lemma auto_command_never_retried_witness :
  let refuse := mkEnv false 17 in
  let e := mkEnv true 17 in
  let s := run [(e, EvLineConnect); (e, EvSpawn); (e, EvAvailableCommands);
                (e, EvStartGame)] init in
  let evs := [(e, EvStartGame); (e, EvAvailableCommands)] in
  cmdQueued (step s (refuse, EvReadyTimer)) = 0%nat /\
  outbox (step (run evs (step s (refuse, EvReadyTimer))) (e, EvReadyTimer)) =
    outbox (run evs (step s (refuse, EvReadyTimer))).
Proof.
  intros refuse e s evs.
  assert (Hc : client s = true) by (vm_compute; reflexivity).
  assert (Hn : (0 < readyTimers s)%nat) by (vm_compute; lia).
  assert (Hs : state s = READY) by (vm_compute; reflexivity).
  split; [vm_compute; reflexivity|].
  exact (proj2 (auto_command_never_retried refuse e evs s Hc Hn Hs eq_refl)).
Defined.

(** *** The tracked window *)

Lemma windowInvariant_frame vs ts s s' :
  effect vs ts s s' ->
  forallb (fun v => negb (inVars v vs))
    [V_currentWindowId; V_currentWindowItems; V_currentWindowType] = true ->
  windowInvariant s -> windowInvariant s'.
Proof.
  intros [C _] Hv. cbn [forallb] in Hv.
  repeat (apply andb_prop in Hv; destruct Hv as [?Hv Hv]).
  repeat match goal with
  | X : negb (inVars ?v vs) = true |- _ =>
      apply negb_true_iff in X; apply C in X; cbn [unchanged] in X
  end.
  unfold windowInvariant. now rewrite Hv0, Hv1, Hv2.
Qed.

(** A window is tracked afterwards, whatever else was assigned. *)
Lemma windowInvariant_tracked vs ts s s' w :
  effect vs ts s s' -> inVars V_currentWindowId vs = false ->
  currentWindowId s = Some w -> windowInvariant s'.
Proof.
  intros [C _] Hv Hw. pose proof (C _ Hv) as E. cbn [unchanged] in E.
  unfold windowInvariant. rewrite E, Hw. discriminate.
Qed.

Lemma sendCommand_windowInvariant env line s :
  windowInvariant (after (sendCommand env line s)).
Proof.
  unfold windowInvariant, sendCommand, send, setState. cbv zeta.
  repeat break_match; fields; auto.
Qed.

Lemma inferContainer_windowInvariant w c d n s :
  windowInvariant s -> windowInvariant (inferContainer w c d n s).
Proof.
  intros H. unfold inferContainer, setState. cbv zeta.
  repeat break_match; try exact H;
    unfold windowInvariant; fields; discriminate.
Qed.

Lemma containerContent_windowInvariant env w input s :
  windowInvariant s -> windowInvariant (after (containerContent env w input s)).
Proof.
  intros H. unfold containerContent.
  destruct (currentWindowId s) as [cur|] eqn:Hw; [|exact H].
  destruct (same_window w cur); [|exact H]. cbv zeta.
  match goal with
  | |- windowInvariant (after (maybeTakeDesiredSlot ?e ?x)) =>
      apply (windowInvariant_tracked _ _ _ _ cur
               (maybeTakeDesiredSlot_effect e x) eq_refl)
  end.
  break_match; unfold setState; fields; exact Hw.
Qed.

Lemma containerSlot_windowInvariant env w i item s :
  windowInvariant s ->
  windowInvariant (after (containerSlot env w i item s)).
Proof.
  intros H. unfold containerSlot.
  destruct (currentWindowId s) as [cur|] eqn:Hw; [|exact H].
  destruct i as [i|]; [|exact H].
  destruct (same_window w cur); [|exact H]. cbv zeta.
  break_match.
  - match goal with
    | |- windowInvariant (after (maybeTakeDesiredSlot ?e ?x)) =>
        apply (windowInvariant_tracked _ _ _ _ cur
                 (maybeTakeDesiredSlot_effect e x) eq_refl)
    end.
    fields. exact Hw.
  - cbn [after]. unfold windowInvariant. fields. rewrite Hw. discriminate.
Qed.

Lemma handle_windowInvariant env ev s :
  windowInvariant s -> windowInvariant (after (handle env ev s)).
Proof.
  intros Hinv.
  destruct ev;
    try (apply (windowInvariant_frame _ _ _ _ (handle_effect env _ s));
         [reflexivity | exact Hinv]);
    cbn [handle].
  - intros _. destruct (onClose_resets env s) as [_ [_ [_ [_ [H1 [H2 _]]]]]].
    cbn [after]. auto.
  - unfold onInventoryContent.
    destruct (ic_window_id packet) as [w|]; [|exact Hinv]. cbv zeta.
    apply containerContent_windowInvariant.
    match goal with
    | |- windowInvariant (keepPlayerSnapshot ?a ?b ?x) =>
        apply (windowInvariant_frame _ _ _ _ (keepPlayerSnapshot_effect a b x));
          [reflexivity|]
    end.
    match goal with
    | |- windowInvariant (playerContentReady ?a ?x) =>
        apply (windowInvariant_frame _ _ _ _ (playerContentReady_effect a x));
          [reflexivity|]
    end.
    now apply inferContainer_windowInvariant.
  - unfold onInventorySlot.
    destruct (is_window_id packet) as [w|]; [|exact Hinv]. cbv zeta.
    assert (H2 : windowInvariant
                   (keepPlayerSlot w (is_slot packet) (is_item packet)
                      (playerSlotReady w s))).
    { apply (windowInvariant_frame _ _ _ _
               (keepPlayerSlot_effect w (is_slot packet) (is_item packet)
                  (playerSlotReady w s))); [reflexivity|].
      apply (windowInvariant_frame _ _ _ _ (playerSlotReady_effect w s));
        [reflexivity | exact Hinv]. }
    pose proof (containerSlot_windowInvariant env w (is_slot packet)
                  (is_item packet) _ H2) as H3.
    destruct (containerSlot _ _ _ _ _) as [x|x]; cbn [andThen after] in *;
      [|exact H3].
    exact (windowInvariant_frame _ _ _ _ (rearmFallback_effect x) eq_refl H3).
  - cbn [after]. unfold onContainerOpen, setState, windowInvariant. cbv zeta.
    fields. discriminate.
  - cbn [after]. unfold onContainerClose, setState. cbv zeta.
    repeat break_match; try exact Hinv; unfold windowInvariant; fields; auto.
  - destruct (readyTimers s) as [|n]; [exact Hinv|].
    unfold readyTimerCallback.
    break_match.
    + cbn [after]. unfold windowInvariant in *. fields. exact Hinv.
    + pose proof (sendCommand_windowInvariant env TARGET_COMMAND
                    (set_readyTimers n s)) as H.
      destruct (sendCommand _ _ _) as [x|x]; cbn [andThen after] in *;
        [|exact H].
      unfold windowInvariant in *. fields. exact H.
  - unfold onLineCommand. cbv zeta.
    match goal with
    | |- windowInvariant (after (if canSendCommands ?x then _ else _)) =>
        destruct (canSendCommands x); [apply sendCommand_windowInvariant|]
    end.
    cbn [after]. unfold windowInvariant in *.
    repeat break_match; fields; exact Hinv.
Qed.

(** X13. In every state a session can reach, while no window is tracked
    there are no window items and no window type either: what a closed
    or replaced window held is never kept. *)
Theorem no_items_without_window :
  forall (evs : list (Env * Event)),
    currentWindowId (run evs init) = None ->
    currentWindowItems (run evs init) = None /\
    currentWindowType (run evs init) = JsNull.
Proof.
  apply (reachable_ind windowInvariant).
  - intros _. split; reflexivity.
  - intros env ev s. apply handle_windowInvariant.
Qed.

Lemma no_items_without_window_witness :
  let e := mkEnv true 17 in
  let item := Some (mkItem 5 (Some 1) None None) in
  let evs := [(e, EvLineConnect);
              (e, EvContainerOpen (WNum 7) (JsString "container"));
              (e, EvInventoryContent
                    (mkInventoryContent (Some (WNum 7)) JsUndefined JsUndefined
                       (Some [item; item])));
              (e, EvContainerClose (WNum 7))] in
  currentWindowItems (run evs init) = None.
Proof.
  intros e item evs.
  assert (H : currentWindowId (run evs init) = None) by (vm_compute; reflexivity).
  exact (proj1 (no_items_without_window evs H)).
Defined.

(** *** Never left offline *)

Lemma offlineInvariant_frame vs ts s s' :
  effect vs ts s s' ->
  inVars V_client vs = false -> inVars V_wantConnected vs = false ->
  inVars V_reconnectTimer vs = false ->
  offlineInvariant s -> offlineInvariant s'.
Proof.
  intros [C _] H1 H2 H3 Hinv. unfold offlineInvariant.
  pose proof (C V_client H1) as E1. pose proof (C V_wantConnected H2) as E2.
  pose proof (C V_reconnectTimer H3) as E3. cbn [unchanged] in E1, E2, E3.
  now rewrite E1, E2, E3.
Qed.

Ltac offline_cases :=
  unfold offlineInvariant, onError, onClose, reconnectTimerCallback,
    connectServer, disconnectServer, clearReconnectTimer, scheduleReconnect,
    setState in *;
  cbv zeta; fields;
  match goal with
  | s : St |- _ =>
      destruct (wantConnected s) eqn:?; destruct (client s) eqn:?;
      destruct (reconnectTimer s) eqn:?
  end;
  repeat (fields; break_match); fields; intros;
  first [ congruence
        | match goal with
          | H : _ -> _ -> _ <> None |- _ => exfalso; apply H; congruence
          end ].

Lemma handle_offlineInvariant env ev s :
  offlineInvariant s -> offlineInvariant (after (handle env ev s)).
Proof.
  intros Hinv.
  destruct ev;
    try (apply (offlineInvariant_frame _ _ _ _ (handle_effect env _ s));
         [reflexivity | reflexivity | reflexivity | exact Hinv]);
    cbn [handle after].
  - offline_cases.
  - offline_cases.
  - destruct (reconnectTimer s) eqn:E; cbn [after]; [|exact Hinv].
    offline_cases.
  - offline_cases.
  - offline_cases.
Qed.

(** X14. A session is never left offline for good: in every state it
    can reach, while the user wants the connection and there is no
    client, a reconnect is pending. *)
Theorem reconnect_pending_while_offline :
  forall (evs : list (Env * Event)),
    wantConnected (run evs init) = true -> client (run evs init) = false ->
    reconnectTimer (run evs init) <> None.
Proof.
  apply (reachable_ind offlineInvariant).
  - intros H. discriminate H.
  - intros env ev s. apply handle_offlineInvariant.
Qed.

Lemma reconnect_pending_while_offline_witness :
  let e := mkEnv true 17 in
  let evs := [(e, EvLineConnect); (e, EvKick (Some "already online"));
              (e, EvClose); (e, EvError "connect timed out")] in
  reconnectTimer (run evs init) <> None.
Proof.
  intros e evs.
  assert (Hw : wantConnected (run evs init) = true) by (vm_compute; reflexivity).
  assert (Hc : client (run evs init) = false) by (vm_compute; reflexivity).
  exact (reconnect_pending_while_offline evs Hw Hc).
Defined.

End BotMoreFacts.

(* ===================================================================== *)
(** ** Further properties of StateMachine *)
(* ===================================================================== *)

Module FsmMoreFacts.
Import Js Fsm FsmSpec FsmMore FsmFacts.

Lemma transition_state (t : ClientState) (reason : string) (sm : StateMachine) :
  state (snd (transition t reason sm)) =
    if canTransition t sm then t else state sm.
Proof. unfold transition. destruct (canTransition t sm); reflexivity. Qed.

Lemma transition_moves (t : ClientState) (reason : string) (sm : StateMachine) :
  state (snd (transition t reason sm)) = state sm \/
  In (state (snd (transition t reason sm))) (transitions (state sm)).
Proof.
  rewrite transition_state. destruct (canTransition t sm) eqn:E; [|now left].
  right. now apply canTransition_In.
Qed.

Lemma checkReadyState_moves (sm : StateMachine) :
  state (checkReadyState sm) = state sm \/
  In (state (checkReadyState sm)) (transitions (state sm)).
Proof.
  unfold checkReadyState. destruct (_ && _ && _); [|now left].
  apply transition_moves.
Qed.

Lemma call_moves (m : Method) (sm : StateMachine) :
  isResetCall m = false ->
  state (call m sm) = state sm \/ In (state (call m sm)) (transitions (state sm)).
Proof.
  intros Hm. destruct m; try discriminate Hm; cbn [call].
  - apply transition_moves.
  - apply (checkReadyState_moves (withData _ sm)).
  - apply (checkReadyState_moves (withData _ sm)).
  - apply checkReadyState_moves.
  - now left.
Qed.

Lemma calls_cons (m : Method) (ms : list Method) (sm : StateMachine) :
  calls (m :: ms) sm = calls ms (call m sm).
Proof. reflexivity. Qed.

Lemma path_trans (s t u : ClientState) : path s t -> path t u -> path s u.
Proof.
  intros H1 H2. revert H1. induction H2 as [|a b c Hab IH Hbc]; intros H1;
    [exact H1|].
  eapply path_next; [apply IH; exact H1 | exact Hbc].
Qed.

Lemma calls_path (ms : list Method) :
  forall sm, noReset ms = true -> path (state sm) (state (calls ms sm)).
Proof.
  induction ms as [|m ms IH]; intros sm Hall; [apply path_here|].
  cbn [noReset forallb] in Hall. apply andb_true_iff in Hall.
  destruct Hall as [Hm Hms]. apply negb_true_iff in Hm.
  rewrite calls_cons. eapply path_trans; [|apply IH; exact Hms].
  destruct (call_moves m sm Hm) as [E | E].
  - rewrite E. apply path_here.
  - eapply path_next; [apply path_here | exact E].
Qed.

(** X15. Whatever methods are called, in whatever order and with
    whatever arguments, as long as reset is not among them the state
    afterwards is reachable from the state before along transitions of
    the table: the two setters and checkReadyState never move the machine
    around the table. *)
Theorem calls_follow_the_table :
  forall (ms : list Method) (sm : StateMachine),
    noReset ms = true -> path (state sm) (state (calls ms sm)).
Proof. intros ms sm. apply calls_path. Qed.

Lemma calls_follow_the_table_witness :
  path DISCONNECTED READY.
Proof.
  exact (calls_follow_the_table
           [MTransition CONNECTING ""; MTransition AUTHENTICATING "";
            MSetInventoryReady true; MTransition SPAWNING "";
            MTransition READY "go"; MSetCommandsAvailable true] new eq_refl).
Defined.

Lemma table_phase (s t : ClientState) :
  In t (transitions s) -> (phase s <= phase t)%nat.
Proof.
  destruct s; cbn [transitions In]; intros H;
    repeat (destruct H as [<- | H]; [cbn; lia|]); destruct H.
Qed.

Lemma path_phase (s t : ClientState) : path s t -> (phase s <= phase t)%nat.
Proof.
  induction 1; [lia|].
  match goal with H : In _ _ |- _ => apply table_phase in H end. lia.
Qed.

(** X16. Without reset the machine never goes back to an earlier phase
    of the flow; so once a container was received (GUI_RECEIVED or
    later) canSendCommand stays false whatever is called, and a machine
    that has been READY is never in a login state again. *)
Theorem no_way_back :
  forall (ms : list Method) (sm : StateMachine),
    noReset ms = true ->
    (phase (state sm) <= phase (state (calls ms sm)))%nat /\
    ((7 <= phase (state sm))%nat -> canSendCommand (calls ms sm) = false) /\
    ((6 <= phase (state sm))%nat ->
     ~ In (state (calls ms sm))
          [DISCONNECTED; CONNECTING; AUTHENTICATING; RESOURCE_PACKS; SPAWNING;
           WAITING_COMMANDS; WAIT_INVENTORY_READY]).
Proof.
  intros ms sm Hall.
  pose proof (path_phase _ _ (calls_path ms sm Hall)) as H.
  split; [exact H|]. split.
  - intros H7. unfold canSendCommand.
    destruct (state (calls ms sm)); cbn in *; try reflexivity; lia.
  - intros H6 Hin. destruct (state (calls ms sm)); cbn in *;
      try lia; intuition discriminate.
Qed.

Lemma no_way_back_witness :
  let sm := calls [MTransition CONNECTING ""; MTransition AUTHENTICATING "";
                   MTransition SPAWNING ""; MSetCommandsAvailable true;
                   MSetInventoryReady true; MTransition COMMAND_SENT "";
                   MTransition WAITING_GUI ""; MTransition GUI_RECEIVED ""] new in
  canSendCommand
    (calls [MTransition READY ""; MSetInventoryReady true; MCheckReadyState;
            MTransition COMMAND_SENT ""] sm) = false.
Proof.
  intros sm.
  assert (H7 : (7 <= phase (state sm))%nat) by (vm_compute; lia).
  exact (proj1 (proj2 (no_way_back
                         [MTransition READY ""; MSetInventoryReady true;
                          MCheckReadyState; MTransition COMMAND_SENT ""]
                         sm eq_refl)) H7).
Defined.

(** *** The way to COMPLETED *)

Lemma state_eqb_refl (a : ClientState) : state_eqb a a = true.
Proof. now apply state_eqb_true. Qed.

Lemma Sub_tail (x : ClientState) (xs ys : list ClientState) :
  Sub (x :: xs) ys -> Sub xs ys.
Proof.
  intros H. remember (x :: xs) as l eqn:El. revert x xs El.
  induction H as [ys | y l' ys H IH | y l' ys H IH]; intros x xs El.
  - discriminate El.
  - injection El as -> ->. now apply Sub_skip.
  - apply Sub_skip. eapply IH. exact El.
Qed.

Lemma Sub_trans (xs ys zs : list ClientState) :
  Sub xs ys -> Sub ys zs -> Sub xs zs.
Proof.
  intros H1 H2. revert xs H1.
  induction H2 as [zs | y ys zs H IH | z ys zs H IH]; intros xs H1.
  - inversion H1. apply Sub_nil.
  - inversion H1; subst.
    + apply Sub_nil.
    + apply Sub_take. now apply IH.
    + apply Sub_skip. now apply IH.
  - apply Sub_skip. now apply IH.
Qed.

Lemma Sub_app_r (xs ys zs : list ClientState) :
  Sub xs ys -> Sub xs (ys ++ zs).
Proof.
  induction 1; cbn [app]; [apply Sub_nil | now apply Sub_take | now apply Sub_skip].
Qed.

Lemma Sub_snoc (t : ClientState) (xs ys : list ClientState) :
  Sub xs ys -> Sub (xs ++ [t]) (ys ++ [t]).
Proof.
  induction 1 as [ys | | ]; cbn [app].
  - induction ys as [|y ys IH]; cbn [app];
      [apply Sub_take, Sub_nil | now apply Sub_skip].
  - now apply Sub_take.
  - now apply Sub_skip.
Qed.

Lemma subseq_Sub (xs ys : list ClientState) :
  subseq xs ys = true <-> Sub xs ys.
Proof.
  revert xs. induction ys as [|y ys IH]; intros xs.
  - destruct xs; cbn [subseq]; split; intros H;
      [apply Sub_nil | reflexivity | discriminate H | inversion H].
  - destruct xs as [|x xs]; cbn [subseq];
      [split; [intros _; apply Sub_nil | reflexivity]|].
    destruct (state_eqb x y) eqn:E.
    + apply state_eqb_true in E. subst y. rewrite IH. split; intros H.
      * now apply Sub_take.
      * inversion H; subst; [assumption | now apply Sub_tail with x].
    + rewrite IH. split; intros H.
      * now apply Sub_skip.
      * inversion H; subst; [|assumption].
        rewrite state_eqb_refl in E. discriminate E.
Qed.

Lemma table_chain (s t : ClientState) :
  In t (transitions s) -> Sub (chainTo t) (chainTo s ++ [t]).
Proof.
  intros H. apply subseq_Sub.
  destruct s; cbn [transitions In] in H;
    repeat (destruct H as [<- | H]; [reflexivity|]); destruct H.
Qed.

Lemma call_chain (m : Method) (sm : StateMachine) (h : list ClientState) :
  Sub (chainTo (state sm)) h ->
  Sub (chainTo (state (call m sm))) (h ++ [state (call m sm)]).
Proof.
  intros H. destruct (isResetCall m) eqn:Hm.
  - destruct m; try discriminate Hm. apply Sub_nil.
  - destruct (call_moves m sm Hm) as [E | E].
    + rewrite E. now apply Sub_app_r.
    + eapply Sub_trans; [apply (table_chain _ _ E)|]. now apply Sub_snoc.
Qed.

Lemma calls_chain (ms : list Method) :
  forall sm h,
    Sub (chainTo (state sm)) h ->
    Sub (chainTo (state (calls ms sm))) (h ++ visited ms sm).
Proof.
  induction ms as [|m ms IH]; intros sm h H.
  - cbn [visited calls fold_left]. now rewrite app_nil_r.
  - rewrite calls_cons. cbn [visited].
    replace (app h (state (call m sm) :: visited ms (call m sm)))
      with (app (app h [state (call m sm)]) (visited ms (call m sm)))
      by (rewrite <- app_assoc; reflexivity).
    apply IH. now apply call_chain.
Qed.

(** X17. Every way to COMPLETED goes through the whole flow: if a new
    machine is COMPLETED after some calls (of any methods, reset among
    them or not), then CONNECTING, AUTHENTICATING, SPAWNING, READY,
    COMMAND_SENT, WAITING_GUI, GUI_RECEIVED, CLICKING_SLOT and COMPLETED
    are among the states it was left in by these calls, in this order. *)
Theorem completed_only_through_the_flow :
  forall (ms : list Method),
    state (calls ms new) = COMPLETED ->
    subseq [CONNECTING; AUTHENTICATING; SPAWNING; READY; COMMAND_SENT;
            WAITING_GUI; GUI_RECEIVED; CLICKING_SLOT; COMPLETED]
           (visited ms new) = true.
Proof.
  intros ms H. apply subseq_Sub.
  pose proof (calls_chain ms new [] (Sub_nil _)) as K.
  rewrite H in K. exact K.
Qed.

Lemma completed_only_through_the_flow_witness :
  let ms := [MTransition CONNECTING ""; MTransition AUTHENTICATING "";
             MTransition RESOURCE_PACKS ""; MTransition SPAWNING "";
             MSetInventoryReady true; MTransition WAITING_COMMANDS "";
             MSetCommandsAvailable true; MTransition COMMAND_SENT "";
             MTransition READY ""; MTransition COMMAND_SENT "";
             MTransition WAITING_GUI ""; MTransition GUI_RECEIVED "";
             MTransition CLICKING_SLOT ""; MTransition COMPLETED ""] in
  subseq [CONNECTING; AUTHENTICATING; SPAWNING; READY; COMMAND_SENT;
          WAITING_GUI; GUI_RECEIVED; CLICKING_SLOT; COMPLETED]
         (visited ms new) = true.
Proof.
  intros ms.
  assert (H : state (calls ms new) = COMPLETED) by (vm_compute; reflexivity).
  exact (completed_only_through_the_flow ms H).
Defined.

(** X18. The two setters called with true can be called in either
    order and any number of times: the machine ends in the same state,
    with the same data and the same lines written to the logger. *)
Theorem raising_setters_commute :
  forall (sm : StateMachine),
    setCommandsAvailable true (setInventoryReady true sm) =
      setInventoryReady true (setCommandsAvailable true sm) /\
    setInventoryReady true (setInventoryReady true sm) =
      setInventoryReady true sm /\
    setCommandsAvailable true (setCommandsAvailable true sm) =
      setCommandsAvailable true sm.
Proof.
  intros [st [ca ir w c sl] lg].
  destruct st, ca, ir; repeat split; reflexivity.
Qed.

End FsmMoreFacts.

(* ===================================================================== *)
(** ** Properties of ProxyManager *)
(* ===================================================================== *)

Module ProxyFacts.
Import Js Proxy.

Lemma startsWith_app (p x : string) : startsWith (p ++ x) p = true.
Proof.
  induction p as [|a p IH]; [destruct x; reflexivity|].
  cbn [append startsWith]. now rewrite Ascii.eqb_refl.
Qed.

Lemma drop_app (p x : string) : drop (String.length p) (p ++ x) = x.
Proof. induction p as [|a p IH]; [reflexivity | exact IH]. Qed.

Lemma replace_prefix (p x : string) :
  p <> "" -> replace p "" (p ++ x) = x.
Proof.
  destruct p as [|a p]; [intros H; now contradiction H|]. intros _.
  cbn [append replace].
  change (String a (p ++ x)) with (String a p ++ x).
  rewrite startsWith_app. apply (drop_app (String a p) x).
Qed.

Lemma split_not_nil (sep : ascii) (s : string) : split sep s <> [].
Proof.
  destruct s as [|c s]; cbn [split]; [discriminate|].
  destruct (Ascii.eqb c sep); [discriminate|].
  destruct (split sep s); discriminate.
Qed.

Lemma split_length (sep : ascii) (s : string) :
  (List.length (split sep s) <= S (String.length s))%nat.
Proof.
  induction s as [|c s IH]; cbn [split String.length List.length]; [lia|].
  destruct (Ascii.eqb c sep); cbn [List.length]; [lia|].
  destruct (split sep s); cbn [List.length] in *; lia.
Qed.

Lemma noColon_cons (c : ascii) (s : string) :
  noColon (String c s) <-> c <> colon /\ noColon s.
Proof.
  unfold noColon. cbn [list_ascii_of_string In]. split.
  - intros H. split; [intros E; apply H; left; now subst | intros K; apply H; now right].
  - intros [H1 H2] [E | K]; [apply H1; now subst | now apply H2].
Qed.

Lemma split_noColon (s : string) : noColon s -> split colon s = [s].
Proof.
  induction s as [|c s IH]; intros H; [reflexivity|].
  apply noColon_cons in H. destruct H as [Hc Hs]. cbn [split].
  apply Ascii.eqb_neq in Hc. rewrite Hc, (IH Hs). reflexivity.
Qed.

Lemma split_at_colon (h r : string) :
  noColon h -> split colon (h ++ String colon r) = h :: split colon r.
Proof.
  induction h as [|c h IH]; intros H.
  - cbn [append split]. now rewrite Ascii.eqb_refl.
  - apply noColon_cons in H. destruct H as [Hc Hs]. cbn [append split].
    apply Ascii.eqb_neq in Hc. rewrite Hc, (IH Hs). reflexivity.
Qed.

Lemma split_head_noColon (s : string) :
  noColon (nth 0 (split colon s) "").
Proof.
  induction s as [|c s IH]; cbn [split]; [intros []|].
  destruct (Ascii.eqb c colon) eqn:E; [intros []|].
  destruct (split colon s) as [|p ps] eqn:Es; cbn [nth] in *.
  - apply noColon_cons. split; [now apply Ascii.eqb_neq | intros []].
  - apply noColon_cons. split; [now apply Ascii.eqb_neq | exact IH].
Qed.

Section Manager.

Variable Num : Type.
Variable parseInt : string -> Num.
Variable isNaN : Num -> bool.
Variable trim : string -> string.

(** What is left after the prefix, for a line of the form
    host:port or host:port:more. *)
Lemma split_host_port (h portText tail : string) :
  noColon h -> noColon portText ->
  tail = "" \/ startsWith tail ":" = true ->
  exists more, split colon (h ++ ":" ++ portText ++ tail) = h :: portText :: more.
Proof.
  intros Hh Hp Ht.
  change (h ++ ":" ++ portText ++ tail)
    with (h ++ String colon (portText ++ tail)).
  rewrite (split_at_colon _ _ Hh).
  destruct Ht as [-> | Ht].
  - exists []. replace (portText ++ "") with portText.
    + now rewrite (split_noColon _ Hp).
    + clear. induction portText as [|c p IH]; [reflexivity|].
      cbn [append]. now rewrite <- IH.
  - destruct tail as [|c t]; [discriminate Ht|].
    cbn [startsWith] in Ht. apply andb_prop in Ht. destruct Ht as [Hc _].
    apply Ascii.eqb_eq in Hc. subst c.
    exists (split colon t). now rewrite (split_at_colon _ _ Hp).
Qed.

Lemma parse_parts (ty cleaned h portText : string) (more : list string) :
  split colon cleaned = h :: portText :: more ->
  h <> "" -> isNaN (parseInt portText) = false ->
  (let parts := split colon cleaned in
   if (List.length parts <? 2)%nat then None
   else
     let host := nth 0 parts "" in
     let port := parseInt (nth 1 parts "") in
     if String.eqb host "" || isNaN port then None
     else Some {| host := host; port := port; type := ty |}) =
  Some {| host := h; port := parseInt portText; type := ty |}.
Proof.
  intros Hs Hh Hn. cbv zeta. rewrite Hs. cbn [List.length Nat.ltb Nat.leb nth].
  apply String.eqb_neq in Hh. rewrite Hh, Hn. reflexivity.
Qed.

(** X21. parseProxy accepts a line made of one of the four prefixes, a
    host that is not empty, a colon and a port text that parseInt reads
    as a number, with or without further colon-separated fields: the
    prefix is cut off, the fields after the port are ignored, and the
    type is the one of the prefix, where https stands for http.  A line
    of that form without one of the prefixes is taken as socks5. *)
Theorem parseProxy_accepts :
  forall (h portText tail : string),
    h <> "" -> noColon h -> noColon portText ->
    isNaN (parseInt portText) = false ->
    tail = "" \/ startsWith tail ":" = true ->
    (forall pre ty, In (pre, ty) schemes ->
       Proxy.parseProxy Num parseInt isNaN (pre ++ h ++ ":" ++ portText ++ tail) =
         Some {| host := h; port := parseInt portText; type := ty |}) /\
    (existsb (fun sch => startsWith (h ++ ":" ++ portText ++ tail) (fst sch))
             schemes = false ->
     Proxy.parseProxy Num parseInt isNaN (h ++ ":" ++ portText ++ tail) =
       Some {| host := h; port := parseInt portText; type := "socks5" |}).
Proof.
  intros h portText tail Hh Hc Hp Hn Ht.
  destruct (split_host_port h portText tail Hc Hp Ht) as [more Hs].
  split.
  - intros pre ty Hin. unfold Proxy.parseProxy.
    cbn [schemes In] in Hin.
    destruct Hin as [E | [E | [E | [E | []]]]]; injection E as <- <-.
    + rewrite startsWith_app, replace_prefix by discriminate.
      now apply parse_parts with more.
    + replace (startsWith ("https://" ++ h ++ ":" ++ portText ++ tail) "http://")
        with false by reflexivity.
      rewrite startsWith_app, replace_prefix by discriminate.
      now apply parse_parts with more.
    + replace (startsWith ("socks5://" ++ h ++ ":" ++ portText ++ tail) "http://")
        with false by reflexivity.
      replace (startsWith ("socks5://" ++ h ++ ":" ++ portText ++ tail) "https://")
        with false by reflexivity.
      rewrite startsWith_app, replace_prefix by discriminate.
      now apply parse_parts with more.
    + replace (startsWith ("socks4://" ++ h ++ ":" ++ portText ++ tail) "http://")
        with false by reflexivity.
      replace (startsWith ("socks4://" ++ h ++ ":" ++ portText ++ tail) "https://")
        with false by reflexivity.
      replace (startsWith ("socks4://" ++ h ++ ":" ++ portText ++ tail) "socks5://")
        with false by reflexivity.
      rewrite startsWith_app, replace_prefix by discriminate.
      now apply parse_parts with more.
  - intros Hnone. cbn [existsb schemes fst] in Hnone.
    repeat (apply orb_false_iff in Hnone; destruct Hnone as [?E Hnone]).
    unfold Proxy.parseProxy. rewrite E, E0, E1, E2.
    now apply parse_parts with more.
Qed.

Lemma parseProxy_sound (line : string) (p : Proxy Num) :
  Proxy.parseProxy Num parseInt isNaN line = Some p ->
  Proxy.wellFormed Num isNaN p.
Proof.
  unfold Proxy.parseProxy.
  set (tc := if startsWith line "http://" then _ else _).
  assert (Hty : In (fst tc) ["http"; "socks5"; "socks4"]).
  { unfold tc.
    repeat match goal with
           | |- context [if ?b then _ else _] => destruct b
           end; cbn [fst In]; auto. }
  destruct tc as [ty cleaned]. cbn [fst] in Hty. cbv zeta.
  destruct (_ <? 2)%nat; [discriminate|].
  destruct (String.eqb _ "") eqn:Eh; [discriminate|].
  destruct (isNaN _) eqn:En; [discriminate|]. cbn [orb].
  intros E. injection E as <-. unfold Proxy.wellFormed.
  cbn [host port type]. apply String.eqb_neq in Eh.
  repeat split; [exact Eh | exact En | exact Hty | apply split_head_noColon].
Qed.

Lemma somes_Forall (P : Proxy Num -> Prop) (l : list (option (Proxy Num))) :
  Forall (fun o => forall p, o = Some p -> P p) l -> Forall P (somes Num l).
Proof.
  induction 1 as [|o l Ho Hl IH]; [constructor|].
  destruct o as [p|]; cbn [somes]; [constructor; auto | exact IH].
Qed.

Lemma somes_length (l : list (option (Proxy Num))) :
  (List.length (somes Num l) <= List.length l)%nat.
Proof.
  induction l as [|[p|] l IH]; cbn [somes List.length]; lia.
Qed.

(** X22. Every proxy a new ProxyManager holds has a host that is not
    empty and contains no colon, a port that is not NaN and one of the
    types http, socks5 and socks4; there are at most as many proxies as
    the file has lines, and none when the file cannot be read. *)
Theorem loaded_proxies_well_formed :
  forall (content : option string),
    Forall (Proxy.wellFormed Num isNaN)
           (proxies (Proxy.create Num parseInt isNaN trim content)) /\
    (getCount (Proxy.create Num parseInt isNaN trim content) <=
     match content with
     | Some text => List.length (split newline text)
     | None => 0
     end)%nat.
Proof.
  intros [text|]; cbn [Proxy.create loadProxies proxies getCount];
    [|split; [constructor | cbn; lia]].
  split.
  - apply somes_Forall. apply Forall_forall. intros o Ho p ->.
    apply in_map_iff in Ho. destruct Ho as [line [Hl _]].
    exact (parseProxy_sound line p Hl).
  - eapply Nat.le_trans; [apply somes_length|].
    rewrite length_map. unfold keptLines.
    eapply Nat.le_trans; [apply filter_length_le|]. now rewrite length_map.
Qed.

(** *** The rotation *)

Lemma skipn_nth (ps : list (Proxy Num)) :
  forall i, (i < List.length ps)%nat ->
    exists p, nth_error ps i = Some p /\ skipn i ps = p :: skipn (S i) ps.
Proof.
  induction ps as [|q ps IH]; intros i Hi; [cbn in Hi; lia|].
  destruct i as [|i]; [exists q; split; reflexivity|].
  cbn [List.length] in Hi. destruct (IH i) as [p [H1 H2]]; [lia|].
  exists p. split; [exact H1 | exact H2].
Qed.

Lemma getNext_in_range (ps : list (Proxy Num)) (i : nat) :
  (i < List.length ps)%nat ->
  exists p, skipn i ps = p :: skipn (S i) ps /\
            getNext (mkManager ps i) =
              (GotProxy p, mkManager ps ((i + 1) mod List.length ps)).
Proof.
  intros Hi. destruct (skipn_nth ps i Hi) as [p [H1 H2]].
  exists p. split; [exact H2|]. unfold getNext, element.
  cbn [proxies currentIndex]. rewrite H1.
  destruct (List.length ps =? 0)%nat eqn:E; [|reflexivity].
  apply Nat.eqb_eq in E. lia.
Qed.

Lemma getNexts_run (ps : list (Proxy Num)) :
  forall j i, (i + j <= List.length ps)%nat ->
    getNexts j (mkManager ps i) =
      (map GotProxy (firstn j (skipn i ps)),
       mkManager ps (if (j =? 0)%nat then i else (i + j) mod List.length ps)).
Proof.
  induction j as [|j IH]; intros i Hij; [reflexivity|].
  destruct (getNext_in_range ps i) as [p [Hs Hg]]; [lia|].
  cbn [getNexts]. rewrite Hg, Hs. cbn [firstn map Nat.eqb].
  destruct j as [|j].
  - cbn [getNexts firstn map]. reflexivity.
  - rewrite (Nat.mod_small (i + 1)) by lia.
    replace (i + 1)%nat with (S i) by lia.
    rewrite (IH (S i)) by lia. cbn [Nat.eqb].
    replace (S i + S j)%nat with (i + S (S j))%nat by lia. reflexivity.
Qed.

Lemma getNexts_app (a b : nat) :
  forall pm : ProxyManager Num,
    getNexts (a + b) pm =
      (app (fst (getNexts a pm)) (fst (getNexts b (snd (getNexts a pm)))),
       snd (getNexts b (snd (getNexts a pm)))).
Proof.
  induction a as [|a IH]; intros pm.
  - cbn [Nat.add getNexts fst snd app]. now destruct (getNexts b pm).
  - cbn [Nat.add getNexts]. destruct (getNext pm) as [g pm1].
    rewrite (IH pm1). destruct (getNexts a pm1) as [gs pm2].
    cbn [fst snd]. destruct (getNexts b pm2). reflexivity.
Qed.

(** X19. getNext hands out the proxies in turn: from any index in
    range, as many calls as there are proxies return every proxy exactly
    once, in the order of the list starting at the index and wrapping
    around, and leave the index where it was. *)
Theorem getNext_round_robin :
  forall (ps : list (Proxy Num)) (i : nat),
    (i < List.length ps)%nat ->
    getNexts (List.length ps) (mkManager ps i) =
      (map GotProxy (app (skipn i ps) (firstn i ps)), mkManager ps i).
Proof.
  intros ps i Hi.
  replace (List.length ps) with ((List.length ps - i) + i)%nat at 1 by lia.
  rewrite getNexts_app, (getNexts_run ps (List.length ps - i) i) by lia.
  cbn [fst snd].
  replace (List.length ps - i =? 0)%nat with false
    by (symmetry; apply Nat.eqb_neq; lia).
  replace (i + (List.length ps - i))%nat with (List.length ps) by lia.
  rewrite Nat.Div0.mod_same, (getNexts_run ps i 0) by lia.
  cbn [fst snd skipn Nat.add].
  rewrite firstn_all2 by (rewrite length_skipn; lia).
  rewrite map_app. f_equal. f_equal.
  destruct (i =? 0)%nat eqn:E; [apply Nat.eqb_eq in E; now subst|].
  apply Nat.mod_small. exact Hi.
Qed.

Lemma getNext_inRange (pm : ProxyManager Num) :
  inRange pm ->
  inRange (snd (getNext pm)) /\ proxies (snd (getNext pm)) = proxies pm.
Proof.
  intros H. unfold getNext.
  destruct (List.length (proxies pm) =? 0)%nat eqn:E; cbn [snd]; [now split|].
  split; [|reflexivity]. right. cbn [proxies currentIndex].
  apply Nat.mod_upper_bound. apply Nat.eqb_neq in E. exact E.
Qed.

Lemma getNexts_inRange (k : nat) :
  forall pm : ProxyManager Num,
    inRange pm ->
    inRange (snd (getNexts k pm)) /\ proxies (snd (getNexts k pm)) = proxies pm.
Proof.
  induction k as [|k IH]; intros pm H; [now split|].
  cbn [getNexts]. destruct (getNext_inRange pm H) as [H1 H2].
  destruct (getNext pm) as [g pm1]. cbn [snd] in *.
  destruct (IH pm1 H1) as [K1 K2].
  destruct (getNexts k pm1) as [gs pm2]. cbn [snd] in *.
  split; [exact K1 | congruence].
Qed.

Lemma create_inRange (content : option string) :
  inRange (Proxy.create Num parseInt isNaN trim content).
Proof.
  unfold inRange. destruct content as [text|]; cbn [Proxy.create loadProxies
    proxies currentIndex]; [|now left].
  destruct (somes Num _); [now left | right; cbn; lia].
Qed.

(** X20. However often getNext has been called on a new ProxyManager,
    the next call returns null exactly when there are no proxies, and a
    proxy of the list otherwise: the index never leaves the list, so
    undefined is never returned; the list is never changed. *)
Theorem getNext_never_undefined :
  forall (content : option string) (k : nat),
    let pm := snd (getNexts k (Proxy.create Num parseInt isNaN trim content)) in
    fst (getNext pm) <> GotUndefined /\
    (fst (getNext pm) = GotNull <-> getCount pm = 0%nat) /\
    (forall p, fst (getNext pm) = GotProxy p -> In p (proxies pm)) /\
    proxies pm = proxies (Proxy.create Num parseInt isNaN trim content).
Proof.
  intros content k pm.
  destruct (getNexts_inRange k _ (create_inRange content)) as [H1 H2].
  fold pm in H1, H2. split; [|split; [|split; [|exact H2]]].
  - unfold getNext, element.
    destruct (List.length (proxies pm) =? 0)%nat eqn:E; cbn [fst]; [discriminate|].
    destruct H1 as [H1 | H1]; [rewrite H1 in E; discriminate E|].
    destruct (nth_error (proxies pm) (currentIndex pm)) eqn:En; [discriminate|].
    apply nth_error_None in En. lia.
  - unfold getNext, element, getCount.
    destruct (List.length (proxies pm) =? 0)%nat eqn:E; cbn [fst].
    + apply Nat.eqb_eq in E. now split.
    + apply Nat.eqb_neq in E. split; [|intros K; contradiction].
      destruct (nth_error _ _); discriminate.
  - intros p. unfold getNext, element.
    destruct (List.length (proxies pm) =? 0)%nat; cbn [fst]; [discriminate|].
    destruct (nth_error (proxies pm) (currentIndex pm)) eqn:En; [|discriminate].
    intros E. injection E as <-. eapply nth_error_In. exact En.
Qed.

End Manager.

Lemma getNext_round_robin_witness :
  let a := mkProxy "a" 1 "http" in
  let b := mkProxy "b" 2 "socks5" in
  let c := mkProxy "c" 3 "socks4" in
  getNexts 3 (mkManager [a; b; c] 1) =
    ([GotProxy b; GotProxy c; GotProxy a], mkManager [a; b; c] 1).
Proof.
  intros a b c.
  assert (H : (1 < List.length [a; b; c])%nat) by (cbn; lia).
  exact (getNext_round_robin Z [a; b; c] 1%nat H).
Defined.

Lemma parseProxy_accepts_witness :
  Proxy.parseProxy (option Z) decimal isNone "https://10.0.0.1:1080:user:pass" =
    Some (mkProxy "10.0.0.1" (Some 1080) "http").
Proof.
  assert (H1 : "10.0.0.1" <> "") by discriminate.
  assert (H2 : noColon "10.0.0.1")
    by (cbv; intros K; repeat (destruct K as [K | K]; [discriminate K|]); exact K).
  assert (H3 : noColon "1080")
    by (cbv; intros K; repeat (destruct K as [K | K]; [discriminate K|]); exact K).
  assert (H4 : isNone (decimal "1080") = false) by reflexivity.
  assert (H5 : ":user:pass" = "" \/ startsWith ":user:pass" ":" = true)
    by (right; reflexivity).
  exact (proj1 (parseProxy_accepts (option Z) decimal isNone
                  "10.0.0.1" "1080" ":user:pass" H1 H2 H3 H4 H5)
           "https://" "http" (or_intror (or_introl eq_refl))).
Defined.

End ProxyFacts.

(* ===================================================================== *)
(** ** Properties of the client made of the three classes *)
(* ===================================================================== *)

Module AppFacts.
Import Js Fsm App FsmFacts.

(** Projections of updated worlds, and nothing else. *)
Ltac wfields :=
  cbn [sm client loginTimeout strayLoginTimers readyFallbackTimer guis
       autoClickTimers commandTimers assumeTimers written
       set_sm set_client set_loginTimeout set_strayLoginTimers
       set_readyFallbackTimer set_guis set_autoClickTimers set_commandTimers
       set_assumeTimers set_written set_gui go write fst snd].

Ltac wfields_in H :=
  cbn [sm client loginTimeout strayLoginTimers readyFallbackTimer guis
       autoClickTimers commandTimers assumeTimers written
       set_sm set_client set_loginTimeout set_strayLoginTimers
       set_readyFallbackTimer set_guis set_autoClickTimers set_commandTimers
       set_assumeTimers set_written set_gui go write fst snd] in H.

Ltac split_match :=
  match goal with
  | |- context [match ?x with _ => _ end] =>
      lazymatch x with
      | context [match _ with _ => _ end] => fail
      | _ => destruct x eqn:?
      end
  end.

(** *** What the methods of the machine do to its state and flags *)

Lemma transition_keeps_data (t : ClientState) (r : string) (m : StateMachine) :
  stateData (snd (transition t r m)) = stateData m.
Proof. unfold transition. destruct (negb _); reflexivity. Qed.

Lemma transition_result (t : ClientState) (r : string) (m : StateMachine) :
  state (snd (transition t r m)) = if canTransition t m then t else state m.
Proof. unfold transition. destruct (canTransition t m); reflexivity. Qed.

Lemma transition_stays_out (t : ClientState) (r : string) (m : StateMachine) :
  guiState (state m) = false -> t <> WAITING_GUI ->
  guiState (state (snd (transition t r m))) = false.
Proof.
  intros H Ht. rewrite transition_result. unfold canTransition.
  destruct (state m); try discriminate H; destruct t;
    try reflexivity; now contradiction Ht.
Qed.

Lemma checkReadyState_state (m : StateMachine) :
  state (checkReadyState m) = state m \/ state (checkReadyState m) = READY.
Proof.
  unfold checkReadyState. destruct (_ && _ && _); [|now left].
  rewrite transition_result. destruct (canTransition READY m); auto.
Qed.

Lemma setInventoryReady_state (b : bool) (m : StateMachine) :
  state (setInventoryReady b m) = state m \/
  state (setInventoryReady b m) = READY.
Proof. unfold setInventoryReady. apply (checkReadyState_state (withData _ m)). Qed.

Lemma setCommandsAvailable_state (b : bool) (m : StateMachine) :
  state (setCommandsAvailable b m) = state m \/
  state (setCommandsAvailable b m) = READY.
Proof. unfold setCommandsAvailable. apply (checkReadyState_state (withData _ m)). Qed.

Lemma setInventoryReady_stays_out (b : bool) (m : StateMachine) :
  guiState (state m) = false -> guiState (state (setInventoryReady b m)) = false.
Proof.
  intros H. destruct (setInventoryReady_state b m) as [E | E]; rewrite E; auto.
Qed.

Lemma setCommandsAvailable_stays_out (b : bool) (m : StateMachine) :
  guiState (state m) = false ->
  guiState (state (setCommandsAvailable b m)) = false.
Proof.
  intros H. destruct (setCommandsAvailable_state b m) as [E | E]; rewrite E; auto.
Qed.

Lemma stateIs_true (t : ClientState) (w : World) :
  stateIs t w = true -> state (sm w) = t.
Proof. unfold stateIs. apply state_eqb_true. Qed.

Lemma stateIs_gui (t : ClientState) (w : World) :
  guiState (state (sm w)) = false -> guiState t = true -> stateIs t w = false.
Proof.
  intros H Ht. destruct (stateIs t w) eqn:E; [|reflexivity].
  apply stateIs_true in E. congruence.
Qed.

Lemma transactionsWritten_write (p : Packet) (w : World) :
  transactionsWritten (write p w) =
    app (transactionsWritten w) (if isTransaction p then [p] else []).
Proof.
  unfold transactionsWritten, write. wfields. rewrite filter_app.
  cbn [filter]. now destruct (isTransaction p).
Qed.

Lemma commandsWritten_write (p : Packet) (w : World) :
  commandsWritten (write p w) =
    app (commandsWritten w) (if isCommand p then [p] else []).
Proof.
  unfold commandsWritten, write. wfields. rewrite filter_app.
  cbn [filter]. now destruct (isCommand p).
Qed.

(** *** The container flow is never entered *)

Ltac out_tac :=
  repeat first
    [ assumption
    | reflexivity
    | apply transition_stays_out; [|discriminate]
    | apply setInventoryReady_stays_out
    | apply setCommandsAvailable_stays_out ].

Lemma disconnect_noGui (w : World) : noGui w -> noGui (disconnect w).
Proof.
  intros [H1 [H2 [H3 H4]]]. unfold disconnect, noGui, transactionsWritten in *.
  cbv zeta. wfields.
  destruct (client w); wfields; repeat split; first [assumption | reflexivity].
Qed.

Lemma go_noGui (t : ClientState) (r : string) (w : World) :
  t <> WAITING_GUI -> noGui w -> noGui (go t r w).
Proof.
  intros Ht [H1 [H2 [H3 H4]]]. unfold noGui, transactionsWritten in *. wfields.
  repeat split; try assumption. now apply transition_stays_out.
Qed.

Lemma set_sm_noGui (m : StateMachine) (w : World) :
  guiState (state m) = false -> noGui w -> noGui (set_sm m w).
Proof.
  intros Hm [H1 [H2 [H3 H4]]]. unfold noGui, transactionsWritten in *. wfields.
  repeat split; assumption.
Qed.

Lemma write_noGui (p : Packet) (w : World) :
  isTransaction p = false -> noGui w -> noGui (write p w).
Proof.
  intros Hp [H1 [H2 [H3 H4]]]. unfold noGui.
  rewrite transactionsWritten_write, Hp, app_nil_r. wfields.
  repeat split; assumption.
Qed.

(** Fields the container flow does not look at. *)
Lemma frame_noGui (w w' : World) :
  sm w' = sm w -> autoClickTimers w' = autoClickTimers w ->
  assumeTimers w' = assumeTimers w -> written w' = written w ->
  noGui w -> noGui w'.
Proof.
  intros E1 E2 E3 E4. unfold noGui, transactionsWritten.
  now rewrite E1, E2, E3, E4.
Qed.

Lemma clickSlot_noGui (i : nat) (slotIndex : Z) (w : World) :
  noGui w -> snd (clickSlot i slotIndex w) = w.
Proof.
  intros [H1 _]. unfold clickSlot.
  destruct (nth_error (guis w) i) as [d|]; [|reflexivity].
  destruct (negb (truthy _)); [reflexivity|].
  destruct (negb (cd_received d)); [reflexivity|].
  now rewrite (stateIs_gui GUI_RECEIVED w H1 eq_refl).
Qed.

Lemma step_noGui (w : World) (ev : Event) : noGui w -> noGui (step w ev).
Proof.
  intros H. pose proof H as [H1 [H2 [H3 H4]]].
  destruct ev; cbn [step].
  - (* connect *)
    unfold connect. cbv zeta. destruct created.
    + apply (frame_noGui (go CONNECTING "Starting connection" w));
        try (now repeat split_match; wfields).
      apply go_noGui; [discriminate | exact H].
    + apply go_noGui; [discriminate|]. apply go_noGui; [discriminate | exact H].
  - now apply disconnect_noGui.
  - (* sendCommand *)
    unfold sendCommand. destruct (negb _); [exact H|]. cbv zeta. cbn [snd].
    match goal with
    | |- noGui (set_commandTimers _ ?x) =>
        apply (frame_noGui x); try reflexivity
    end.
    apply write_noGui; [reflexivity|]. apply go_noGui; [discriminate | exact H].
  - apply (frame_noGui w); try reflexivity. exact H.
  - now rewrite clickSlot_noGui.
  - unfold resetContainerData. destruct (nth_error _ _); [|exact H].
    apply (frame_noGui w); try reflexivity. exact H.
  - unfold onPlayStatus. destruct (String.eqb _ _); [|exact H].
    apply go_noGui; [discriminate | exact H].
  - unfold onResourcePackStack. cbv zeta.
    assert (K : noGui (go RESOURCE_PACKS "Resource pack negotiation" w))
      by (apply go_noGui; [discriminate | exact H]).
    destruct (client _); [apply write_noGui; [reflexivity | exact K] | exact K].
  - (* start_game *)
    unfold onStartGame. cbv zeta.
    assert (K : noGui (go SPAWNING "Game started" w))
      by (apply go_noGui; [discriminate | exact H]).
    set (w1 := go SPAWNING "Game started" w) in *.
    assert (K2 : noGui (if negb (inventoryReady (stateData (sm w1)))
                        then set_sm (setInventoryReady true (sm w1)) w1 else w1)).
    { destruct (negb _); [|exact K].
      apply set_sm_noGui; [|exact K].
      apply setInventoryReady_stays_out. apply K. }
    set (w2 := if negb _ then _ else w1) in *.
    destruct (negb (client w2)); [exact K2|].
    assert (K3 : noGui (armReadyFallback (write request_chunk_radius w2))).
    { apply (frame_noGui (write request_chunk_radius w2));
        try (unfold armReadyFallback; now split_match; wfields).
      apply write_noGui; [reflexivity | exact K2]. }
    destruct (stateIs SPAWNING _); [|exact K3].
    apply go_noGui; [discriminate | exact K3].
  - unfold onInventoryContent. destruct (isPlayerWindow _); [|exact H].
    apply set_sm_noGui; [|exact H]. now apply setInventoryReady_stays_out.
  - unfold onInventorySlot. destruct (_ && _); [|exact H].
    apply set_sm_noGui; [|exact H]. now apply setInventoryReady_stays_out.
  - apply (frame_noGui w); try reflexivity. exact H.
  - unfold onError. destruct (_ || _); [exact H|].
    apply go_noGui; [discriminate | exact H].
  - apply go_noGui; [discriminate | exact H].
  - (* container_open *)
    unfold onContainerOpen. destruct (nth_error _ _) as [d|]; [|exact H].
    destruct (_ || _); [|exact H]. cbv zeta.
    apply go_noGui; [discriminate|].
    apply set_sm_noGui; [wfields; exact H1|].
    apply (frame_noGui w); try reflexivity. exact H.
  - (* inventory_content of a GUIHandler *)
    unfold onGuiInventoryContent. destruct (nth_error _ _) as [d|]; [|exact H].
    destruct (strictEq _ _); [|exact H]. cbv zeta.
    match goal with
    | |- noGui (if stateIs GUI_RECEIVED ?x then _ else _) =>
        assert (K : noGui x) by (apply (frame_noGui w); try reflexivity; exact H);
        rewrite (stateIs_gui GUI_RECEIVED x (proj1 K) eq_refl); exact K
    end.
  - (* container_close *)
    unfold onContainerClose. destruct (nth_error _ _) as [d|]; [|exact H].
    destruct (strictEq _ _); [|exact H]. cbv zeta.
    rewrite (stateIs_gui CLICKING_SLOT w H1 eq_refl).
    apply (frame_noGui w); try reflexivity. exact H.
  - (* login timer *)
    destruct (loginTimeout w); try exact H.
    unfold loginTimedOut.
    assert (K : noGui (set_loginTimeout Spent w))
      by (apply (frame_noGui w); try reflexivity; exact H).
    destruct (negb _); [|exact K].
    apply disconnect_noGui. apply go_noGui; [discriminate | exact K].
  - destruct (strayLoginTimers w) as [|n]; [exact H|].
    unfold loginTimedOut.
    assert (K : noGui (set_strayLoginTimers n w))
      by (apply (frame_noGui w); try reflexivity; exact H).
    destruct (negb _); [|exact K].
    apply disconnect_noGui. apply go_noGui; [discriminate | exact K].
  - (* fallback *)
    destruct (readyFallbackTimer w); try exact H.
    unfold readyFallback. cbv zeta.
    match goal with
    | |- noGui (set_readyFallbackTimer _ ?x) =>
        apply (frame_noGui x); try reflexivity
    end.
    destruct (_ || _); [|exact H].
    apply set_sm_noGui; [|exact H].
    apply setInventoryReady_stays_out, setCommandsAvailable_stays_out, H1.
  - destruct (commandTimers w) as [|n]; [exact H|].
    unfold commandDone.
    assert (K : noGui (set_commandTimers n w))
      by (apply (frame_noGui w); try reflexivity; exact H).
    destruct (stateIs _ _); [|exact K].
    apply go_noGui; [discriminate | exact K].
  - (* auto click *)
    rewrite H2. destruct k; exact H.
  - rewrite H3. exact H.
Qed.

Lemma world_run_snoc (evs : list Event) (ev : Event) (w : World) :
  run (evs ++ [ev]) w = step (run evs w) ev.
Proof. unfold run. now rewrite fold_left_app. Qed.

(** Induction over the events, oldest first. *)
Lemma world_reachable_ind (P : World -> Prop) :
  P init -> (forall w ev, P w -> P (step w ev)) ->
  forall evs, P (run evs init).
Proof.
  intros H0 Hstep evs. induction evs as [|ev evs IH] using rev_ind;
    [exact H0|].
  rewrite world_run_snoc. now apply Hstep.
Qed.

(** X23. No method of the three classes asks the machine for
    WAITING_GUI, and GUI_RECEIVED is allowed from WAITING_GUI only.  So
    whatever is called and whatever arrives, in whatever order, the
    machine of a new client is never in WAITING_GUI, GUI_RECEIVED,
    CLICKING_SLOT or COMPLETED, no click timer is ever pending, and no
    inventory_transaction is ever written. *)
Theorem container_flow_never_entered :
  forall (evs : list Event),
    guiState (state (sm (run evs init))) = false /\
    autoClickTimers (run evs init) = [] /\
    assumeTimers (run evs init) = 0%nat /\
    transactionsWritten (run evs init) = [].
Proof.
  apply (world_reachable_ind noGui).
  - repeat split.
  - intros w ev. apply step_noGui.
Qed.

(** *** Commands wait for the fallback timer *)

Lemma keeps_refl (w : World) : keeps w w.
Proof. intros H. auto. Qed.

Lemma keeps_trans (w1 w2 w3 : World) : keeps w1 w2 -> keeps w2 w3 -> keeps w1 w3.
Proof.
  intros H12 H23 H. destruct (H12 H) as [A1 [A2 A3]].
  destruct (H23 A1) as [B1 [B2 B3]]. repeat split; auto. congruence.
Qed.

Lemma frame_keeps (w w' : World) :
  sm w' = sm w -> written w' = written w ->
  readyFallbackTimer w' = readyFallbackTimer w -> keeps w w'.
Proof.
  intros E1 E2 E3 H. unfold unavailable, commandsWritten in *.
  rewrite E1, E2, E3. auto.
Qed.

Lemma go_keeps (t : ClientState) (r : string) (w : World) : keeps w (go t r w).
Proof.
  intros H. unfold unavailable, commandsWritten in *. wfields.
  rewrite transition_keeps_data. auto.
Qed.

Lemma set_sm_keeps (m : StateMachine) (w : World) :
  commandsAvailable (stateData m) = commandsAvailable (stateData (sm w)) ->
  keeps w (set_sm m w).
Proof.
  intros E H. unfold unavailable, commandsWritten in *. wfields.
  rewrite E. auto.
Qed.

Lemma ready_keeps (w : World) :
  keeps w (set_sm (setInventoryReady true (sm w)) w).
Proof. apply set_sm_keeps. apply setInventoryReady_stores. Qed.

Lemma write_keeps (p : Packet) (w : World) :
  isCommand p = false -> keeps w (write p w).
Proof.
  intros Hp H. rewrite commandsWritten_write, Hp, app_nil_r.
  unfold unavailable in *. wfields. auto.
Qed.

Lemma disconnect_keeps (w : World) : keeps w (disconnect w).
Proof.
  intros H. unfold disconnect, unavailable, commandsWritten. cbv zeta. wfields.
  destruct (client w); wfields; repeat split.
  - intros E. now rewrite E.
  - intros E. now rewrite E.
Qed.

Lemma armReadyFallback_keeps (w : World) : keeps w (armReadyFallback w).
Proof.
  intros H. unfold armReadyFallback, unavailable, commandsWritten in *.
  destruct (readyFallbackTimer w) eqn:E; wfields; repeat split; auto;
    discriminate.
Qed.

Lemma canSendCommand_needs (m : StateMachine) :
  canSendCommand m = true ->
  state m = READY /\ commandsAvailable (stateData m) = true /\
  inventoryReady (stateData m) = true.
Proof.
  unfold canSendCommand. intros H.
  apply andb_prop in H. destruct H as [H H3].
  apply andb_prop in H. destruct H as [H1 H2].
  apply state_eqb_true in H1. auto.
Qed.

Lemma unavailable_cannot_send (w : World) :
  unavailable w -> canSendCommand (sm w) = false.
Proof.
  intros H. destruct (canSendCommand (sm w)) eqn:E; [|reflexivity].
  apply canSendCommand_needs in E. unfold unavailable in H.
  destruct E as [_ [E _]]. congruence.
Qed.

Lemma loginTimedOut_keeps (w : World) : keeps w (loginTimedOut w).
Proof.
  unfold loginTimedOut. destruct (negb _); [|apply keeps_refl].
  eapply keeps_trans; [apply go_keeps | apply disconnect_keeps].
Qed.

Lemma clickSlot_keeps (i : nat) (slotIndex : Z) (w : World) :
  keeps w (snd (clickSlot i slotIndex w)).
Proof.
  unfold clickSlot. destruct (nth_error _ _) as [d|]; [|apply keeps_refl].
  destruct (negb (truthy _)); [apply keeps_refl|].
  destruct (negb (cd_received d)); [apply keeps_refl|].
  destruct (negb (stateIs _ _)); [apply keeps_refl|]. cbv zeta. cbn [snd].
  match goal with
  | |- keeps _ (set_assumeTimers _ (write ?p (go ?t ?r _))) =>
      apply keeps_trans with (go t r w); [apply go_keeps|];
      apply keeps_trans with (write p (go t r w));
        [apply write_keeps; reflexivity | now apply frame_keeps]
  end.
Qed.

Lemma step_keeps (w : World) (ev : Event) :
  isReadyFallback ev = false \/ readyFallbackTimer w <> Pending ->
  keeps w (step w ev).
Proof.
  intros Hev. destruct ev; cbn [step].
  - unfold connect. cbv zeta. destruct created.
    + eapply keeps_trans; [apply go_keeps|].
      apply frame_keeps; now repeat split_match; wfields.
    + eapply keeps_trans; apply go_keeps.
  - apply disconnect_keeps.
  - intros H. unfold sendCommand.
    rewrite (unavailable_cannot_send w H). cbn [negb snd]. auto.
  - now apply frame_keeps.
  - apply clickSlot_keeps.
  - unfold resetContainerData. destruct (nth_error _ _);
      [now apply frame_keeps | apply keeps_refl].
  - unfold onPlayStatus. destruct (String.eqb _ _);
      [apply go_keeps | apply keeps_refl].
  - unfold onResourcePackStack. cbv zeta.
    destruct (client _); [|apply go_keeps].
    eapply keeps_trans; [apply go_keeps | apply write_keeps; reflexivity].
  - unfold onStartGame. cbv zeta.
    eapply keeps_trans; [apply (go_keeps SPAWNING "Game started")|].
    set (w1 := go SPAWNING "Game started" w).
    assert (K : keeps w1 (if negb (inventoryReady (stateData (sm w1)))
                          then set_sm (setInventoryReady true (sm w1)) w1
                          else w1))
      by (destruct (negb _); [apply ready_keeps | apply keeps_refl]).
    eapply keeps_trans; [exact K|].
    set (w2 := if negb _ then _ else w1).
    destruct (negb (client w2)); [apply keeps_refl|].
    eapply keeps_trans; [apply (write_keeps request_chunk_radius); reflexivity|].
    destruct (stateIs SPAWNING _).
    + eapply keeps_trans; [apply armReadyFallback_keeps | apply go_keeps].
    + apply armReadyFallback_keeps.
  - unfold onInventoryContent. destruct (isPlayerWindow _);
      [apply ready_keeps | apply keeps_refl].
  - unfold onInventorySlot. destruct (_ && _);
      [apply ready_keeps | apply keeps_refl].
  - now apply frame_keeps.
  - unfold onError. destruct (_ || _); [apply keeps_refl | apply go_keeps].
  - apply go_keeps.
  - unfold onContainerOpen. destruct (nth_error _ _) as [d|]; [|apply keeps_refl].
    destruct (_ || _); [|apply keeps_refl]. cbv zeta.
    eapply keeps_trans; [|apply go_keeps].
    eapply keeps_trans; [|apply set_sm_keeps; reflexivity].
    now apply frame_keeps.
  - unfold onGuiInventoryContent.
    destruct (nth_error _ _) as [d|]; [|apply keeps_refl].
    destruct (strictEq _ _); [|apply keeps_refl]. cbv zeta.
    destruct (stateIs _ _); now apply frame_keeps.
  - unfold onContainerClose.
    destruct (nth_error _ _) as [d|]; [|apply keeps_refl].
    destruct (strictEq _ _); [|apply keeps_refl]. cbv zeta.
    destruct (stateIs _ _).
    + eapply keeps_trans; [apply go_keeps | now apply frame_keeps].
    + now apply frame_keeps.
  - destruct (loginTimeout w); try apply keeps_refl.
    apply keeps_trans with (set_loginTimeout Spent w);
      [now apply frame_keeps | apply loginTimedOut_keeps].
  - destruct (strayLoginTimers w) as [|n]; [apply keeps_refl|].
    apply keeps_trans with (set_strayLoginTimers n w);
      [now apply frame_keeps | apply loginTimedOut_keeps].
  - destruct Hev as [Hev | Hev]; [discriminate Hev|].
    destruct (readyFallbackTimer w); try apply keeps_refl.
    now contradiction Hev.
  - destruct (commandTimers w) as [|n]; [apply keeps_refl|].
    unfold commandDone.
    apply keeps_trans with (set_commandTimers n w); [now apply frame_keeps|].
    destruct (stateIs _ _); [apply go_keeps | apply keeps_refl].
  - destruct (nth_error _ _) as [[i slotIndex]|]; [|apply keeps_refl].
    apply keeps_trans
      with (set_autoClickTimers (removeAt k (autoClickTimers w)) w);
      [now apply frame_keeps | apply clickSlot_keeps].
  - destruct (assumeTimers w) as [|n]; [apply keeps_refl|].
    unfold assumeSuccess.
    apply keeps_trans with (set_assumeTimers n w); [now apply frame_keeps|].
    destruct (stateIs _ _); [apply go_keeps | apply keeps_refl].
Qed.

Lemma run_cons (ev : Event) (evs : list Event) (w : World) :
  run (ev :: evs) w = run evs (step w ev).
Proof. reflexivity. Qed.

Lemma run_keeps_without_fallback (evs : list Event) :
  forall w, existsb isReadyFallback evs = false -> keeps w (run evs w).
Proof.
  induction evs as [|ev evs IH]; intros w Hall; [apply keeps_refl|].
  cbn [existsb] in Hall. apply orb_false_iff in Hall. destruct Hall as [Hev Hall].
  rewrite run_cons. apply keeps_trans with (step w ev);
    [apply step_keeps; left; exact Hev | apply IH; exact Hall].
Qed.

(** X24. Nothing but the callback of the 15000 ms fallback timer calls
    setCommandsAvailable: as long as that timer has not run out,
    commandsAvailable is unset, canSendCommand is false and no
    command_request is written, whatever else is called or arrives. *)
Theorem no_command_before_fallback :
  forall (evs : list Event),
    existsb isReadyFallback evs = false ->
    commandsAvailable (stateData (sm (run evs init))) = false /\
    canSendCommand (sm (run evs init)) = false /\
    commandsWritten (run evs init) = [].
Proof.
  intros evs Hall.
  destruct (run_keeps_without_fallback evs init Hall eq_refl) as [H1 [H2 _]].
  split; [exact H1|]. split; [now apply unavailable_cannot_send | exact H2].
Qed.

Lemma no_command_before_fallback_witness :
  let evs := [EvConnect true ""; EvPlayStatus "login_success";
              EvResourcePackStack; EvStartGame; EvSpawn; EvNewGui;
              EvInventoryContent (IdNum 0); EvSendCommand "tpa x"] in
  state (sm (run evs init)) = WAITING_COMMANDS /\
  commandsWritten (run evs init) = [].
Proof.
  intros evs. split; [vm_compute; reflexivity|].
  exact (proj2 (proj2 (no_command_before_fallback evs eq_refl))).
Defined.

Lemma run_keeps_spent (evs : list Event) :
  forall w, unavailable w -> readyFallbackTimer w = Spent ->
    unavailable (run evs w) /\ commandsWritten (run evs w) = commandsWritten w /\
    readyFallbackTimer (run evs w) = Spent.
Proof.
  induction evs as [|ev evs IH]; intros w Hu Hs; [auto|].
  rewrite run_cons.
  destruct (step_keeps w ev) as [A1 [A2 A3]];
    [right; rewrite Hs; discriminate | exact Hu |].
  destruct (IH _ A1 (A3 Hs)) as [B1 [B2 B3]].
  repeat split; auto. congruence.
Qed.

(** X25. disconnect clears the fallback timer but keeps its handle, and
    armReadyFallback arms a timer only while the handle is null.  So
    after a disconnect while the timer is pending no timer is ever armed
    again: whatever is called or arrives afterwards, connect included,
    commandsAvailable stays unset, canSendCommand stays false and no
    further command_request is written. *)
Theorem disconnect_with_pending_fallback_disables_commands :
  forall (w : World) (evs : list Event),
    readyFallbackTimer w = Pending ->
    readyFallbackTimer (run (EvDisconnect :: evs) w) = Spent /\
    commandsAvailable (stateData (sm (run (EvDisconnect :: evs) w))) = false /\
    canSendCommand (sm (run (EvDisconnect :: evs) w)) = false /\
    commandsWritten (run (EvDisconnect :: evs) w) = commandsWritten w.
Proof.
  intros w evs Hp. rewrite run_cons. cbn [step].
  assert (Hu : unavailable (disconnect w)).
  { unfold unavailable, disconnect. cbv zeta. wfields.
    destruct (client w); reflexivity. }
  assert (Hs : readyFallbackTimer (disconnect w) = Spent).
  { unfold disconnect. cbv zeta. wfields. rewrite Hp.
    destruct (client w); reflexivity. }
  assert (Hw : commandsWritten (disconnect w) = commandsWritten w).
  { unfold commandsWritten, disconnect. cbv zeta. wfields.
    destruct (client w); reflexivity. }
  destruct (run_keeps_spent evs _ Hu Hs) as [B1 [B2 B3]].
  split; [exact B3|]. split; [exact B1|].
  split; [now apply unavailable_cannot_send | congruence].
Qed.

(** A login that is given up after start_game, and a second one that
    runs for as long as it likes. *)
Lemma disconnect_with_pending_fallback_disables_commands_witness :
  let w := run [EvConnect true ""; EvPlayStatus "login_success"; EvStartGame]
               init in
  let evs := [EvConnect true ""; EvPlayStatus "login_success"; EvStartGame;
              EvInventoryContent (IdNum 0); EvReadyFallback;
              EvSendCommand "/tpa x"] in
  state (sm (run (EvDisconnect :: evs) w)) = WAITING_COMMANDS /\
  canSendCommand (sm (run (EvDisconnect :: evs) w)) = false.
Proof.
  intros w evs.
  assert (Hp : readyFallbackTimer w = Pending) by (vm_compute; reflexivity).
  split; [vm_compute; reflexivity|].
  exact (proj1 (proj2 (proj2
           (disconnect_with_pending_fallback_disables_commands w evs Hp)))).
Defined.

(** *** What is written, and when *)

Lemma same_writes (w w' : World) : written w' = written w -> writesOf w w'.
Proof. intros E. now left. Qed.

Lemma go_from (s t : ClientState) (r : string) (w : World) :
  state (sm w) = s -> In t (transitions s) -> state (sm (go t r w)) = t.
Proof.
  intros Hs Hin. wfields. rewrite transition_result.
  rewrite (proj2 (canTransition_In t (sm w))); [reflexivity|]. now rewrite Hs.
Qed.

Lemma startsWith_withSlash (command : string) :
  startsWith (withSlash command) "/" = true.
Proof.
  unfold withSlash. destruct (startsWith command "/") eqn:E; [exact E|].
  simpl. destruct command; reflexivity.
Qed.

Lemma sendCommand_writes (command : string) (w : World) :
  writesOf w (snd (sendCommand command w)).
Proof.
  unfold sendCommand. destruct (canSendCommand (sm w)) eqn:E; cbn [negb];
    [|now left].
  cbv zeta. cbn [snd]. right. exists (command_request (withSlash command)).
  split; [reflexivity|]. split; [exact E|].
  split; [apply startsWith_withSlash|].
  destruct (canSendCommand_needs _ E) as [Hs _].
  wfields. apply (go_from READY); [exact Hs | cbn; auto].
Qed.

Lemma clickSlot_writes (i : nat) (slotIndex : Z) (w w0 : World) :
  sm w = sm w0 -> written w = written w0 ->
  writesOf w0 (snd (clickSlot i slotIndex w)).
Proof.
  intros E1 E2. unfold clickSlot.
  destruct (nth_error _ _) as [d|]; [|now left].
  destruct (truthy (cd_windowId d)) eqn:Ht; cbn [negb]; [|now left].
  destruct (cd_received d); cbn [negb]; [|now left].
  destruct (stateIs GUI_RECEIVED w) eqn:Hs; cbn [negb]; [|now left].
  cbv zeta. cbn [snd]. right.
  exists (inventory_transaction (cd_windowId d) slotIndex).
  apply stateIs_true in Hs.
  split; [wfields; now rewrite E2|]. split; [now rewrite <- E1|].
  split; [exact Ht|]. wfields. apply (go_from GUI_RECEIVED); [exact Hs | cbn; auto].
Qed.

Lemma step_writes (w : World) (ev : Event) : writesOf w (step w ev).
Proof.
  destruct ev; cbn [step];
    try (apply same_writes; reflexivity).
  - apply same_writes. unfold connect. cbv zeta.
    repeat split_match; reflexivity.
  - apply same_writes. unfold disconnect. cbv zeta. wfields.
    destruct (client w); reflexivity.
  - apply sendCommand_writes.
  - now apply clickSlot_writes.
  - apply same_writes. unfold resetContainerData.
    destruct (nth_error _ _); reflexivity.
  - apply same_writes. unfold onPlayStatus.
    destruct (String.eqb _ _); reflexivity.
  - unfold onResourcePackStack. cbv zeta. wfields.
    destruct (client w) eqn:Hc; [|now left].
    right. exists resource_pack_client_response. now split.
  - unfold onStartGame. cbv zeta.
    set (w1 := go SPAWNING "Game started" w).
    set (w2 := if negb _ then _ else w1).
    assert (E : written w2 = written w /\ client w2 = client w)
      by (unfold w2; destruct (negb _); split; reflexivity).
    destruct E as [E1 E2]. rewrite E2.
    destruct (client w) eqn:Hc; cbn [negb]; [|left; exact E1].
    right. exists request_chunk_radius. split; [|exact Hc].
    unfold armReadyFallback.
    repeat split_match; wfields; now rewrite E1.
  - apply same_writes. unfold onInventoryContent.
    destruct (isPlayerWindow _); reflexivity.
  - apply same_writes. unfold onInventorySlot.
    destruct (_ && _); reflexivity.
  - apply same_writes. unfold onError. destruct (_ || _); reflexivity.
  - apply same_writes. unfold onContainerOpen.
    repeat split_match; reflexivity.
  - apply same_writes. unfold onGuiInventoryContent.
    repeat split_match; reflexivity.
  - apply same_writes. unfold onContainerClose.
    repeat split_match; reflexivity.
  - apply same_writes. unfold loginTimedOut, disconnect. cbv zeta. wfields.
    repeat split_match; reflexivity.
  - apply same_writes. unfold loginTimedOut, disconnect. cbv zeta. wfields.
    repeat split_match; reflexivity.
  - apply same_writes. unfold readyFallback. cbv zeta.
    repeat split_match; reflexivity.
  - apply same_writes. unfold commandDone. repeat split_match; reflexivity.
  - destruct (nth_error _ _) as [[i slotIndex]|]; [|now left].
    now apply clickSlot_writes.
  - apply same_writes. unfold assumeSuccess. repeat split_match; reflexivity.
Qed.

(** X26. One event writes at most one packet.  A command_request is
    written only while canSendCommand holds, its command starts with a
    slash and the machine is left in COMMAND_SENT; an
    inventory_transaction only in GUI_RECEIVED for a window id that is
    not null, 0 or empty, and the machine is left in CLICKING_SLOT; the
    two packets of the login only while BedrockClient has a client. *)
Theorem one_packet_per_event :
  forall (w : World) (ev : Event),
    written (step w ev) = written w \/
    exists p, written (step w ev) = app (written w) [p] /\
      match p with
      | command_request c =>
          canSendCommand (sm w) = true /\ startsWith c "/" = true /\
          state (sm (step w ev)) = COMMAND_SENT
      | inventory_transaction window_id _ =>
          state (sm w) = GUI_RECEIVED /\ truthy window_id = true /\
          state (sm (step w ev)) = CLICKING_SLOT
      | resource_pack_client_response | request_chunk_radius =>
          client w = true
      end.
Proof. intros w ev. exact (step_writes w ev). Qed.

Lemma sendCommand_accepts (command : string) (w : World) :
  canSendCommand (sm w) = true ->
  sendCommand command w =
    (true,
     set_commandTimers (S (commandTimers w))
       (write (command_request (withSlash command))
          (go COMMAND_SENT ("Sending: " ++ withSlash command) w))).
Proof. intros H. unfold sendCommand. rewrite H. reflexivity. Qed.

Lemma commandDone_ready (w : World) :
  state (sm w) = COMMAND_SENT ->
  state (sm (commandDone w)) = READY /\
  stateData (sm (commandDone w)) = stateData (sm w) /\
  written (commandDone w) = written w.
Proof.
  intros Hs. unfold commandDone, stateIs. rewrite Hs. cbn [state_eqb].
  replace (state_eqb COMMAND_SENT COMMAND_SENT) with true by reflexivity.
  split; [apply (go_from COMMAND_SENT); [exact Hs | cbn; auto]|].
  split; [wfields; apply transition_keeps_data | reflexivity].
Qed.

(** X27. While canSendCommand holds, sendCommand returns true, writes
    one command_request and leaves the machine in COMMAND_SENT; until
    its 500 ms timer runs out every further sendCommand returns false
    and changes nothing; when the timer runs out the machine is READY
    and canSendCommand holds again. *)
Theorem command_blocks_until_timer :
  forall (w : World) (command next : string),
    canSendCommand (sm w) = true ->
    fst (sendCommand command w) = true /\
    written (snd (sendCommand command w)) =
      app (written w) [command_request (withSlash command)] /\
    state (sm (snd (sendCommand command w))) = COMMAND_SENT /\
    sendCommand next (snd (sendCommand command w)) =
      (false, snd (sendCommand command w)) /\
    canSendCommand
      (sm (step (snd (sendCommand command w)) EvCommandTimer)) = true /\
    written (step (snd (sendCommand command w)) EvCommandTimer) =
      written (snd (sendCommand command w)).
Proof.
  intros w command next H.
  destruct (canSendCommand_needs _ H) as [Hs [Hc Hi]].
  rewrite (sendCommand_accepts command w H). cbn [fst snd].
  remember (set_commandTimers _ _) as w1 eqn:E1.
  assert (S1 : state (sm w1) = COMMAND_SENT).
  { subst w1. wfields. apply (go_from READY); [exact Hs | cbn; auto]. }
  assert (D1 : stateData (sm w1) = stateData (sm w)).
  { subst w1. wfields. apply transition_keeps_data. }
  assert (T1 : commandTimers w1 = S (commandTimers w)) by (subst w1; reflexivity).
  assert (W1 : written w1 =
               app (written w) [command_request (withSlash command)])
    by (subst w1; reflexivity).
  split; [reflexivity|]. split; [exact W1|]. split; [exact S1|].
  split.
  - unfold sendCommand, canSendCommand. rewrite S1. reflexivity.
  - cbn [step]. rewrite T1.
    destruct (commandDone_ready (set_commandTimers (commandTimers w) w1))
      as [K1 [K2 K3]]; [exact S1|].
    split; [|exact K3].
    unfold canSendCommand. rewrite K1, K2. wfields. rewrite D1, Hc, Hi.
    reflexivity.
Qed.

Lemma command_blocks_until_timer_witness :
  let w := run [EvConnect true ""; EvPlayStatus "login_success"; EvStartGame;
                EvReadyFallback] init in
  sendCommand "home" (snd (sendCommand "tpa x" w)) =
    (false, snd (sendCommand "tpa x" w)).
Proof.
  intros w.
  assert (H : canSendCommand (sm w) = true) by (vm_compute; reflexivity).
  exact (proj1 (proj2 (proj2 (proj2
           (command_blocks_until_timer w "tpa x" "home" H))))).
Defined.

(** *** A container that opens too early *)

Lemma nth_error_replaceAt (d x : ContainerData) (l : list ContainerData) :
  forall i, nth_error l i = Some x -> nth_error (replaceAt i d l) i = Some d.
Proof.
  induction l as [|y l IH]; intros [|i] H; try discriminate H;
    cbn [replaceAt nth_error] in *; [reflexivity | now apply IH].
Qed.

(** X28. The handler of container_open takes a container in READY and
    in COMMAND_SENT too, but the table allows GUI_RECEIVED from
    WAITING_GUI only: in these two states the window id and type are
    stored, in the handler and in the machine, the machine writes an
    error to the logger and stays where it is, and clickSlot on that
    handler is refused. *)
Theorem container_open_outside_waiting_gui :
  forall (w : World) (i : nat) (window_id : Id) (type : JsValue)
         (d : ContainerData),
    nth_error (guis w) i = Some d ->
    state (sm w) = READY \/ state (sm w) = COMMAND_SENT ->
    state (sm (step w (EvContainerOpen i window_id type))) = state (sm w) /\
    windowId (stateData (sm (step w (EvContainerOpen i window_id type)))) =
      idValue window_id /\
    containerType (stateData (sm (step w (EvContainerOpen i window_id type)))) =
      type /\
    nth_error (guis (step w (EvContainerOpen i window_id type))) i =
      Some {| cd_windowId := window_id; cd_type := type;
              cd_slots := cd_slots d; cd_received := cd_received d |} /\
    logger (sm (step w (EvContainerOpen i window_id type))) =
      app (logger (sm w))
          [(LvError, invalidMessage (state (sm w)) GUI_RECEIVED)] /\
    forall slotIndex,
      clickSlot i slotIndex (step w (EvContainerOpen i window_id type)) =
        (false, step w (EvContainerOpen i window_id type)).
Proof.
  intros w i window_id type d Hd Hs. cbn [step]. unfold onContainerOpen.
  rewrite Hd.
  assert (Hin : stateIs COMMAND_SENT w || stateIs READY w ||
                stateIs WAITING_GUI w = true)
    by (unfold stateIs; destruct Hs as [-> | ->]; reflexivity).
  rewrite Hin. cbv zeta.
  remember (go GUI_RECEIVED "Container opened" _) as w' eqn:E.
  assert (S1 : state (sm w') = state (sm w)).
  { subst w'. wfields. rewrite transition_result. unfold canTransition.
    cbn [state setContainerData withData].
    destruct Hs as [-> | ->]; reflexivity. }
  assert (G1 : nth_error (guis w') i =
               Some {| cd_windowId := window_id; cd_type := type;
                       cd_slots := cd_slots d; cd_received := cd_received d |}).
  { subst w'. wfields. now apply nth_error_replaceAt with d. }
  split; [exact S1|]. split; [|split; [|split; [exact G1|split]]].
  - subst w'. wfields. rewrite transition_keeps_data. reflexivity.
  - subst w'. wfields. rewrite transition_keeps_data. reflexivity.
  - subst w'. wfields. unfold transition, canTransition.
    cbn [state setContainerData withData logger].
    destruct Hs as [-> | ->]; reflexivity.
  - intros slotIndex. unfold clickSlot. rewrite G1. cbn [cd_windowId cd_received].
    destruct (negb (truthy window_id)); [reflexivity|].
    destruct (negb (cd_received d)); [reflexivity|].
    unfold stateIs. rewrite S1. destruct Hs as [-> | ->]; reflexivity.
Qed.

(** The fallback makes the machine READY; a container opens before any
    command was sent. *)
Lemma container_open_outside_waiting_gui_witness :
  let w := run [EvConnect true ""; EvPlayStatus "login_success"; EvStartGame;
                EvSpawn; EvNewGui; EvReadyFallback] init in
  state (sm (step w (EvContainerOpen 0 (IdNum 5) (JsString "container")))) =
    READY /\
  clickSlot 0 16 (step w (EvContainerOpen 0 (IdNum 5) (JsString "container"))) =
    (false, step w (EvContainerOpen 0 (IdNum 5) (JsString "container"))).
Proof.
  intros w.
  assert (Hd : nth_error (guis w) 0 = Some noContainer) by (vm_compute; reflexivity).
  assert (Hs : state (sm w) = READY \/ state (sm w) = COMMAND_SENT)
    by (left; vm_compute; reflexivity).
  destruct (container_open_outside_waiting_gui w 0%nat (IdNum 5)
              (JsString "container") noContainer Hd Hs) as [H1 [_ [_ [_ [_ H5]]]]].
  split; [rewrite H1; vm_compute; reflexivity | exact (H5 16)].
Defined.

(** *** READY means ready *)

Lemma checkReadyState_keeps_data (m : StateMachine) :
  stateData (checkReadyState m) = stateData m.
Proof. apply checkReadyState_data. Qed.

Lemma checkReadyState_cases (m : StateMachine) :
  state (checkReadyState m) = state m \/
  (commandsAvailable (stateData m) = true /\
   inventoryReady (stateData m) = true).
Proof.
  unfold checkReadyState. destruct (_ && _ && _) eqn:E; [|now left].
  right. apply andb_prop in E. destruct E as [E E3].
  apply andb_prop in E. destruct E as [_ E2]. auto.
Qed.

Lemma checkReadyState_readyWithFlags (m : StateMachine) :
  readyWithFlags m -> readyWithFlags (checkReadyState m).
Proof.
  intros H. unfold readyWithFlags. rewrite checkReadyState_keeps_data.
  destruct (checkReadyState_cases m) as [E | E]; [|intros _; exact E].
  rewrite E. exact H.
Qed.

Lemma withData_readyWithFlags (d : StateData) (m : StateMachine) :
  (commandsAvailable (stateData m) = true -> commandsAvailable d = true) ->
  (inventoryReady (stateData m) = true -> inventoryReady d = true) ->
  readyWithFlags m -> readyWithFlags (withData d m).
Proof.
  intros H1 H2 H Hs. cbn [withData state stateData] in *.
  destruct (H Hs) as [A B]. auto.
Qed.

Lemma setInventoryReady_readyWithFlags (m : StateMachine) :
  readyWithFlags m -> readyWithFlags (setInventoryReady true m).
Proof.
  intros H. unfold setInventoryReady.
  apply checkReadyState_readyWithFlags, withData_readyWithFlags; auto.
Qed.

Lemma setCommandsAvailable_readyWithFlags (m : StateMachine) :
  readyWithFlags m -> readyWithFlags (setCommandsAvailable true m).
Proof.
  intros H. unfold setCommandsAvailable.
  apply checkReadyState_readyWithFlags, withData_readyWithFlags; auto.
Qed.

Lemma transition_readyWithFlags (t : ClientState) (r : string)
    (m : StateMachine) :
  t <> READY \/ state m = COMMAND_SENT ->
  readyWithFlags m -> readyWithFlags (snd (transition t r m)).
Proof.
  intros Ht H. unfold readyWithFlags.
  rewrite transition_keeps_data, transition_result.
  destruct (canTransition t m) eqn:E; [|exact H].
  intros Hs. apply H. apply canTransition_In in E.
  destruct Hs as [-> | ->].
  - destruct Ht as [Ht | Ht]; [now contradiction Ht | now right].
  - left. destruct (state m); cbn [transitions In] in E;
      intuition discriminate.
Qed.

Lemma go_ready (t : ClientState) (r : string) (w : World) :
  t <> READY -> readyWithFlags (sm w) -> readyWithFlags (sm (go t r w)).
Proof. intros Ht H. wfields. apply transition_readyWithFlags; auto. Qed.

Lemma disconnect_ready (w : World) : readyWithFlags (sm (disconnect w)).
Proof.
  unfold disconnect. cbv zeta. wfields.
  intros [H | H]; destruct (client w); discriminate H.
Qed.

Lemma clickSlot_ready (i : nat) (slotIndex : Z) (w : World) :
  readyWithFlags (sm w) -> readyWithFlags (sm (snd (clickSlot i slotIndex w))).
Proof.
  intros H. unfold clickSlot. repeat split_match; cbn [snd]; try exact H.
  cbv zeta. wfields. apply transition_readyWithFlags; [left; discriminate | exact H].
Qed.

Lemma loginTimedOut_ready (w : World) :
  readyWithFlags (sm w) -> readyWithFlags (sm (loginTimedOut w)).
Proof.
  intros H. unfold loginTimedOut.
  destruct (negb _); [apply disconnect_ready | exact H].
Qed.

Lemma step_ready (w : World) (ev : Event) :
  readyWithFlags (sm w) -> readyWithFlags (sm (step w ev)).
Proof.
  intros H. destruct ev; cbn [step]; try exact H.
  - unfold connect. cbv zeta. destruct created.
    + repeat split_match; wfields;
        (apply transition_readyWithFlags; [left; discriminate | exact H]).
    + apply go_ready; [discriminate|]. apply go_ready; [discriminate | exact H].
  - apply disconnect_ready.
  - unfold sendCommand. destruct (negb _); [exact H|]. cbv zeta. cbn [snd].
    wfields. apply transition_readyWithFlags; [left; discriminate | exact H].
  - now apply clickSlot_ready.
  - unfold resetContainerData. destruct (nth_error _ _); exact H.
  - unfold onPlayStatus. destruct (String.eqb _ _); [|exact H].
    apply go_ready; [discriminate | exact H].
  - unfold onResourcePackStack. cbv zeta.
    destruct (client _); wfields;
      (apply transition_readyWithFlags; [left; discriminate | exact H]).
  - unfold onStartGame. cbv zeta.
    set (w1 := go SPAWNING "Game started" w).
    assert (K1 : readyWithFlags (sm w1))
      by (apply go_ready; [discriminate | exact H]).
    set (w2 := if negb _ then _ else w1).
    assert (K2 : readyWithFlags (sm w2)).
    { unfold w2. destruct (negb _); [|exact K1]. wfields.
      now apply setInventoryReady_readyWithFlags. }
    destruct (negb (client w2)); [exact K2|].
    assert (K3 : sm (armReadyFallback (write request_chunk_radius w2)) = sm w2)
      by (unfold armReadyFallback; now split_match; wfields).
    destruct (stateIs SPAWNING _).
    + wfields. rewrite K3.
      apply transition_readyWithFlags; [left; discriminate | exact K2].
    + now rewrite K3.
  - unfold onInventoryContent. destruct (isPlayerWindow _); [|exact H].
    wfields. now apply setInventoryReady_readyWithFlags.
  - unfold onInventorySlot. destruct (_ && _); [|exact H].
    wfields. now apply setInventoryReady_readyWithFlags.
  - unfold onError. destruct (_ || _); [exact H|].
    apply go_ready; [discriminate | exact H].
  - apply go_ready; [discriminate | exact H].
  - unfold onContainerOpen. destruct (nth_error _ _) as [d|]; [|exact H].
    destruct (_ || _); [|exact H]. cbv zeta. wfields.
    apply transition_readyWithFlags; [left; discriminate|]. exact H.
  - unfold onGuiInventoryContent.
    destruct (nth_error _ _) as [d|]; [|exact H].
    destruct (strictEq _ _); [|exact H]. cbv zeta.
    destruct (stateIs _ _); exact H.
  - unfold onContainerClose.
    destruct (nth_error _ _) as [d|]; [|exact H].
    destruct (strictEq _ _); [|exact H]. cbv zeta.
    destruct (stateIs _ _); wfields; [|exact H].
    apply transition_readyWithFlags; [left; discriminate | exact H].
  - destruct (loginTimeout w); try exact H. now apply loginTimedOut_ready.
  - destruct (strayLoginTimers w); [exact H|]. now apply loginTimedOut_ready.
  - destruct (readyFallbackTimer w); try exact H.
    unfold readyFallback. cbv zeta. wfields.
    destruct (_ || _); wfields; [|exact H].
    now apply setInventoryReady_readyWithFlags,
              setCommandsAvailable_readyWithFlags.
  - destruct (commandTimers w) as [|n]; [exact H|].
    unfold commandDone. destruct (stateIs COMMAND_SENT _) eqn:E; [|exact H].
    apply stateIs_true in E. wfields.
    apply transition_readyWithFlags; [right; exact E | exact H].
  - destruct (nth_error _ _) as [[i slotIndex]|]; [|exact H].
    now apply clickSlot_ready.
  - destruct (assumeTimers w) as [|n]; [exact H|].
    unfold assumeSuccess. destruct (stateIs _ _); [|exact H].
    wfields. apply transition_readyWithFlags; [left; discriminate | exact H].
Qed.

(** X29. The table lets the machine go from SPAWNING to READY without
    the flags, but no method of the three classes asks for it: in every
    state the client can reach, READY and COMMAND_SENT are held with
    commandsAvailable and inventoryReady both set, so isReady and
    canSendCommand agree. *)
Theorem ready_means_can_send :
  forall (evs : list Event),
    (state (sm (run evs init)) = READY \/
     state (sm (run evs init)) = COMMAND_SENT ->
     commandsAvailable (stateData (sm (run evs init))) = true /\
     inventoryReady (stateData (sm (run evs init))) = true) /\
    isReady (sm (run evs init)) = canSendCommand (sm (run evs init)).
Proof.
  intros evs.
  assert (H : readyWithFlags (sm (run evs init))).
  { apply (world_reachable_ind (fun w => readyWithFlags (sm w))).
    - intros [K | K]; discriminate K.
    - intros w ev. apply step_ready. }
  split; [exact H|]. unfold isReady, canSendCommand.
  destruct (state_eqb (state (sm (run evs init))) READY) eqn:E;
    [|reflexivity].
  apply state_eqb_true in E. destruct (H (or_introl E)) as [A B].
  now rewrite A, B.
Qed.

(** *** After an error *)

Lemma transition_from_error (t : ClientState) (r : string) (m : StateMachine) :
  state m = ERROR -> state (snd (transition t r m)) = ERROR.
Proof.
  intros H. rewrite transition_result. unfold canTransition. rewrite H.
  reflexivity.
Qed.

Lemma checkReadyState_from_error (m : StateMachine) :
  state m = ERROR -> state (checkReadyState m) = ERROR.
Proof.
  intros H. destruct (checkReadyState_state m) as [E | E]; [congruence|].
  unfold checkReadyState in E. rewrite H in E. cbn in E. congruence.
Qed.

Lemma setInventoryReady_from_error (b : bool) (m : StateMachine) :
  state m = ERROR -> state (setInventoryReady b m) = ERROR.
Proof. intros H. unfold setInventoryReady. now apply checkReadyState_from_error. Qed.

Lemma setCommandsAvailable_from_error (b : bool) (m : StateMachine) :
  state m = ERROR -> state (setCommandsAvailable b m) = ERROR.
Proof. intros H. unfold setCommandsAvailable. now apply checkReadyState_from_error. Qed.

Ltac error_tac :=
  wfields;
  repeat first
    [ assumption
    | apply transition_from_error
    | apply setInventoryReady_from_error
    | apply setCommandsAvailable_from_error ].

Lemma clickSlot_from_error (i : nat) (slotIndex : Z) (w : World) :
  state (sm w) = ERROR -> state (sm (snd (clickSlot i slotIndex w))) = ERROR.
Proof.
  intros H. unfold clickSlot. repeat split_match; cbn [snd]; try exact H.
  cbv zeta. error_tac.
Qed.

Lemma step_from_error (w : World) (ev : Event) :
  resets ev = false -> state (sm w) = ERROR ->
  state (sm (step w ev)) = ERROR.
Proof.
  intros Hev H.
  destruct ev; try discriminate Hev; cbn [step]; try exact H;
    try (now apply clickSlot_from_error);
    unfold connect, sendCommand, resetContainerData, onPlayStatus,
      onResourcePackStack, onStartGame, onInventoryContent, onInventorySlot,
      onError, onKick, onContainerOpen, onGuiInventoryContent,
      onContainerClose, readyFallback, commandDone, assumeSuccess,
      armReadyFallback;
    cbv zeta; repeat (wfields; split_match); cbn [snd];
    try (now apply clickSlot_from_error);
    cbn [setContainerData withData state]; error_tac.
Qed.

Lemma step_error_writes (w : World) (ev : Event) :
  state (sm w) = ERROR ->
  commandsWritten (step w ev) = commandsWritten w /\
  transactionsWritten (step w ev) = transactionsWritten w.
Proof.
  intros H. unfold commandsWritten, transactionsWritten.
  destruct (step_writes w ev) as [E | [p [E Hp]]]; rewrite E; [now split|].
  rewrite !filter_app. cbn [filter].
  destruct p; cbn [isCommand isTransaction]; rewrite ?app_nil_r;
    try (now split).
  - destruct Hp as [Hp _]. apply canSendCommand_needs in Hp.
    destruct Hp as [Hp _]. congruence.
  - destruct Hp as [Hp _]. congruence.
Qed.

Lemma run_from_error (evs : list Event) :
  forall w, existsb resets evs = false -> state (sm w) = ERROR ->
    state (sm (run evs w)) = ERROR /\
    commandsWritten (run evs w) = commandsWritten w /\
    transactionsWritten (run evs w) = transactionsWritten w.
Proof.
  induction evs as [|ev evs IH]; intros w Hall H; [auto|].
  cbn [existsb] in Hall. apply orb_false_iff in Hall. destruct Hall as [Hev Hall].
  rewrite run_cons.
  destruct (IH _ Hall (step_from_error w ev Hev H)) as [A [B C]].
  destruct (step_error_writes w ev H) as [D E].
  repeat split; congruence.
Qed.

(** X30. After a kick or an error that is not ignored the machine is in
    ERROR, and nothing but disconnect (called by whoever drives the
    client, or by the login timer) takes it out: connect alone does not
    start a new login in the machine, a login that comes through leaves it
    in ERROR, and no command_request or inventory_transaction is
    written. *)
Theorem error_needs_disconnect :
  forall (w : World) (evs : list Event),
    state (sm w) = ERROR -> existsb resets evs = false ->
    state (sm (run evs w)) = ERROR /\
    canSendCommand (sm (run evs w)) = false /\
    commandsWritten (run evs w) = commandsWritten w /\
    transactionsWritten (run evs w) = transactionsWritten w.
Proof.
  intros w evs H Hall.
  destruct (run_from_error evs w Hall H) as [A [B C]].
  split; [exact A|]. split; [|split; assumption].
  unfold canSendCommand. rewrite A. reflexivity.
Qed.

(** A kick once READY, then a second connect whose login comes through. *)
Lemma error_needs_disconnect_witness :
  let w := run [EvConnect true ""; EvPlayStatus "login_success"; EvStartGame;
                EvReadyFallback; EvKick] init in
  let evs := [EvConnect true ""; EvPlayStatus "login_success"; EvStartGame;
              EvInventoryContent (IdNum 0); EvReadyFallback;
              EvSendCommand "tpa x"] in
  state (sm (run evs w)) = ERROR /\ commandsWritten (run evs w) = [].
Proof.
  intros w evs.
  assert (H : state (sm w) = ERROR) by (vm_compute; reflexivity).
  destruct (error_needs_disconnect w evs H eq_refl) as [A [_ [B _]]].
  split; [exact A|]. rewrite B. vm_compute. reflexivity.
Defined.

End AppFacts.
